(** * Speech <-> Text tool (main.py): audio helpers and window logic

    A shallow embedding of [src/main.py]: the two module-level audio helpers
    [speed_change] and [volume_gain_db], and the methods of [MainWindow]
    that keep the history, validate the text to synthesise, dispatch the
    recognition callback, open the capture streams and drive the level
    meter.

    Conventions of the embedding:
    - a Python [int] is a [Z];
    - a Python [str] is the list of its Unicode code points ([pystr]);
      a literal of the source is written [lit "..."], the UTF-8 decoding of
      the bytes between the quotes;
    - a Python [float] that reaches integer conversion ([speed_change]) is an
      IEEE-754 binary64 value, [spec_float] at precision 53; the floats that
      reach [math.log10] are read as real numbers in [volume_gain_db] and
      as binary64 values, with the C library's [log10] as a parameter, in
      [volume_gain_db_binary64];
    - [bytes] are [list byte];
    - a Python exception is a value [Raise e] of the [result] monad;
    - calls into Qt and the synthesis worker are recorded as [effect]s; what
      PyAudio, the recognizer, gTTS and pydub answer is an explicit argument
      of the method that asks ([PortAudio], [TtsBackend], [recognized],
      [read], [now]). *)

From Stdlib Require Import ZArith NArith QArith Qabs List Bool String Ascii Lia.
From Stdlib Require Import Reals Lra Qreals.
From Stdlib Require Import Floats.SpecFloat.
From Stdlib Require Strings.Byte.
Import ListNotations.

Local Open Scope Z_scope.

Definition byte : Set := Corelib.Init.Byte.byte.

(** ** Python values *)

Module Py.

(** A [str]: the sequence of its code points. *)
Definition pystr := list N.

(** UTF-8 decoding of the bytes of a source literal (one to four bytes per
    code point; a truncated sequence keeps its lead byte). *)
Fixpoint utf8_decode (bs : list N) : pystr :=
  match bs with
  | [] => []
  | b0 :: r0 =>
    if (b0 <? 128)%N then b0 :: utf8_decode r0
    else if (b0 <? 224)%N then
      match r0 with
      | b1 :: r1 => ((b0 mod 32) * 64 + b1 mod 64)%N :: utf8_decode r1
      | [] => [b0]
      end
    else if (b0 <? 240)%N then
      match r0 with
      | b1 :: b2 :: r2 =>
        ((b0 mod 16) * 4096 + (b1 mod 64) * 64 + b2 mod 64)%N :: utf8_decode r2
      | _ => [b0]
      end
    else
      match r0 with
      | b1 :: b2 :: b3 :: r3 =>
        ((b0 mod 8) * 262144 + (b1 mod 64) * 4096 + (b2 mod 64) * 64 + b3 mod 64)%N
          :: utf8_decode r3
      | _ => [b0]
      end
  end.

Definition lit (s : string) : pystr :=
  utf8_decode (map Byte.to_N (list_byte_of_string s)).

(** [str.isspace] on one character: the code points CPython's
    [_PyUnicode_IsWhitespace] accepts. *)
Definition isspace (c : N) : bool :=
  ((9 <=? c) && (c <=? 13) || (28 <=? c) && (c <=? 32)
   || (c =? 133) || (c =? 160) || (c =? 5760)
   || (8192 <=? c) && (c <=? 8202)
   || (c =? 8232) || (c =? 8233) || (c =? 8239) || (c =? 8287) || (c =? 12288))%N.

Fixpoint lstrip (s : pystr) : pystr :=
  match s with
  | [] => []
  | c :: s' => if isspace c then lstrip s' else s
  end.

Definition rstrip (s : pystr) : pystr := rev (lstrip (rev s)).

(** [str.strip()] with no argument. *)
Definition strip (s : pystr) : pystr := rstrip (lstrip s).

(** Exceptions: the class and [str(exc)].  Every class listed here derives
    from [Exception]. *)
Inductive exn_class : Type :=
| UnknownValueError   (* speech_recognition *)
| RequestError        (* speech_recognition *)
| OverflowError
| ValueError
| MemoryError
| AudioopError        (* audioop.error *)
| OSError
| OtherException.

Record exn : Type := mk_exn { exn_cls : exn_class; exn_msg : pystr }.

Inductive result (A : Type) : Type :=
| Ok (a : A)
| Raise (e : exn).
Arguments Ok {A} a.
Arguments Raise {A} e.

Definition bind {A B} (m : result A) (k : A -> result B) : result B :=
  match m with
  | Ok a => k a
  | Raise e => Raise e
  end.

Definition raise {A} (c : exn_class) (msg : string) : result A :=
  Raise (mk_exn c (lit msg)).

(** *** binary64 *)

Definition float := spec_float.
Definition prec : Z := 53.
Definition emax : Z := 1024.

Definition fmul : float -> float -> float := SFmul prec emax.
Definition fdiv : float -> float -> float := SFdiv prec emax.

(** [float(n)] for an [int] [n]: round to nearest even, [OverflowError]
    when out of range. *)
Definition float_of_int (n : Z) : result float :=
  match binary_normalize prec emax n 0 false with
  | S754_infinity _ => raise OverflowError "int too large to convert to float"
  | f => Ok f
  end.

(** [int(x)] for a [float] [x]: the integer part, towards zero. *)
Definition int_of_float (x : float) : result Z :=
  match x with
  | S754_zero _ => Ok 0
  | S754_finite s m e => Ok (cond_Zopp s (Z.shiftl (Zpos m) e))
  | S754_infinity _ => raise OverflowError "cannot convert float infinity to integer"
  | S754_nan => raise ValueError "cannot convert float NaN to integer"
  end.

(** The float written [n / d] in decimal or as a fraction: the binary64
    nearest to the quotient (both arguments below 2^53). *)
Definition float_ratio (n d : Z) : float :=
  fdiv (binary_normalize prec emax n 0 false) (binary_normalize prec emax d 0 false).

(** The rational a finite float denotes. *)
Definition float_value (x : float) : Q :=
  match x with
  | S754_finite s m e =>
    if 0 <=? e then inject_Z (cond_Zopp s (Zpos m * 2 ^ e))
    else Qmake (cond_Zopp s (Zpos m)) (Z.to_pos (2 ^ (- e)))
  | _ => 0%Q
  end.

End Py.

Import Py.

Declare Scope py_scope.
Delimit Scope py_scope with py.
Notation "x <- m ;; k" := (Py.bind m (fun x => k))
  (at level 100, m at next level, right associativity) : py_scope.
Local Open Scope py_scope.

(** ** audioop and pydub, as far as [speed_change] reaches them *)

Module Audioop.

Definition INT_MAX : Z := 2 ^ 31 - 1.
Definition INT_MIN : Z := - 2 ^ 31.
(** [PY_SSIZE_T_MAX] of a 64-bit build. *)
Definition PY_SSIZE_T_MAX : Z := 2 ^ 63 - 1.

Definition fits_c_int (n : Z) : bool := (INT_MIN <=? n) && (n <=? INT_MAX).

(** What [audioop.ratecv] does beyond arithmetic on its arguments is C code
    of the interpreter, not of this repository, and is a parameter:
    [can_allocate n] tells whether the interpreter obtains the [n] bytes of
    the output buffer ([PyBytes_FromStringAndSize(NULL, n)] does not return
    [NULL]); [resample] is the sample loop (linear interpolation between
    input frames), applied to the fragment, the width, the channel count and
    the two rates once they are reduced by their gcd.  The output buffer is
    the one allocation whose size grows with the arguments; the two arrays
    of one [int] per channel and the objects of the answer are taken to be
    obtained, as every small object of the interpreter is. *)
Record Resampler : Type := mk_resampler {
  can_allocate : Z -> bool;
  resample : list byte -> Z -> Z -> Z -> Z -> list byte
}.


(** [audioop.ratecv(fragment, width, nchannels, inrate, outrate, None)],
    first component of the answer.  The checks are those of
    [audioop_ratecv_impl], in its order: the four integers are parsed as C
    [int]; the width is 1 to 4; there is at least one channel; the fragment
    is a whole number of frames; both rates are positive; the output buffer
    has a size that fits [Py_ssize_t]; the output buffer is allocated.  The
    last two failures are the same [MemoryError]. *)
Definition ratecv (rc : Resampler) (fragment : list byte)
    (width nchannels inrate outrate : Z) : result (list byte) :=
  if negb (forallb fits_c_int [width; nchannels; inrate; outrate]) then
    raise OverflowError "Python int too large to convert to C int"
  else if negb ((1 <=? width) && (width <=? 4)) then
    raise AudioopError "Size should be 1, 2, 3 or 4"
  else if nchannels <? 1 then
    raise AudioopError "# of channels should be >= 1"
  else if width >? INT_MAX / nchannels then
    raise OverflowError "width * nchannels too big for a C int"
  else
    let bytes_per_frame := width * nchannels in
    let fragment_len := Z.of_nat (List.length fragment) in
    if negb (fragment_len mod bytes_per_frame =? 0) then
      raise AudioopError "not a whole number of frames"
    else if (inrate <=? 0) || (outrate <=? 0) then
      raise AudioopError "sampling rate not > 0"
    else
      let d := Z.gcd inrate outrate in
      let inrate := inrate / d in
      let outrate := outrate / d in
      let len := fragment_len / bytes_per_frame in
      if len =? 0 then Ok []
      else
        let q := 1 + (len - 1) / inrate in
        if outrate >? PY_SSIZE_T_MAX / q / bytes_per_frame then
          raise MemoryError "not enough memory for output buffer"
        else if negb (can_allocate rc (q * outrate * bytes_per_frame)) then
          raise MemoryError "not enough memory for output buffer"
        else Ok (resample rc fragment width nchannels inrate outrate).

(** A stand-in resampler to run the model with: it obtains buffers of up to
    256 MiB, and repeats or drops whole frames (nearest earlier frame). *)
Definition hold_resampler : Resampler :=
  mk_resampler
    (fun n => n <=? 2 ^ 28)
    (fun fragment width nchannels inrate outrate =>
       let bpf := Z.to_nat (width * nchannels) in
       let n := Z.of_nat (List.length fragment) / (width * nchannels) in
       let out_frames := Z.to_nat (n * outrate / inrate) in
       flat_map
         (fun k => firstn bpf (skipn (Z.to_nat (Z.of_nat k * inrate / outrate) * bpf) fragment))
         (seq 0 out_frames)).

End Audioop.

Module Pydub.

(** [pydub.AudioSegment]: the raw PCM bytes and the three audio parameters
    ([frame_width] is derived). *)
Record AudioSegment : Type := mk_segment {
  raw_data : list byte;
  sample_width : Z;
  frame_rate : Z;
  channels : Z
}.


(** [self._spawn(data, overrides={"frame_rate": rate})]: a segment with the
    metadata of [self], the given data and the overridden rate.  (The
    constructor widens 24-bit data to 32 bits, so [sample_width] is never 3 on
    a segment that exists; see [well_formed].) *)
Definition _spawn (self : AudioSegment) (data : list byte) (rate : Z) : AudioSegment :=
  {| raw_data := data;
     sample_width := sample_width self;
     frame_rate := rate;
     channels := channels self |}.

(** [self.set_frame_rate(frame_rate)]. *)
Definition set_frame_rate (rc : Audioop.Resampler) (self : AudioSegment) (rate : Z)
    : result AudioSegment :=
  if rate =? frame_rate self then Ok self
  else
    converted <-
      match raw_data self with
      | _ :: _ =>
        Audioop.ratecv rc (raw_data self) (sample_width self) (channels self)
                       (frame_rate self) rate
      | [] => Ok (raw_data self)
      end ;;
    Ok (_spawn self converted rate).


End Pydub.

Import Pydub.

(** ** The audio helpers of main.py *)

(** The local [new_sr] of [speed_change]: [int(segment.frame_rate * factor)]. *)
Definition new_sr (rate : Z) (factor : float) : result Z :=
  r <- float_of_int rate ;;
  int_of_float (fmul r factor).

Definition speed_change (rc : Audioop.Resampler) (segment : AudioSegment) (factor : float)
    : result AudioSegment :=
  new_sr <- new_sr (frame_rate segment) factor ;;
  set_frame_rate rc (_spawn segment (raw_data segment) new_sr) (frame_rate segment).

(** [min(a, b)] and [max(a, b)] of Python on two arguments: the first one is
    kept unless the second is strictly smaller (resp. larger). *)
Definition py_min (a b : R) : R := if Rlt_dec b a then b else a.
Definition py_max (a b : R) : R := if Rgt_dec b a then b else a.

Definition log10 (x : R) : R := (ln x / ln 10)%R.

(** [math.log10]: [ValueError] outside the positive reals. *)
Definition math_log10 (x : R) : result R :=
  if Rlt_dec 0 x then Ok (log10 x) else raise ValueError "math domain error".

Definition volume_gain_db (volume_factor : R) : result R :=
  let volume_factor := py_max (1 / 10)%R (py_min volume_factor 2%R) in
  l <- math_log10 volume_factor ;;
  Ok (20 * l)%R.

(** *** [volume_gain_db] on binary64

    [volume_gain_db] above reads the function over the real numbers.  The
    interpreter computes it on binary64: the comparisons of [min] and
    [max], the C library's [log10], and one multiplication by [float(20)].
    The C library's [log10] on positive finite floats is not code of this
    repository: it is the parameter [libm_log10]. *)

Definition float_min (a b : float) : float := if SFltb b a then b else a.
Definition float_max (a b : float) : float := if SFltb a b then b else a.

(** [math.log10] on a float: a NaN and the positive infinity are returned
    as they are, the C library answers on the positive finite floats, and
    everything else is a [ValueError]. *)
Definition float_log10 (libm_log10 : float -> float) (x : float) : result float :=
  match x with
  | S754_nan => Ok x
  | S754_infinity false => Ok x
  | _ =>
    if SFltb (S754_zero false) x then Ok (libm_log10 x)
    else raise ValueError "math domain error"
  end.

Definition volume_gain_db_binary64 (libm_log10 : float -> float) (volume_factor : float)
    : result float :=
  let volume_factor :=
    float_max (float_ratio 1 10) (float_min volume_factor (float_ratio 2 1)) in
  l <- float_log10 libm_log10 volume_factor ;;
  twenty <- float_of_int 20 ;;
  Ok (fmul twenty l).

(** The float [m * 2^-52]: for [2^52 <= m < 2^53], the floats from 1 up to,
    and without, 2. *)
Definition float_in_binade_1 (m : Z) : float := S754_finite false (Z.to_pos m) (-52).

(** The least [m] with [1.78 <= m * 2^-52], and the greatest [k] with
    [k * 2^-54 <= 0.3011]. *)
Definition m_178 : Z := 8016407336719483.
Definition k_03011 : Z := 5424135391205025.

(** All that is taken from the C library's [log10] on the floats from 1.78
    up to 2: its answer is a binary64 from 0.25 to 0.3011, that is
    [k * 2^-54] with [2^52 <= k <= k_03011].  (The logarithm itself runs
    from 0.2504 to 0.30103 there: the condition leaves an error of more than
    [10^11] units in the last place.) *)
Definition log10_enclosed (libm_log10 : float -> float) : Prop :=
  forall m : Z, m_178 <= m < 2 ^ 53 ->
    exists k : positive,
      (2 ^ 52 <= Zpos k <= k_03011) /\
      libm_log10 (float_in_binade_1 m) = S754_finite false k (-54).

(** The mantissa of a finite float. *)
Definition mantissa (x : float) : Z :=
  match x with
  | S754_finite _ m _ => Zpos m
  | _ => 0
  end.

(** The clamp of the specification: [v] restricted to [[lo, hi]]. *)
Definition clamp (v lo hi : R) : R :=
  if Rlt_dec v lo then lo else if Rlt_dec hi v then hi else v.

(** [n] is a nearest integer of [x]. *)
Definition is_nearest_integer (x : Q) (n : Z) : Prop :=
  (Qabs (inject_Z n - x) <= 1 # 2)%Q.

(** [n] is [x] with its fraction dropped: same sign, magnitude the floor of
    the magnitude. *)
Definition is_truncation (x : Q) (n : Z) : Prop :=
  (inject_Z (Z.abs n) <= Qabs x)%Q /\ (Qabs x < inject_Z (Z.abs n + 1))%Q /\
  ((0 <= x)%Q -> 0 <= n) /\ ((x <= 0)%Q -> n <= 0).

(** ** audioop.rms and the level scale *)

Module Level.

Definition byte_val (b : byte) : Z := Z.of_N (Byte.to_N b).

(** One signed 16-bit sample from two bytes, low byte first. *)
Definition sample16 (lo hi : byte) : Z :=
  let u := byte_val lo + 256 * byte_val hi in
  if u <? 32768 then u else u - 65536.

(** The samples of a fragment of width 2; [None] when a byte is left over. *)
Fixpoint samples16 (data : list byte) : option (list Z) :=
  match data with
  | [] => Some []
  | lo :: hi :: rest =>
    match samples16 rest with
    | Some l => Some (sample16 lo hi :: l)
    | None => None
    end
  | [_] => None
  end.

Definition sum_squares (l : list Z) : Z := fold_left (fun acc v => acc + v * v) l 0.

(** [audioop.rms(fragment, 2)]: [sqrt(sum_squares / n)] cast to an unsigned
    integer, 0 on an empty fragment.  The C code accumulates in a [double];
    for the 1024-sample frames the meter reads every intermediate value is an
    integer below 2^53 and the cast of the square root is the integer square
    root of the integer quotient, which is what is written here. *)
Definition rms (fragment : list byte) (width : Z) : result Z :=
  if negb (width =? 2) then raise OtherException "width other than 2 is not modelled"
  else
    match samples16 fragment with
    | None => raise AudioopError "not a whole number of frames"
    | Some [] => Ok 0
    | Some l => Ok (Z.sqrt (sum_squares l / Z.of_nat (List.length l)))
    end.

(** [min(100, int(rms / 300))]: the true division of two [int]s is the
    binary64 nearest to the quotient. *)
Definition level_of_rms (rms : Z) : result Z :=
  q <- int_of_float (float_ratio rms 300) ;;
  Ok (Z.min 100 q).

(** The two bytes of a 16-bit sample, low byte first (to build frames). *)
Definition byte_of_Z (z : Z) : byte :=
  match Byte.of_N (Z.to_N (z mod 256)) with
  | Some b => b
  | None => Byte.x00
  end.

Definition encode16 (samples : list Z) : list byte :=
  flat_map (fun v => [byte_of_Z v; byte_of_Z ((v mod 65536) / 256)]) samples.

(** A full-scale square wave: every sample sits on one of the two rails. *)
Definition full_scale_square (samples : list Z) : Prop :=
  samples <> [] /\ Forall (fun v => v = 32767 \/ v = -32768) samples.

End Level.

(** ** The main window *)

Inductive icon : Type := Critical | Warning | Information.

Inductive widget : Type :=
| stt_text_w | stt_status | stt_progress | btn_start | btn_stop | vu_meter
| tts_status | tts_progress | btn_play | btn_save_mp3 | history_list.

Inductive signal : Type := finished | playback_ready | error | status.

(** The worker object [play_tts] builds. *)
Record TTSWorker : Type := mk_worker {
  text : pystr;
  lang_code : pystr;
  speed_factor : float;
  volume_factor : float;
  save_path : option pystr
}.

(** Who holds an input stream on a device. *)
Inductive stream_owner : Type :=
| VuMeterStream     (* [self.vu_audio.open(...)] in [start_vu_meter] *)
| ListenerStream.   (* opened by the thread of [listen_in_background] *)

Record Stream : Type := mk_stream {
  owner : stream_owner;
  device : Z;
  rate : Z
}.

(** The input streams the audio host currently has open. *)
Definition Host : Type := list Stream.

(** Calls that leave the window. *)
Inductive effect : Type :=
| MessageBox (i : icon) (title body : pystr)
| setText (w : widget) (s : pystr)
| setVisible (w : widget) (b : bool)
| setEnabled (w : widget) (b : bool)
| setValue (w : widget) (v : Z)
| appendPlainText (s : pystr)
| clear (w : widget)
| addItems (w : widget) (items : list pystr)
| timer_start
| timer_stop
| save_settings
| getSaveFileName (dir : pystr)
| worker_start (wk : TTSWorker)
| gTTS_save (text lang : pystr)
| emit (s : signal) (arg : pystr).

(** The attributes of [MainWindow] the modelled methods use, and what the
    input widgets currently hold. *)
Record MainWindow : Type := mk_window {
  history : list pystr;               (* deque(maxlen=10), leftmost first *)
  stt_stop : option (Z * pystr);      (* the running listener: device, language *)
  active_mics : list (Z * pystr);
  should_play : bool;
  last_save_dir : pystr;
  vu_audio : bool;                    (* a PyAudio instance is held *)
  vu_stream : option Stream;
  tts_worker : option TTSWorker;
  stt_lang : pystr;                   (* stt_lang.currentData() *)
  mic_combo : option Z;               (* mic_combo.currentData() *)
  tts_text : pystr;                   (* tts_text.toPlainText() *)
  tts_lang : pystr;
  speed_combo : float;
  volume_slider : Z
}.

Definition set_history (h : list pystr) (w : MainWindow) : MainWindow :=
  mk_window h (stt_stop w) (active_mics w) (should_play w) (last_save_dir w)
            (vu_audio w) (vu_stream w) (tts_worker w) (stt_lang w) (mic_combo w)
            (tts_text w) (tts_lang w) (speed_combo w) (volume_slider w).

Definition set_stt_stop (s : option (Z * pystr)) (w : MainWindow) : MainWindow :=
  mk_window (history w) s (active_mics w) (should_play w) (last_save_dir w)
            (vu_audio w) (vu_stream w) (tts_worker w) (stt_lang w) (mic_combo w)
            (tts_text w) (tts_lang w) (speed_combo w) (volume_slider w).

Definition set_should_play (b : bool) (w : MainWindow) : MainWindow :=
  mk_window (history w) (stt_stop w) (active_mics w) b (last_save_dir w)
            (vu_audio w) (vu_stream w) (tts_worker w) (stt_lang w) (mic_combo w)
            (tts_text w) (tts_lang w) (speed_combo w) (volume_slider w).

Definition set_last_save_dir (d : pystr) (w : MainWindow) : MainWindow :=
  mk_window (history w) (stt_stop w) (active_mics w) (should_play w) d
            (vu_audio w) (vu_stream w) (tts_worker w) (stt_lang w) (mic_combo w)
            (tts_text w) (tts_lang w) (speed_combo w) (volume_slider w).

Definition set_vu_audio (a : bool) (w : MainWindow) : MainWindow :=
  mk_window (history w) (stt_stop w) (active_mics w) (should_play w) (last_save_dir w)
            a (vu_stream w) (tts_worker w) (stt_lang w) (mic_combo w)
            (tts_text w) (tts_lang w) (speed_combo w) (volume_slider w).

Definition set_vu_stream (s : option Stream) (w : MainWindow) : MainWindow :=
  mk_window (history w) (stt_stop w) (active_mics w) (should_play w) (last_save_dir w)
            (vu_audio w) s (tts_worker w) (stt_lang w) (mic_combo w)
            (tts_text w) (tts_lang w) (speed_combo w) (volume_slider w).

Definition set_tts_worker (k : option TTSWorker) (w : MainWindow) : MainWindow :=
  mk_window (history w) (stt_stop w) (active_mics w) (should_play w) (last_save_dir w)
            (vu_audio w) (vu_stream w) k (stt_lang w) (mic_combo w)
            (tts_text w) (tts_lang w) (speed_combo w) (volume_slider w).

(** *** History *)

Definition maxlen : nat := 10.

(** [deque.appendleft] on a deque bounded by [maxlen]: push on the left, then
    drop the rightmost element when the bound is exceeded. *)
Definition appendleft (x : pystr) (d : list pystr) : list pystr :=
  let d' := x :: d in
  if (maxlen <? List.length d')%nat then removelast d' else d'.

(** [add_history(entry)]; [now] is [datetime.now().strftime("%H:%M:%S")]. *)
Definition add_history (now : pystr) (entry : pystr) (self : MainWindow)
    : MainWindow * list effect :=
  let stamp := now in
  let line := lit "[" ++ stamp ++ lit "] " ++ entry in
  let h := appendleft line (history self) in
  (set_history h self, [clear history_list; addItems history_list h]).

(** The history after a run of additions, each with its own time stamp. *)
Definition add_all (entries : list (pystr * pystr)) (self : MainWindow) : MainWindow :=
  fold_left (fun w e => fst (add_history (fst e) (snd e) w)) entries self.

Definition line_of (e : pystr * pystr) : pystr :=
  lit "[" ++ fst e ++ lit "] " ++ snd e.

(** *** Recognition callback *)

(** [try: body except Exception as e: handler(e)]. *)
Definition try_except {A} (body : result A) (handler : exn -> result A) : result A :=
  match body with
  | Ok a => Ok a
  | Raise e => handler e
  end.

(** The closure [callback(_, audio)] of [start_recording].  [lang_code] is
    the variable it captures, [recognized] what
    [self.recognizer.recognize_google(audio, language=lang_code)] does for
    this utterance, [now] the clock when the history line is stamped. *)
Definition callback (now lang_code : pystr) (recognized : result pystr)
    (self : MainWindow) : result (MainWindow * list effect) :=
  try_except
    (text <- recognized ;;
     let '(self', eff) :=
       add_history now (lit "STT [" ++ lang_code ++ lit "]: " ++ text) self in
     Ok (self', appendPlainText text :: eff))
    (fun exc =>
       match exn_cls exc with
       | UnknownValueError =>
         Ok (add_history now (lit "STT: не вдалося розпізнати фразу") self)
       | RequestError =>
         Ok (add_history now (lit "STT: проблема з підключенням до сервісу") self)
       | _ =>
         Ok (add_history now (lit "STT помилка: " ++ exn_msg exc) self)
       end).

(** The outcomes of the specification and the history entry each one is
    shown as. *)
Inductive RecognitionOutcome : Type :=
| Recognized (text : pystr)
| Inaudible
| ServiceUnavailable
| Failed (message : pystr).

Definition outcome_of (recognized : result pystr) : RecognitionOutcome :=
  match recognized with
  | Ok text => Recognized text
  | Raise exc =>
    match exn_cls exc with
    | UnknownValueError => Inaudible
    | RequestError => ServiceUnavailable
    | _ => Failed (exn_msg exc)
    end
  end.

Definition entry_of (lang_code : pystr) (o : RecognitionOutcome) : pystr :=
  match o with
  | Recognized text => lit "STT [" ++ lang_code ++ lit "]: " ++ text
  | Inaudible => lit "STT: не вдалося розпізнати фразу"
  | ServiceUnavailable => lit "STT: проблема з підключенням до сервісу"
  | Failed message => lit "STT помилка: " ++ message
  end.

(** *** Synthesis *)

(** [play_tts(save_only)].  [dialog_target] is what [getSaveFileName]
    returns when it is shown (empty when cancelled) and [parent] is
    [str(Path(target).parent)]. *)
Definition play_tts (dialog_target : pystr) (parent : pystr -> pystr)
    (save_only : bool) (self : MainWindow) : MainWindow * list effect :=
  let text := strip (tts_text self) in
  match text with
  | [] =>
    (self, [MessageBox Warning (lit "Увага") (lit "Введіть текст для озвучення.")])
  | _ :: _ =>
    let lang_code := tts_lang self in
    let speed_factor := speed_combo self in
    let volume_factor := float_ratio (volume_slider self) 100 in
    let dialog := getSaveFileName (last_save_dir self) in
    match save_only, dialog_target with
    | true, [] => (self, [dialog])
    | _, _ =>
      let '(self, eff, save_path) :=
        if save_only
        then (set_last_save_dir (parent dialog_target) self,
              [dialog; save_settings], Some dialog_target)
        else (self, [], None) in
      let wk := mk_worker text lang_code speed_factor volume_factor save_path in
      (set_tts_worker (Some wk) (set_should_play (negb save_only) self),
       eff ++ [setText tts_status (lit "Готую аудіо...");
               setVisible tts_progress true;
               setEnabled btn_play false;
               setEnabled btn_save_mp3 false;
               worker_start wk])
    end
  end.

(** What the libraries behind [TTSWorker.run] answer. *)
Record TtsBackend : Type := mk_backend {
  gtts : pystr -> pystr -> result unit;       (* temp file, gTTS(...).save(...) *)
  from_file : result AudioSegment;            (* AudioSegment.from_file(tmp, "mp3") *)
  ratecv_samples : Audioop.Resampler;
  apply_gain : AudioSegment -> R -> AudioSegment;   (* segment + dB *)
  export : AudioSegment -> pystr -> result unit;
  tmp_wav : pystr
}.

(** The real number [volume_gain_db] compares with 0.1 and 2.0 when given
    a float: the value of a finite float; [+inf] is above both bounds; [-inf]
    and NaN end at the lower bound, as 0 does. *)
Definition float_real (x : float) : R :=
  match x with
  | S754_infinity false => 3%R
  | _ => Q2R (float_value x)
  end.

(** [TTSWorker.run]: the signals it emits, in order. *)
Definition run (be : TtsBackend) (self : TTSWorker) : list effect :=
  let body : result (list effect) :=
    _ <- gtts be (text self) (lang_code self) ;;
    segment <- from_file be ;;
    segment <- speed_change (ratecv_samples be) segment (speed_factor self) ;;
    gain <- volume_gain_db (float_real (volume_factor self)) ;;
    let segment := apply_gain be segment gain in
    _ <- match save_path self with
         | Some _ => export be segment (lit "mp3")
         | None => Ok tt
         end ;;
    _ <- export be segment (lit "wav") ;;
    Ok [emit playback_ready (tmp_wav be); emit finished (lit "Готово")] in
  [emit status (lit "Синтезую..."); gTTS_save (text self) (lang_code self)]
  ++ match body with
     | Ok eff => eff
     | Raise exc => [emit error (lit "TTS помилка: " ++ exn_msg exc)]
     end
  ++ [emit status []].

Definition is_worker_start (e : effect) : bool :=
  match e with worker_start _ => true | _ => false end.


(** *** Capture streams and the level meter *)

(** What PyAudio and [speech_recognition] answer.  [pa_open s host] is the
    attempt to open [s] while the streams of [host] are open. *)
Record PortAudio : Type := mk_portaudio {
  pa_init : result unit;                        (* pyaudio.PyAudio() *)
  device_rate : Z -> result Z;                  (* int(info.get("defaultSampleRate", 16000)) *)
  pa_open : Stream -> Host -> result unit;
  stream_close : Stream -> result unit;         (* stop_stream(); close() *)
  microphone : Z -> result Z                    (* sr.Microphone(device_index=i), its SAMPLE_RATE *)
}.

Definition owner_eqb (a b : stream_owner) : bool :=
  match a, b with
  | VuMeterStream, VuMeterStream | ListenerStream, ListenerStream => true
  | _, _ => false
  end.

Definition stream_eqb (a b : Stream) : bool :=
  owner_eqb (owner a) (owner b) && (device a =? device b) && (rate a =? rate b).

Fixpoint close_stream (s : Stream) (host : Host) : Host :=
  match host with
  | [] => []
  | s' :: host' => if stream_eqb s s' then host' else s' :: close_stream s host'
  end.

(** The streams of [host] on device [i]. *)
Definition streams_on (i : Z) (host : Host) : list Stream :=
  filter (fun s => device s =? i) host.

Definition stop_vu_meter (pa : PortAudio) (self : MainWindow) (host : Host)
    : MainWindow * Host * list effect :=
  let host :=
    match vu_stream self with
    | Some s =>
      match stream_close pa s with
      | Ok _ => close_stream s host
      | Raise _ => host
      end
    | None => host
    end in
  (set_vu_audio false (set_vu_stream None self), host,
   [timer_stop; setValue vu_meter 0]).

Definition start_vu_meter (pa : PortAudio) (device_index : option Z)
    (self : MainWindow) (host : Host) : MainWindow * Host * list effect :=
  let '(self, host, eff) := stop_vu_meter pa self host in
  match device_index with
  | None => (self, host, eff)
  | Some device_index =>
    match pa_init pa with
    | Raise _ => (self, host, eff ++ [setValue vu_meter 0])
    | Ok _ =>
      let self := set_vu_audio true self in
      match device_rate pa device_index with
      | Raise _ => (self, host, eff ++ [setValue vu_meter 0])
      | Ok rate =>
        let s := mk_stream VuMeterStream device_index rate in
        match pa_open pa s host with
        | Raise _ => (self, host, eff ++ [setValue vu_meter 0])
        | Ok _ => (set_vu_stream (Some s) self, host ++ [s], eff ++ [timer_start])
        end
      end
    end
  end.

(** [update_vu_level]; [read] is what
    [self.vu_stream.read(1024, exception_on_overflow=False)] does when it
    returns. *)
Definition update_vu_level (read : result (list byte)) (self : MainWindow)
    : list effect :=
  match vu_stream self with
  | None => [setValue vu_meter 0]
  | Some _ =>
    match (data <- read ;;
           rms <- Level.rms data 2 ;;
           Level.level_of_rms rms) with
    | Ok level => [setValue vu_meter level]
    | Raise _ => [setValue vu_meter 0]
    end
  end.

(** [self.vu_stream.read(1024, exception_on_overflow=False)] is a blocking
    read: it returns the frames, raises, or, on a stream that delivers no
    frames, does not return. *)
Inductive read_outcome : Type :=
| Returns (r : result (list byte))
| Blocks.

(** One call of [update_vu_level] with the blocking read.  [None] is a call
    that does not return: the meter is given no value.  With no stream the
    read is not made. *)
Definition update_vu_level_blocking (read : read_outcome) (self : MainWindow)
    : option (list effect) :=
  match vu_stream self with
  | None => Some [setValue vu_meter 0]
  | Some _ =>
    match read with
    | Returns r => Some (update_vu_level r self)
    | Blocks => None
    end
  end.

(** [recognizer.listen_in_background(mic, callback)]: the thread it starts
    enters the microphone, which opens an input stream on the device of
    [mic]; when that fails the thread ends and no stream is added. *)
Definition listen_in_background (pa : PortAudio) (mic_device mic_rate : Z) (host : Host)
    : Host :=
  let s := mk_stream ListenerStream mic_device mic_rate in
  match pa_open pa s host with
  | Ok _ => host ++ [s]
  | Raise _ => host
  end.

Definition start_recording (pa : PortAudio) (self : MainWindow) (host : Host)
    : MainWindow * Host * list effect :=
  match stt_stop self with
  | Some _ => (self, host, [])
  | None =>
    let lang_code := stt_lang self in
    let no_mic :=
      (self, host,
       [MessageBox Critical (lit "Помилка") (lit "Не знайдено активного мікрофона.")]) in
    match mic_combo self, active_mics self with
    | None, _ => no_mic
    | _, [] => no_mic
    | Some mic_index, _ :: _ =>
      match microphone pa mic_index with
      | Raise exc =>
        (self, host,
         [MessageBox Critical (lit "Помилка")
                     (lit "Помилка ініціалізації мікрофона: " ++ exn_msg exc)])
      | Ok mic_rate =>
        let eff := [setText stt_status (lit "Слухаю...");
                    setVisible stt_progress true;
                    setEnabled btn_start false;
                    setEnabled btn_stop true] in
        let '(self, host, eff_vu) := start_vu_meter pa (Some mic_index) self host in
        let host := listen_in_background pa mic_index mic_rate host in
        (set_stt_stop (Some (mic_index, lang_code)) self, host, eff ++ eff_vu)
      end
    end
  end.

(** A float that is not a negative number. *)
Definition nonneg_float (x : float) : Prop :=
  match x with
  | S754_finite true _ _ => False
  | _ => True
  end.

(** ** Concrete inputs *)

Module Sample.

(** Four mono 16-bit frames at 24000 Hz, the rate of the synthesis service. *)
Definition seg0 : AudioSegment :=
  mk_segment [Byte.x00; Byte.x00; Byte.x01; Byte.x00; Byte.xff; Byte.x7f; Byte.x00; Byte.x80]
             2 24000 1.


(** [seg0] after [speed_change] by 1.5 with [Audioop.hold_resampler]. *)
Definition seg0_fast : AudioSegment :=
  mk_segment [Byte.x00; Byte.x00; Byte.x01; Byte.x00] 2 24000 1.

(** An idle window: Ukrainian selected, microphone 0, speed x1, volume 100. *)
Definition w0 : MainWindow :=
  mk_window [] None [(0, lit "Mic")] true (lit "/home") false None None
            (lit "uk-UA") (Some 0) (lit "Привіт") (lit "uk") (float_ratio 1 1) 100.

(** The same window with only white space in the text box. *)
Definition w_blank : MainWindow :=
  mk_window [] None [(0, lit "Mic")] true (lit "/home") false None None
            (lit "uk-UA") (Some 0) [32; 9; 10; 160]%N (lit "uk") (float_ratio 1 1) 100.

(** The window while the meter holds a stream. *)
Definition w_metering : MainWindow :=
  set_vu_stream (Some (mk_stream VuMeterStream 0 44100)) (set_vu_audio true w0).

(** An audio host on which every call succeeds. *)
Definition pa_ok : PortAudio :=
  mk_portaudio (Ok tt) (fun _ => Ok 44100) (fun _ _ => Ok tt) (fun _ => Ok tt)
               (fun _ => Ok 44100).

(** A synthesis backend on which every call succeeds and that answers
    [seg0]. *)
Definition backend_ok : TtsBackend :=
  mk_backend (fun _ _ => Ok tt) (Ok seg0) Audioop.hold_resampler (fun s _ => s)
             (fun _ _ => Ok tt) (lit "/tmp/out.wav").

(** A worker asked for a speed factor of 1/100000. *)
Definition worker_slow : TTSWorker :=
  mk_worker (lit "Привіт") (lit "uk") (float_ratio 1 100000) (float_ratio 100 100) None.

End Sample.

(** ** The remaining methods of the window *)

(** Calls that leave the window, beyond the [effect]s above. *)
Inductive io : Type :=
| Ui (e : effect)
| stop_listening (wait_for_stop : bool)        (* self.stt_stop(wait_for_stop=False) *)
| sound_stop
| sound_setSource (path : pystr)
| sound_setLoopCount (n : Z)
| sound_setVolume (v : float)
| sound_play
| clipboard_setText (s : pystr)
| file_write (path content : pystr).

Definition nl : pystr := [10%N].

(** [stop_recording].  The stopper only asks the listener thread to end
    ([wait_for_stop=False]); the stream of that thread is not tracked past
    this point. *)
Definition stop_recording (pa : PortAudio) (self : MainWindow) (host : Host)
    : MainWindow * Host * list io :=
  let eff_stop :=
    match stt_stop self with
    | Some _ => [stop_listening false]
    | None => []
    end in
  let self := set_stt_stop None self in
  let '(self, host, eff_vu) := stop_vu_meter pa self host in
  (self, host,
   eff_stop
   ++ map Ui [setText stt_status (lit "Зупинено");
              setVisible stt_progress false;
              setEnabled btn_start true;
              setEnabled btn_stop false]
   ++ map Ui eff_vu).

(** [on_playback_ready(wav_path)]. *)
Definition on_playback_ready (wav_path : pystr) (self : MainWindow) : list io :=
  if negb (should_play self) then []
  else
    let vol := Z.max 0 (Z.min 100 (volume_slider self)) in
    [sound_stop;
     sound_setSource wav_path;
     sound_setLoopCount 1;
     sound_setVolume (float_ratio vol 100);
     sound_play].

(** [on_tts_done(msg)]. *)
Definition on_tts_done (now msg : pystr) (self : MainWindow) : MainWindow * list effect :=
  let '(self', eff) :=
    add_history now (lit "TTS [" ++ tts_lang self ++ lit "]: " ++ strip (tts_text self))
                self in
  (self',
   [setText tts_status msg;
    setVisible tts_progress false;
    setEnabled btn_play true;
    setEnabled btn_save_mp3 true] ++ eff).

(** [on_tts_error(msg)]. *)
Definition on_tts_error (msg : pystr) (self : MainWindow) : MainWindow * list effect :=
  (self,
   [MessageBox Critical (lit "TTS помилка") msg;
    setText tts_status (lit "Помилка");
    setVisible tts_progress false;
    setEnabled btn_play true;
    setEnabled btn_save_mp3 true]).

(** [copy_stt_text]; [stt_plain] is [self.stt_text.toPlainText()]. *)
Definition copy_stt_text (now stt_plain : pystr) (self : MainWindow)
    : MainWindow * list io :=
  let text := strip stt_plain in
  match text with
  | [] =>
    (self, [Ui (MessageBox Information (lit "Копіювання")
                           (lit "Немає тексту для копіювання."))])
  | _ :: _ =>
    let '(self', eff) :=
      add_history now (lit "STT текст скопійовано у буфер обміну.") self in
    (self', clipboard_setText text :: map Ui eff)
  end.

(** What [export_texts] writes to the chosen file. *)
Definition export_content (stt_plain : pystr) (self : MainWindow) : pystr :=
  lit "=== Speech-to-Text ===" ++ nl
  ++ strip stt_plain ++ nl ++ nl
  ++ lit "=== Text-to-Speech ===" ++ nl
  ++ strip (tts_text self) ++ nl ++ nl
  ++ lit "=== Історія ===" ++ nl
  ++ flat_map (fun item => item ++ nl) (history self).

(** [export_texts].  [dialog_target] and [parent] are as in [play_tts];
    [written] is what opening and writing the file does. *)
Definition export_texts (dialog_target : pystr) (parent : pystr -> pystr)
    (stt_plain : pystr) (written : result unit) (self : MainWindow)
    : MainWindow * list io :=
  let dialog := Ui (getSaveFileName (last_save_dir self)) in
  match dialog_target with
  | [] => (self, [dialog])
  | _ :: _ =>
    match written with
    | Ok _ =>
      (set_last_save_dir (parent dialog_target) self,
       [dialog;
        file_write dialog_target (export_content stt_plain self);
        Ui (MessageBox Information (lit "Успішно") (lit "Файл успішно збережено."));
        Ui save_settings])
    | Raise exc =>
      (self,
       [dialog;
        Ui (MessageBox Critical (lit "Помилка")
                       (lit "Не вдалося зберегти файл: " ++ exn_msg exc))])
    end
  end.

(** *** The window under a run of events *)

(** What can happen to the window: a button, a timer tick, a signal of the
    worker or an utterance from the listener, each with what the outside
    answers. *)
Inductive event : Type :=
| ClickStart (pa : PortAudio)
| ClickStop (pa : PortAudio)
| Utterance (now lang_code : pystr) (recognized : result pystr)
| ClickPlay (dialog_target : pystr) (parent : pystr -> pystr) (save_only : bool)
| TtsDone (now msg : pystr)
| TtsError (msg : pystr)
| ClickCopy (now stt_plain : pystr)
| ClickExport (dialog_target : pystr) (parent : pystr -> pystr) (stt_plain : pystr)
              (written : result unit).

Definition handle (ev : event) (st : MainWindow * Host) : MainWindow * Host :=
  let '(self, host) := st in
  match ev with
  | ClickStart pa => fst (start_recording pa self host)
  | ClickStop pa => fst (stop_recording pa self host)
  | Utterance now lang_code recognized =>
    match callback now lang_code recognized self with
    | Ok (self', _) => (self', host)
    | Raise _ => (self, host)
    end
  | ClickPlay dialog_target parent save_only =>
    (fst (play_tts dialog_target parent save_only self), host)
  | TtsDone now msg => (fst (on_tts_done now msg self), host)
  | TtsError msg => (fst (on_tts_error msg self), host)
  | ClickCopy now stt_plain => (fst (copy_stt_text now stt_plain self), host)
  | ClickExport dialog_target parent stt_plain written =>
    (fst (export_texts dialog_target parent stt_plain written self), host)
  end.

Definition run_events (evs : list event) (st : MainWindow * Host) : MainWindow * Host :=
  fold_left (fun st ev => handle ev st) evs st.

(** The window as [__init__] leaves it, for whatever the widgets hold. *)
Definition fresh (self : MainWindow) : Prop :=
  history self = [] /\ stt_stop self = None /\ vu_stream self = None /\ vu_audio self = false.

(** The three facts every event keeps: the history has at most ten lines,
    the meter holds a stream only during a session, and that stream is open
    on the host. *)
Definition window_ok (st : MainWindow * Host) : Prop :=
  (List.length (history (fst st)) <= maxlen)%nat /\
  (forall s, vu_stream (fst st) = Some s -> stt_stop (fst st) <> None /\ In s (snd st)).

(** A finite float between 0 and 1. *)
Definition in_unit_interval (x : float) : bool :=
  match x with
  | S754_zero _ => true
  | S754_finite false _ _ => Qle_bool (float_value x) 1
  | _ => false
  end.

Definition is_sound_call (e : io) : bool :=
  match e with
  | sound_stop | sound_setSource _ | sound_setLoopCount _ | sound_setVolume _ | sound_play => true
  | _ => false
  end.

(** ** More concrete inputs *)

Module Scenario.

(** An audio host that refuses a second PyAudio instance: the meter cannot
    start, the microphone can. *)
Definition pa_no_meter : PortAudio :=
  mk_portaudio (raise OSError "PortAudio not initialized") (fun _ => Ok 44100)
               (fun _ _ => Ok tt) (fun _ => Ok tt) (fun _ => Ok 16000).

End Scenario.

(** [level_of_rms] agrees with [min(100, rms // 300)] on the [count]
    values from [r] on. *)
Fixpoint level_agrees_from (r : Z) (count : nat) : bool :=
  match count with
  | O => true
  | S count' =>
    match Level.level_of_rms r with
    | Ok l => (l =? Z.min 100 (r / 300)) && level_agrees_from (r + 1) count'
    | Raise _ => false
    end
  end.

(** ** Settings (config.json) *)

Module Settings.

(** What [json.loads] returns. *)
Inductive json : Type :=
| JNull
| JBool (b : bool)
| JInt (z : Z)
| JFloat (f : float)
| JStr (s : pystr)
| JList (items : list json)
| JDict (items : list (pystr * json)).

(** A [dict] with [str] keys: its items in insertion order, keys distinct. *)
Definition dict : Type := list (pystr * json).

Fixpoint pystr_eqb (a b : pystr) : bool :=
  match a, b with
  | [], [] => true
  | x :: a', y :: b' => (x =? y)%N && pystr_eqb a' b'
  | _, _ => false
  end.

(** [d.get(key)]. *)
Fixpoint get (d : dict) (key : pystr) : option json :=
  match d with
  | [] => None
  | (k, v) :: d' => if pystr_eqb k key then Some v else get d' key
  end.

(** [d[key] = v]. *)
Fixpoint setitem (key : pystr) (v : json) (d : dict) : dict :=
  match d with
  | [] => [(key, v)]
  | (k, v') :: d' =>
    if pystr_eqb k key then (k, v) :: d' else (k, v') :: setitem key v d'
  end.

(** The exceptions the conversions of this part raise. *)
Inductive error : Type := TypeError | ValueError | OverflowError.

Inductive outcome (A : Type) : Type :=
| Return (a : A)
| Raised (e : error).
Arguments Return {A} a.
Arguments Raised {A} e.

Definition then_ {A B} (m : outcome A) (k : A -> outcome B) : outcome B :=
  match m with
  | Return a => k a
  | Raised e => Raised e
  end.

(** The combo boxes built from [LANG_OPTIONS] and from the five speed
    factors. *)
Definition LANG_COUNT : Z := 10.
Definition SPEED_COUNT : Z := 5.

(** The widgets the settings are read from and written to: the current
    index of the three fixed combo boxes, the slider value, and the
    microphone combo box (the data of its items, its current index). *)
Record Widgets : Type := mk_widgets {
  stt_lang_index : Z;
  tts_lang_index : Z;
  speed_index : Z;
  volume : Z;
  mic_data : list (option Z);
  mic_index : Z
}.

Record App : Type := mk_app {
  config : dict;
  loading_config : bool;
  save_dir : pystr;            (* str(self.last_save_dir) *)
  widgets : Widgets
}.

(** [mic_combo.currentData()]. *)
Definition currentData (w : Widgets) : option Z :=
  if mic_index w <? 0 then None
  else
    match nth_error (mic_data w) (Z.to_nat (mic_index w)) with
    | Some d => d
    | None => None
    end.

(** [mic_combo.findData(m)]: the first index holding [m], or -1. *)
Fixpoint findData_from (i : Z) (items : list (option Z)) (m : Z) : Z :=
  match items with
  | [] => -1
  | Some x :: items' => if x =? m then i else findData_from (i + 1) items' m
  | None :: items' => findData_from (i + 1) items' m
  end.

Definition findData (w : Widgets) (m : Z) : Z := findData_from 0 (mic_data w) m.

Definition key_stt : pystr := lit "lang_stt_index".
Definition key_tts : pystr := lit "lang_tts_index".
Definition key_speed : pystr := lit "tts_speed_index".
Definition key_volume : pystr := lit "tts_volume".
Definition key_dir : pystr := lit "paths_last_save_dir".
Definition key_mic : pystr := lit "audio_mic_index".

(** [save_settings]: the window afterwards and the dictionaries handed to
    [_write_config_file] (whose own failures are swallowed). *)
Definition save_settings (app : App) : App * list dict :=
  if loading_config app then (app, [])
  else
    let w := widgets app in
    let c := config app in
    let c := setitem key_stt (JInt (stt_lang_index w)) c in
    let c := setitem key_tts (JInt (tts_lang_index w)) c in
    let c := setitem key_speed (JInt (speed_index w)) c in
    let c := setitem key_volume (JInt (volume w)) c in
    let c := setitem key_dir (JStr (save_dir app)) c in
    let c :=
      match currentData w with
      | Some mic_data => setitem key_mic (JInt mic_data) c
      | None => c
      end in
    (mk_app c (loading_config app) (save_dir app) w, [c]).

Section Conversions.

(** [int(s)] for a [str]: the parser of the interpreter, [None] when it
    raises [ValueError]. *)
Variable int_of_str : pystr -> option Z.

(** [str(Path(s))] and [str(Path.home())]. *)
Variable Path : pystr -> pystr.
Variable home : pystr.

(** [volume_slider.setValue(v)]: the value the slider then holds, or what
    the binding raises. *)
Variable setValue : Z -> outcome Z.

(** [int(v)] on a value of a JSON document. *)
Definition int (v : json) : outcome Z :=
  match v with
  | JInt z => Return z
  | JBool b => Return (if b then 1 else 0)
  | JFloat f =>
    match f with
    | S754_infinity _ => Raised OverflowError
    | S754_nan => Raised ValueError
    | _ => match int_of_float f with Ok z => Return z | Raise _ => Raised ValueError end
    end
  | JStr s =>
    match int_of_str s with
    | Some z => Return z
    | None => Raised ValueError
    end
  | JNull | JList _ | JDict _ => Raised TypeError
  end.

(** [try: ... except (TypeError, ValueError): fallback]. *)
Definition except_type_value {A} (m : outcome A) (fallback : A) : outcome A :=
  match m with
  | Return a => Return a
  | Raised TypeError | Raised ValueError => Return fallback
  | Raised OverflowError => Raised OverflowError
  end.

Definition _read_int_config (config : dict) (key : pystr) (default : Z) : outcome Z :=
  except_type_value
    (match get config key with
     | Some v => int v
     | None => Return default
     end)
    default.

(** [Path(self.config.get("paths_last_save_dir", str(Path.home())))]. *)
Definition saved_dir (config : dict) : outcome pystr :=
  match get config key_dir with
  | None => Return (Path home)
  | Some (JStr s) => Return (Path s)
  | Some _ => Raised TypeError
  end.

(** [load_config]; [parsed] is what reading and parsing the file gives,
    [None] when either raises. *)
Definition load_config (parsed : option json) (app : App) : outcome App :=
  let c :=
    match parsed with
    | Some (JDict data) => data
    | Some _ => config app
    | None => []
    end in
  then_ (saved_dir c) (fun dir =>
  Return (mk_app c (loading_config app) dir (widgets app))).

Definition in_range (i count : Z) : bool := (0 <=? i) && (i <? count).

(** [restore_settings], as [init_ui] calls it: [loading_config] is still
    set, so the [save_settings] every changed widget signals returns at once
    and is left out. *)
Definition restore_settings (app : App) : outcome App :=
  let c := config app in
  then_ (_read_int_config c key_stt 0) (fun stt_idx =>
  then_ (_read_int_config c key_tts 0) (fun tts_idx =>
  then_ (_read_int_config c key_speed 1) (fun speed_idx =>
  then_ (_read_int_config c key_volume 100) (fun volume =>
  then_ (saved_dir c) (fun dir =>
  let w := widgets app in
  let stt := if in_range stt_idx LANG_COUNT then stt_idx else stt_lang_index w in
  let tts := if in_range tts_idx LANG_COUNT then tts_idx else tts_lang_index w in
  let speed := if in_range speed_idx SPEED_COUNT then speed_idx else speed_index w in
  then_ (setValue volume) (fun volume =>
  let saved_mic := get c key_mic in
  then_
    (except_type_value
       (match saved_mic with
        | None | Some JNull => Return (mic_index w)
        | Some v =>
          then_ (int v) (fun saved_idx =>
          let combo_index := findData w saved_idx in
          Return (if 0 <=? combo_index then combo_index else mic_index w))
        end)
       (mic_index w))
    (fun mic =>
  Return (mk_app c false dir (mk_widgets stt tts speed volume (mic_data w) mic))))))))).

End Conversions.

(** Indices the fixed combo boxes can hold. *)
Definition valid (w : Widgets) : Prop :=
  0 <= stt_lang_index w < LANG_COUNT /\
  0 <= tts_lang_index w < LANG_COUNT /\
  0 <= speed_index w < SPEED_COUNT.

End Settings.

(** The keys [save_settings] writes. *)
Definition settings_keys : list pystr :=
  [Settings.key_stt; Settings.key_tts; Settings.key_speed; Settings.key_volume;
   Settings.key_dir; Settings.key_mic].

Module Scenario2.

(** A window at exit: English to Polish, speed x1.5, volume 80, second of two
    microphones, an older configuration file with a key of its own. *)
Definition app_exit : Settings.App :=
  Settings.mk_app
    [(lit "theme", Settings.JStr (lit "dark"));
     (Settings.key_volume, Settings.JStr (lit "loud"))]
    false (lit "/home/user/audio")
    (Settings.mk_widgets 1 2 2 80 [Some 1; Some 4] 1).

(** The widgets as [init_ui] builds them, with the same two microphones. *)
Definition widgets_init : Settings.Widgets :=
  Settings.mk_widgets 0 0 1 100 [Some 1; Some 4] 0.

(** A slider that keeps a value inside its range 20..200. *)
Definition slider (v : Z) : Settings.outcome Z :=
  Settings.Return (Z.max 20 (Z.min 200 v)).

End Scenario2.

(** ** Microphone enumeration *)

Module Devices.

(** The three entries [populate_microphones] reads from the dictionary of
    [get_device_info_by_index]; [None] when the entry is absent. *)
Record DeviceInfo : Type := mk_info {
  maxInputChannels : option Z;
  defaultSampleRate : option float;
  name : option pystr
}.

(** [str(n)] for an [int]. *)
Fixpoint digits (fuel : nat) (n : Z) (acc : pystr) : pystr :=
  match fuel with
  | O => acc
  | S fuel' =>
    let acc' := Z.to_N (48 + n mod 10) :: acc in
    if n <? 10 then acc' else digits fuel' (n / 10) acc'
  end.

Definition str_of_int (n : Z) : pystr :=
  if n <? 0 then lit "-" ++ digits (S (Z.to_nat (- n))) (- n) []
  else digits (S (Z.to_nat n)) n [].

(** [int(info.get("defaultSampleRate", 16000))]. *)
Definition rate_of (info : DeviceInfo) : result Z :=
  match defaultSampleRate info with
  | Some f => int_of_float f
  | None => Ok 16000
  end.

(** The loop over [range(pa.get_device_count())].  [devices] are the
    answers of [get_device_info_by_index], in index order;
    [supported idx rate] tells whether [is_format_supported] returns for
    mono 16-bit input at that rate rather than raising. *)
Fixpoint scan (supported : Z -> Z -> bool) (idx : Z) (devices : list (result DeviceInfo))
    (active_mics : list (Z * pystr)) : result (list (Z * pystr)) :=
  match devices with
  | [] => Ok active_mics
  | d :: rest =>
    info <- d ;;
    if match maxInputChannels info with Some n => n | None => 0 end <=? 0
    then scan supported (idx + 1) rest active_mics
    else
      match rate_of info with
      | Raise _ => scan supported (idx + 1) rest active_mics
      | Ok rate =>
        if supported idx rate then
          let name :=
            match name info with
            | Some s => s
            | None => lit "Device " ++ str_of_int idx
            end in
          scan supported (idx + 1) rest (active_mics ++ [(idx, name)])
        else scan supported (idx + 1) rest active_mics
      end
  end.

(** [populate_microphones] up to the items of the combo box: the new
    [active_mics] and the items added (text, data).  [pa] is the device list,
    or what [PyAudio()] or [get_device_count] raised.  Which item ends up
    current is decided by the combo box and the saved index and is not part
    of this model. *)
Definition populate_microphones (supported : Z -> Z -> bool)
    (pa : result (list (result DeviceInfo)))
    : list (Z * pystr) * list (pystr * option Z) :=
  let active_mics :=
    match (devices <- pa ;; scan supported 0 devices []) with
    | Ok l => l
    | Raise _ => []
    end in
  let items :=
    map (fun m => (str_of_int (fst m) ++ lit ": " ++ snd m, Some (fst m))) active_mics in
  match active_mics with
  | [] => (active_mics, items ++ [(lit "Немає пристроїв", None)])
  | _ :: _ => (active_mics, items)
  end.

(** What makes a device a usable microphone, and the name it is listed
    under. *)
Definition listed_as (supported : Z -> Z -> bool) (idx : Z) (info : DeviceInfo)
    (n : pystr) : Prop :=
  (exists ch, maxInputChannels info = Some ch /\ 0 < ch) /\
  (exists rate, rate_of info = Ok rate /\ supported idx rate = true) /\
  n = match name info with Some s => s | None => lit "Device " ++ str_of_int idx end.

(** Every element is at least [lo] and larger than the one before. *)
Fixpoint increasing (lo : Z) (l : list Z) : Prop :=
  match l with
  | [] => True
  | x :: l' => lo <= x /\ increasing (x + 1) l'
  end.

End Devices.

Module Scenario3.

(** Three devices: an output, a microphone without a name, and a
    microphone whose format probe fails. *)
Definition devices : list (result Devices.DeviceInfo) :=
  [Ok (Devices.mk_info (Some 0) (Some (float_ratio 44100 1)) (Some (lit "Speakers")));
   Ok (Devices.mk_info (Some 2) (Some (float_ratio 48000 1)) None);
   Ok (Devices.mk_info (Some 1) (Some (float_ratio 8000 1)) (Some (lit "Old mic")))].

Definition supported (idx rate : Z) : bool := 16000 <=? rate.

End Scenario3.
(** * Properties *)

(** ** speed_change *)

Lemma set_frame_rate_label (rc : Audioop.Resampler) (seg seg' : AudioSegment) (r : Z) :
  set_frame_rate rc seg r = Ok seg' -> frame_rate seg' = r.
Proof.
  unfold set_frame_rate.
  destruct (r =? frame_rate seg) eqn:E.
  - intros H. injection H as <-. apply Z.eqb_eq in E. symmetry. exact E.
  - destruct (match raw_data seg with [] => _ | _ :: _ => _ end) as [converted|exc];
      cbn [bind]; [|discriminate].
    intros H. injection H as <-. reflexivity.
Qed.

Lemma speed_change_label (rc : Audioop.Resampler) (seg seg' : AudioSegment) (f : float) :
  speed_change rc seg f = Ok seg' -> frame_rate seg' = frame_rate seg.
Proof.
  unfold speed_change.
  destruct (new_sr (frame_rate seg) f) as [n|exc]; cbn [bind]; [|discriminate].
  apply set_frame_rate_label.
Qed.

(** C1.  Whenever [speed_change] returns a segment, its [frame_rate] is the
    [frame_rate] of the segment it was given; hence after a change by [f]
    followed by a change by [1 / f] the label is the original one. *)
Theorem speed_change_preserves_frame_rate :
  forall (rc : Audioop.Resampler) (seg seg1 : AudioSegment) (f : float),
    speed_change rc seg f = Ok seg1 ->
    frame_rate seg1 = frame_rate seg /\
    forall seg2 : AudioSegment,
      speed_change rc seg1 (fdiv (float_ratio 1 1) f) = Ok seg2 ->
      frame_rate seg2 = frame_rate seg.
Proof.
  intros rc seg seg1 f H1.
  pose proof (speed_change_label rc seg seg1 f H1) as E1.
  split; [exact E1|].
  intros seg2 H2. rewrite <- E1. exact (speed_change_label rc seg1 seg2 _ H2).
Qed.

Lemma speed_change_preserves_frame_rate_witness :
  speed_change Audioop.hold_resampler Sample.seg0 (float_ratio 3 2) = Ok Sample.seg0_fast /\
  frame_rate Sample.seg0_fast = frame_rate Sample.seg0.
Proof.
  assert (H : speed_change Audioop.hold_resampler Sample.seg0 (float_ratio 3 2)
              = Ok Sample.seg0_fast) by (vm_compute; reflexivity).
  split; [exact H|].
  exact (proj1 (speed_change_preserves_frame_rate
                  Audioop.hold_resampler Sample.seg0 Sample.seg0_fast (float_ratio 3 2) H)).
Defined.

Lemma int_of_float_truncates (x : float) (n : Z) :
  int_of_float x = Ok n -> is_truncation (float_value x) n.
Proof.
  unfold is_truncation, Qle, Qlt.
  destruct x as [s|s| |s m e]; cbn [int_of_float]; try discriminate.
  - intros H. injection H as <-. cbn. repeat split; intros; lia.
  - intros H. injection H as <-. cbn [float_value].
    destruct (0 <=? e) eqn:He.
    + apply Z.leb_le in He. rewrite Z.shiftl_mul_pow2 by exact He.
      assert (Hp : 0 < Zpos m * 2 ^ e)
        by (apply Z.mul_pos_pos; [lia|apply Z.pow_pos_nonneg; lia]).
      cbn [Qabs Qnum Qden inject_Z].
      destruct s; cbn [cond_Zopp]; repeat split; intros; lia.
    + apply Z.leb_gt in He.
      rewrite Z.shiftl_div_pow2 by lia.
      set (k := 2 ^ (- e)).
      assert (Hk : 0 < k) by (apply Z.pow_pos_nonneg; lia).
      assert (Hq : 0 <= Zpos m / k) by (apply Z.div_pos; lia).
      assert (Hlo : k * (Zpos m / k) <= Zpos m) by (apply Z.mul_div_le; lia).
      assert (Hhi : Zpos m < k * (Zpos m / k + 1)).
      { pose proof (Z.mul_succ_div_gt (Zpos m) k Hk). lia. }
      cbn [Qabs Qnum Qden inject_Z].
      rewrite !Z2Pos.id by exact Hk.
      destruct s; cbn [cond_Zopp]; repeat split; intros; lia.
Qed.

(** C2 (as amended).  The intermediate rate of [speed_change] is the
    binary64 product [frame_rate * factor] with its fraction dropped
    (towards zero). *)
Theorem new_sr_truncates_product :
  forall (rate n : Z) (factor r : float),
    float_of_int rate = Ok r ->
    new_sr rate factor = Ok n ->
    is_truncation (float_value (fmul r factor)) n.
Proof.
  intros rate n factor r Hr Hn. unfold new_sr in Hn. rewrite Hr in Hn. cbn [bind] in Hn.
  apply int_of_float_truncates, Hn.
Qed.

Lemma new_sr_truncates_product_witness :
  is_truncation (float_value (fmul (float_ratio 11025 1) (float_ratio 3 4))) 8268.
Proof.
  apply (new_sr_truncates_product 11025 8268 (float_ratio 3 4) (float_ratio 11025 1));
    vm_compute; reflexivity.
Defined.

(** C2, as stated, fails: at 11025 Hz and factor 0.75 the product is
    8268.75, whose nearest integer is 8269, and [new_sr] is 8268. *)
Lemma new_sr_not_nearest_integer :
  float_of_int 11025 = Ok (float_ratio 11025 1) /\
  (float_value (fmul (float_ratio 11025 1) (float_ratio 3 4)) == 33075 # 4)%Q /\
  new_sr 11025 (float_ratio 3 4) = Ok 8268 /\
  ~ is_nearest_integer (33075 # 4) 8268 /\
  is_nearest_integer (33075 # 4) 8269.
Proof.
  split; [vm_compute; reflexivity|]. split; [vm_compute; reflexivity|].
  split; [vm_compute; reflexivity|]. split.
  - vm_compute. intros H. apply H. reflexivity.
  - vm_compute. discriminate.
Qed.






(** ** volume_gain_db *)

(** *** binary64 *)

Lemma float_ratio_1_10 : float_ratio 1 10 = S754_finite false 7205759403792794 (-56).
Proof. vm_compute. reflexivity. Qed.

Lemma float_ratio_2_1 : float_ratio 2 1 = S754_finite false 4503599627370496 (-51).
Proof. vm_compute. reflexivity. Qed.

Lemma SFltb_irrefl (x : float) : SFltb x x = false.
Proof.
  unfold SFltb, SFcompare.
  destruct x as [s|s| |s m e]; try (destruct s; reflexivity); try reflexivity.
  rewrite Z.compare_refl, Pos.compare_cont_refl. destruct s; reflexivity.
Qed.

(** Between 0.1 and 2.0 nothing is clamped: on the floats of [[1, 2)] the
    gain is 20 times the library's logarithm. *)
Lemma volume_gain_db_binary64_in_binade_1 (libm_log10 : float -> float) (m : Z) :
  volume_gain_db_binary64 libm_log10 (float_in_binade_1 m)
  = (twenty <- float_of_int 20 ;;
     Ok (fmul twenty (libm_log10 (float_in_binade_1 m)))).
Proof.
  unfold volume_gain_db_binary64. cbv zeta.
  rewrite float_ratio_1_10, float_ratio_2_1.
  unfold float_in_binade_1, float_min, float_max, float_log10.
  reflexivity.
Qed.

Lemma SFltb_in_binade_1 (i j : Z) :
  0 < i -> i < j -> SFltb (float_in_binade_1 i) (float_in_binade_1 j) = true.
Proof.
  intros Hi Hij. unfold SFltb, SFcompare, float_in_binade_1.
  rewrite Z.compare_refl.
  change (Pos.compare_cont Eq (Z.to_pos i) (Z.to_pos j)) with (Pos.compare (Z.to_pos i) (Z.to_pos j)).
  replace (Pos.compare (Z.to_pos i) (Z.to_pos j)) with Lt; [reflexivity|].
  symmetry. apply Pos.compare_lt_iff. lia.
Qed.

Lemma SFleb_in_binade_1 (m : Z) :
  SFleb (float_ratio 1 10) (float_in_binade_1 m) = true /\
  SFleb (float_in_binade_1 m) (float_ratio 2 1) = true.
Proof.
  rewrite float_ratio_1_10, float_ratio_2_1. split; reflexivity.
Qed.

(** Whether [h] is a value of [f] on the [n] integers from [a]. *)
Lemma range_dec (f : Z -> Z) (h a : Z) (n : nat) :
  (exists i, a <= i < a + Z.of_nat n /\ f i = h) \/
  (forall i, a <= i < a + Z.of_nat n -> f i <> h).
Proof.
  induction n as [|n IH].
  - right. intros i Hi. lia.
  - destruct IH as [(i & Hi & E)|Hno].
    + left. exists i. split; [lia|exact E].
    + destruct (Z.eq_dec (f (a + Z.of_nat n)) h) as [E|NE].
      * left. exists (a + Z.of_nat n). split; [lia|exact E].
      * right. intros i Hi.
        destruct (Z.eq_dec i (a + Z.of_nat n)) as [->|Hne]; [exact NE|apply Hno; lia].
Qed.

(** [n + 1] consecutive integers sent to [n] consecutive integers: two of
    them are sent to the same one. *)
Lemma pigeonhole (n : nat) : forall (f : Z -> Z) (a lo : Z),
  (forall i, a <= i <= a + Z.of_nat n -> lo <= f i < lo + Z.of_nat n) ->
  exists i j, a <= i < j /\ j <= a + Z.of_nat n /\ f i = f j.
Proof.
  induction n as [|n IH]; intros f a lo Hf.
  - specialize (Hf a). lia.
  - set (h := lo + Z.of_nat n).
    destruct (range_dec f h a (S (S n))) as [(p & Hp & Ep)|Hno].
    + set (g := fun i => if i <? p then f i else f (i + 1)).
      destruct (range_dec g h a (S n)) as [(q & Hq & Eq)|Hnog].
      * unfold g in Eq. destruct (q <? p) eqn:Eqp.
        -- apply Z.ltb_lt in Eqp. exists q, p.
           split; [lia|]. split; [lia|congruence].
        -- apply Z.ltb_ge in Eqp. exists p, (q + 1).
           split; [lia|]. split; [lia|congruence].
      * destruct (IH g a lo) as (i & j & Hij & Hj & E).
        { intros i Hi.
          assert (Hne : g i <> h) by (apply Hnog; lia).
          assert (Hr : lo <= g i < lo + Z.of_nat (S n)).
          { unfold g. destruct (i <? p); apply Hf; lia. }
          subst h. lia. }
        unfold g in E.
        destruct (i <? p) eqn:Ei; destruct (j <? p) eqn:Ej;
          try apply Z.ltb_lt in Ei; try apply Z.ltb_ge in Ei;
          try apply Z.ltb_lt in Ej; try apply Z.ltb_ge in Ej.
        -- exists i, j. split; [lia|]. split; [lia|exact E].
        -- exists i, (j + 1). split; [lia|]. split; [lia|exact E].
        -- lia.
        -- exists (i + 1), (j + 1). split; [lia|]. split; [lia|exact E].
    + destruct (IH f a lo) as (i & j & Hij & Hj & E).
      { intros i Hi.
        assert (Hne : f i <> h) by (apply Hno; lia).
        assert (Hr : lo <= f i < lo + Z.of_nat (S n)) by (apply Hf; lia).
        subst h. lia. }
      exists i, j. split; [lia|]. split; [lia|exact E].
Qed.

(** Whatever the C library's [log10] within [log10_enclosed]: two floats
    from 1.78 up to 2 have the same logarithm. *)
Lemma log10_collision (libm_log10 : float -> float) :
  log10_enclosed libm_log10 ->
  exists i j, m_178 <= i /\ i < j /\ j < 2 ^ 53 /\
    libm_log10 (float_in_binade_1 i) = libm_log10 (float_in_binade_1 j).
Proof.
  intros Henc.
  set (n := Z.to_nat (k_03011 - 2 ^ 52 + 1)).
  assert (Hn : Z.of_nat n = k_03011 - 2 ^ 52 + 1).
  { subst n. apply Z2Nat.id. unfold k_03011. change (2 ^ 52) with 4503599627370496. lia. }
  assert (Hfit : m_178 + Z.of_nat n < 2 ^ 53).
  { rewrite Hn. unfold m_178, k_03011.
    change (2 ^ 52) with 4503599627370496. change (2 ^ 53) with 9007199254740992. lia. }
  destruct (pigeonhole n (fun i => mantissa (libm_log10 (float_in_binade_1 i)))
              m_178 (2 ^ 52)) as (i & j & Hij & Hj & E).
  { intros i Hi. destruct (Henc i) as (k & Hk & Ek); [lia|].
    rewrite Ek. cbn [mantissa]. lia. }
  exists i, j. split; [lia|]. split; [lia|]. split; [lia|].
  destruct (Henc i) as (ki & _ & Eki); [lia|].
  destruct (Henc j) as (kj & _ & Ekj); [lia|].
  rewrite Eki, Ekj in *. cbn [mantissa] in E. congruence.
Qed.

Lemma SFltb_below (v : float) (c d : positive) :
  SFltb v (S754_finite false c (-56)) = true ->
  SFltb (S754_finite false d (-51)) v = false /\
  SFltb (S754_finite false c (-56)) v = false.
Proof.
  unfold SFltb, SFcompare.
  destruct v as [s|s| |s m e].
  - intros _. split; reflexivity.
  - destruct s; [intros _; split; reflexivity|intros H; discriminate H].
  - intros H. discriminate H.
  - destruct s; [intros _; split; reflexivity|].
    destruct (Z.compare_spec e (-56)) as [->|Hlt|Hgt].
    + rewrite Z.compare_refl. change (Z.compare (-51) (-56)) with Gt.
      replace (Pos.compare_cont Eq c m) with (CompOpp (Pos.compare_cont Eq m c))
        by apply (Pos.compare_cont_antisym m c Eq).
      destruct (Pos.compare_cont Eq m c); intros H; try discriminate H.
      split; reflexivity.
    + intros _.
      replace (Z.compare (-51) e) with Gt by (symmetry; apply Z.compare_gt_iff; lia).
      replace (Z.compare (-56) e) with Gt by (symmetry; apply Z.compare_gt_iff; lia).
      split; reflexivity.
    + intros H. discriminate H.
Qed.

Lemma float_clamp_below (v : float) :
  SFltb v (float_ratio 1 10) = true ->
  float_max (float_ratio 1 10) (float_min v (float_ratio 2 1)) = float_ratio 1 10.
Proof.
  rewrite float_ratio_1_10, float_ratio_2_1. intros H.
  destruct (SFltb_below v _ 4503599627370496 H) as [H2 H1].
  unfold float_min. rewrite H2. unfold float_max. rewrite H1. reflexivity.
Qed.

Lemma float_clamp_above (v : float) :
  SFltb (float_ratio 2 1) v = true ->
  float_max (float_ratio 1 10) (float_min v (float_ratio 2 1)) = float_ratio 2 1.
Proof.
  intros H. unfold float_min. rewrite H.
  rewrite float_ratio_1_10, float_ratio_2_1. reflexivity.
Qed.

Lemma float_clamp_bounds :
  float_max (float_ratio 1 10) (float_min (float_ratio 1 10) (float_ratio 2 1))
  = float_ratio 1 10 /\
  float_max (float_ratio 1 10) (float_min (float_ratio 2 1) (float_ratio 2 1))
  = float_ratio 2 1.
Proof. split; vm_compute; reflexivity. Qed.

Lemma float_ratio_1_1 : float_ratio 1 1 = S754_finite false 4503599627370496 (-52).
Proof. vm_compute. reflexivity. Qed.

(** *** The real numbers *)

Local Open Scope R_scope.

Lemma py_clamp (v : R) : py_max (1 / 10) (py_min v 2) = clamp v (1 / 10) 2.
Proof.
  unfold py_max, py_min, clamp.
  destruct (Rlt_dec 2 v) as [H2|H2]; destruct (Rlt_dec v (1 / 10)) as [H1|H1];
    try (exfalso; lra).
  - destruct (Rgt_dec 2 (1 / 10)) as [H|H]; [reflexivity|exfalso; lra].
  - destruct (Rgt_dec v (1 / 10)) as [H|H]; [exfalso; lra|reflexivity].
  - destruct (Rgt_dec v (1 / 10)) as [H|H]; [reflexivity|lra].
Qed.

Lemma clamp_bounds (v : R) : 1 / 10 <= clamp v (1 / 10) 2 <= 2.
Proof.
  unfold clamp.
  destruct (Rlt_dec v (1 / 10)); [lra|]. destruct (Rlt_dec 2 v); lra.
Qed.

Lemma volume_gain_db_eq (v : R) :
  volume_gain_db v = Ok (20 * log10 (clamp v (1 / 10) 2)).
Proof.
  unfold volume_gain_db. rewrite py_clamp.
  unfold math_log10.
  destruct (Rlt_dec 0 (clamp v (1 / 10) 2)) as [H|H].
  - reflexivity.
  - exfalso. pose proof (clamp_bounds v). lra.
Qed.

(** C4.  For every real [v], [volume_gain_db v] returns
    [20 * log10 (clamp v 0.1 2.0)] (and never raises). *)
Theorem volume_gain_db_is_clamped_log :
  forall v : R, volume_gain_db v = Ok (20 * log10 (clamp v (1 / 10) 2)).
Proof. exact volume_gain_db_eq. Qed.

Lemma ln10_pos : 0 < ln 10.
Proof. rewrite <- ln_1. apply ln_increasing; lra. Qed.

Lemma log10_increasing (x y : R) : 0 < x -> x < y -> log10 x < log10 y.
Proof.
  intros Hx Hxy. unfold log10, Rdiv.
  apply Rmult_lt_compat_r.
  - apply Rinv_0_lt_compat, ln10_pos.
  - apply ln_increasing; assumption.
Qed.

(** C5 (as amended).  Over the real numbers [volume_gain_db 1.0] is [0.0];
    on [[0.1, 2.0]] the gain is strictly increasing; below [0.1] it is the
    gain at [0.1] and above [2.0] the gain at [2.0].  On binary64, whatever
    the C library's [log10]: the gain at [1.0] is [0.0] when that [log10]
    is [0.0] at [1.0]; below [0.1] the gain is the gain at [0.1] and above
    [2.0] the gain at [2.0]. *)
Theorem volume_gain_db_unit_monotone_clamped :
  volume_gain_db 1 = Ok 0 /\
  (forall x y : R, 1 / 10 <= x -> x < y -> y <= 2 ->
     exists gx gy, volume_gain_db x = Ok gx /\ volume_gain_db y = Ok gy /\ gx < gy) /\
  (forall v : R, v < 1 / 10 -> volume_gain_db v = volume_gain_db (1 / 10)) /\
  (forall v : R, 2 < v -> volume_gain_db v = volume_gain_db 2) /\
  (forall libm_log10 : float -> float,
     (libm_log10 (float_ratio 1 1) = S754_zero false ->
      volume_gain_db_binary64 libm_log10 (float_ratio 1 1) = Ok (S754_zero false)) /\
     (forall v : float, SFltb v (float_ratio 1 10) = true ->
        volume_gain_db_binary64 libm_log10 v
        = volume_gain_db_binary64 libm_log10 (float_ratio 1 10)) /\
     (forall v : float, SFltb (float_ratio 2 1) v = true ->
        volume_gain_db_binary64 libm_log10 v
        = volume_gain_db_binary64 libm_log10 (float_ratio 2 1))).
Proof.
  split; [|split; [|split; [|split]]].
  - rewrite volume_gain_db_eq. f_equal.
    unfold clamp. destruct (Rlt_dec 1 (1 / 10)); [lra|]. destruct (Rlt_dec 2 1); [lra|].
    unfold log10. rewrite ln_1. lra.
  - intros x y Hx Hxy Hy.
    exists (20 * log10 (clamp x (1 / 10) 2)), (20 * log10 (clamp y (1 / 10) 2)).
    rewrite !volume_gain_db_eq. repeat split.
    unfold clamp.
    destruct (Rlt_dec x (1 / 10)); [lra|]. destruct (Rlt_dec 2 x); [lra|].
    destruct (Rlt_dec y (1 / 10)); [lra|]. destruct (Rlt_dec 2 y); [lra|].
    apply Rmult_lt_compat_l; [lra|]. apply log10_increasing; lra.
  - intros v Hv. rewrite !volume_gain_db_eq. do 3 f_equal.
    unfold clamp.
    destruct (Rlt_dec v (1 / 10)); [|lra].
    destruct (Rlt_dec (1 / 10) (1 / 10)); [lra|]. destruct (Rlt_dec 2 (1 / 10)); [lra|].
    reflexivity.
  - intros v Hv. rewrite !volume_gain_db_eq. do 3 f_equal.
    unfold clamp.
    destruct (Rlt_dec v (1 / 10)); [lra|]. destruct (Rlt_dec 2 v); [|lra].
    destruct (Rlt_dec 2 (1 / 10)); [lra|]. destruct (Rlt_dec 2 2); [lra|].
    reflexivity.
  - intros libm_log10. split; [|split].
    + intros Hone. unfold volume_gain_db_binary64. cbv zeta.
      replace (float_max (float_ratio 1 10) (float_min (float_ratio 1 1) (float_ratio 2 1)))
        with (float_ratio 1 1) by (vm_compute; reflexivity).
      revert Hone. rewrite float_ratio_1_1. intros Hone.
      unfold float_log10.
      change (SFltb (S754_zero false) (S754_finite false 4503599627370496 (-52))) with true.
      cbv iota. rewrite Hone. vm_compute. reflexivity.
    + intros v Hv. unfold volume_gain_db_binary64. cbv zeta.
      rewrite (float_clamp_below v Hv), (proj1 float_clamp_bounds). reflexivity.
    + intros v Hv. unfold volume_gain_db_binary64. cbv zeta.
      rewrite (float_clamp_above v Hv), (proj2 float_clamp_bounds). reflexivity.
Qed.

Lemma volume_gain_db_unit_monotone_clamped_witness :
  (exists gx gy, volume_gain_db (1 / 2) = Ok gx /\ volume_gain_db 1 = Ok gy /\ gx < gy) /\
  volume_gain_db 0 = volume_gain_db (1 / 10) /\
  volume_gain_db 3 = volume_gain_db 2 /\
  (forall libm_log10 : float -> float,
     volume_gain_db_binary64 libm_log10 (float_ratio 1 20)
     = volume_gain_db_binary64 libm_log10 (float_ratio 1 10) /\
     volume_gain_db_binary64 libm_log10 (float_ratio 3 1)
     = volume_gain_db_binary64 libm_log10 (float_ratio 2 1)).
Proof.
  destruct volume_gain_db_unit_monotone_clamped as (_ & Hmono & Hlow & Hhigh & Hfloat).
  split; [apply Hmono; lra|]. split; [apply Hlow; lra|]. split; [apply Hhigh; lra|].
  intros libm_log10. destruct (Hfloat libm_log10) as (_ & Hflow & Hfhigh).
  split; [apply Hflow|apply Hfhigh]; vm_compute; reflexivity.
Defined.

Local Close Scope R_scope.

(** C5, as stated, fails on binary64.  From 1.78 up to 2 there are more
    floats than there are floats from 0.25 to 0.3011, where their
    logarithms are: whatever the C library's [log10] within
    [log10_enclosed], two floats [x < y] between 0.1 and 2.0 get the same
    gain [g], and [g < g] is false.  (A constant function shows that the
    condition on [log10] can be met.) *)
Lemma volume_gain_db_not_strictly_increasing_on_binary64 :
  (exists libm_log10, log10_enclosed libm_log10) /\
  (forall libm_log10, log10_enclosed libm_log10 ->
     exists (i j : Z) (g : float),
       (m_178 <= i /\ i < j /\ j < 2 ^ 53) /\
       SFleb (float_ratio 1 10) (float_in_binade_1 i) = true /\
       SFltb (float_in_binade_1 i) (float_in_binade_1 j) = true /\
       SFleb (float_in_binade_1 j) (float_ratio 2 1) = true /\
       volume_gain_db_binary64 libm_log10 (float_in_binade_1 i) = Ok g /\
       volume_gain_db_binary64 libm_log10 (float_in_binade_1 j) = Ok g /\
       SFltb g g = false).
Proof.
  split.
  - exists (fun _ => S754_finite false 4503599627370496 (-54)).
    intros m _. exists 4503599627370496%positive. split; [|reflexivity].
    unfold k_03011. change (2 ^ 52) with 4503599627370496. lia.
  - intros libm_log10 Henc.
    destruct (log10_collision libm_log10 Henc) as (i & j & Hi & Hij & Hj & E).
    exists i, j,
      (fmul (S754_finite false 5629499534213120 (-48)) (libm_log10 (float_in_binade_1 i))).
    split; [repeat split; assumption|].
    split; [exact (proj1 (SFleb_in_binade_1 i))|].
    split; [apply SFltb_in_binade_1; unfold m_178 in Hi; lia|].
    split; [exact (proj2 (SFleb_in_binade_1 j))|].
    split; [rewrite volume_gain_db_binary64_in_binade_1; reflexivity|].
    split; [rewrite volume_gain_db_binary64_in_binade_1, <- E; reflexivity|].
    apply SFltb_irrefl.
Qed.

(** ** Recognition callback *)

Lemma callback_outcome (now lang_code : pystr) (recognized : result pystr) (self : MainWindow) :
  exists eff,
    callback now lang_code recognized self
    = Ok (fst (add_history now (entry_of lang_code (outcome_of recognized)) self), eff).
Proof.
  destruct recognized as [text|[cls msg]].
  - exists (appendPlainText text
            :: snd (add_history now (entry_of lang_code (Recognized text)) self)).
    reflexivity.
  - exists (snd (add_history now (entry_of lang_code (outcome_of (Raise (mk_exn cls msg)))) self)).
    unfold callback, try_except, bind, outcome_of.
    rewrite <- surjective_pairing.
    destruct cls; cbn [exn_cls exn_msg entry_of]; reflexivity.
Qed.

(** C7.  Whatever [recognize_google] does for an utterance, the callback
    returns normally (it raises nothing) and adds exactly one line to the
    history: the recognized text, the no-speech line for
    [UnknownValueError] (Inaudible), the service line for [RequestError]
    (ServiceUnavailable), and the failure line with the exception's message
    for any other exception (Failed). *)
Theorem callback_one_outcome_never_raises :
  forall (now lang_code : pystr) (recognized : result pystr) (self : MainWindow),
    exists self' eff,
      callback now lang_code recognized self = Ok (self', eff) /\
      history self'
      = appendleft (line_of (now, entry_of lang_code (outcome_of recognized))) (history self) /\
      (forall exc, recognized = Raise exc ->
         (exn_cls exc = UnknownValueError -> outcome_of recognized = Inaudible) /\
         (exn_cls exc = RequestError -> outcome_of recognized = ServiceUnavailable) /\
         (exn_cls exc <> UnknownValueError -> exn_cls exc <> RequestError ->
          outcome_of recognized = Failed (exn_msg exc))).
Proof.
  intros now lang_code recognized self.
  destruct (callback_outcome now lang_code recognized self) as [eff Heff].
  eexists _, eff. split; [exact Heff|]. split; [reflexivity|].
  intros exc ->. cbn [outcome_of].
  destruct exc as [cls msg]; cbn [exn_cls exn_msg].
  repeat split; intros; destruct cls; congruence.
Qed.

Lemma callback_one_outcome_never_raises_witness :
  exists self' eff,
    callback (lit "10:00:00") (lit "uk-UA") (raise RequestError "recognition connection failed")
             Sample.w0 = Ok (self', eff) /\
    history self' = [lit "[10:00:00] STT: проблема з підключенням до сервісу"].
Proof.
  destruct (callback_one_outcome_never_raises
              (lit "10:00:00") (lit "uk-UA")
              (raise RequestError "recognition connection failed") Sample.w0)
    as (self' & eff & Hcall & Hhist & _).
  exists self', eff. split; [exact Hcall|]. rewrite Hhist. vm_compute. reflexivity.
Defined.

(** ** Text validation in play_tts *)

Lemma lstrip_blank (s : pystr) : forallb isspace s = true -> lstrip s = [].
Proof.
  induction s as [|c s IH]; cbn [forallb lstrip]; [reflexivity|].
  intros H. apply andb_prop in H. destruct H as [Hc Hs].
  rewrite Hc. apply IH, Hs.
Qed.

Lemma strip_blank (s : pystr) : forallb isspace s = true -> strip s = [].
Proof.
  intros H. unfold strip. rewrite (lstrip_blank s H). reflexivity.
Qed.

Lemma lstrip_nil_blank (s : pystr) : lstrip s = [] -> forallb isspace s = true.
Proof.
  induction s as [|c s IH]; cbn [forallb lstrip]; [reflexivity|].
  destruct (isspace c); [exact IH|discriminate].
Qed.

Lemma lstrip_head (s : pystr) c s' : lstrip s = c :: s' -> isspace c = false.
Proof.
  induction s as [|a s IH]; cbn [lstrip]; [discriminate|].
  destruct (isspace a) eqn:E; [exact IH|]. intros H. injection H as -> _. exact E.
Qed.

Lemma strip_nil_blank (s : pystr) : strip s = [] -> forallb isspace s = true.
Proof.
  unfold strip, rstrip. intros H.
  apply lstrip_nil_blank.
  destruct (lstrip s) as [|c s'] eqn:E; [reflexivity|].
  exfalso.
  assert (Hrev : lstrip (rev (c :: s')) = []).
  { apply (f_equal (@rev N)) in H. rewrite rev_involutive in H. exact H. }
  apply lstrip_nil_blank in Hrev.
  rewrite forallb_forall in Hrev.
  apply lstrip_head in E.
  specialize (Hrev c). rewrite <- in_rev in Hrev.
  rewrite Hrev in E by (left; reflexivity). discriminate.
Qed.

(** C6.  When the text to synthesise is empty or consists of white space
    only, [play_tts] shows the warning and returns: the window is unchanged,
    no worker is created or started, and the only effect is the message box,
    so the synthesis service ([gTTS], reached from [TTSWorker.run] alone) is
    not contacted. *)
Theorem play_tts_rejects_blank_text :
  forall (dialog_target : pystr) (parent : pystr -> pystr) (save_only : bool)
         (self : MainWindow),
    strip (tts_text self) = [] ->
    forallb isspace (tts_text self) = true /\
    play_tts dialog_target parent save_only self
    = (self, [MessageBox Warning (lit "Увага") (lit "Введіть текст для озвучення.")]) /\
    existsb is_worker_start (snd (play_tts dialog_target parent save_only self)) = false /\
    tts_worker (fst (play_tts dialog_target parent save_only self)) = tts_worker self.
Proof.
  intros dialog_target parent save_only self H.
  split; [apply strip_nil_blank, H|].
  assert (E : play_tts dialog_target parent save_only self
              = (self, [MessageBox Warning (lit "Увага") (lit "Введіть текст для озвучення.")])).
  { unfold play_tts. rewrite H. reflexivity. }
  rewrite E. repeat split.
Qed.

Lemma play_tts_rejects_blank_text_witness :
  play_tts (lit "/home/out.mp3") (fun p => p) true Sample.w_blank
  = (Sample.w_blank, [MessageBox Warning (lit "Увага") (lit "Введіть текст для озвучення.")]).
Proof.
  apply (play_tts_rejects_blank_text (lit "/home/out.mp3") (fun p => p) true Sample.w_blank).
  vm_compute. reflexivity.
Defined.

(** ** Level meter *)

Lemma binary_round_aux_nonneg (mx ex : Z) (lx : location) :
  nonneg_float (binary_round_aux prec emax false mx ex lx).
Proof.
  unfold binary_round_aux.
  destruct (shr_fexp prec emax mx ex lx) as [mrs' e'].
  destruct (shr_fexp prec emax _ e' loc_Exact) as [mrs'' e''].
  destruct (shr_m mrs''); [exact I| |exact I].
  destruct (_ <=? _); exact I.
Qed.

Lemma binary_normalize_nonneg (n : Z) :
  0 <= n -> nonneg_float (binary_normalize prec emax n 0 false).
Proof.
  intros Hn. destruct n as [|p|p]; cbn [binary_normalize]; [exact I| |lia].
  unfold binary_round. destruct (shl_align p 0 _) as [mz ez].
  apply binary_round_aux_nonneg.
Qed.

Lemma fdiv_nonneg (x y : float) :
  nonneg_float x -> nonneg_float y -> nonneg_float (fdiv x y).
Proof.
  unfold fdiv, SFdiv.
  destruct x as [sx|sx| |sx mx ex]; destruct y as [sy|sy| |sy my ey];
    cbn [nonneg_float]; try (intros; exact I);
    try (destruct sx; destruct sy; cbn; intros; tauto).
  destruct sx; [tauto|]. destruct sy; [tauto|]. intros _ _. cbn [xorb].
  destruct (SFdiv_core_binary prec emax (Zpos mx) ex (Zpos my) ey) as [[mz ez] lz].
  apply binary_round_aux_nonneg.
Qed.

Lemma int_of_float_nonneg (x : float) (n : Z) :
  nonneg_float x -> int_of_float x = Ok n -> 0 <= n.
Proof.
  destruct x as [s|s| |s m e]; cbn [int_of_float nonneg_float]; try discriminate.
  - intros _ H. injection H as <-. lia.
  - destruct s; [tauto|]. intros _ H. injection H as <-. cbn [cond_Zopp].
    apply Z.shiftl_nonneg. lia.
Qed.

Lemma level_of_rms_range (r v : Z) :
  0 <= r -> Level.level_of_rms r = Ok v -> 0 <= v <= 100.
Proof.
  intros Hr. unfold Level.level_of_rms.
  destruct (int_of_float (float_ratio r 300)) as [q|exc] eqn:E; cbn [bind]; [|discriminate].
  intros H. injection H as <-.
  assert (0 <= q).
  { apply (int_of_float_nonneg (float_ratio r 300)); [|exact E].
    apply fdiv_nonneg; apply binary_normalize_nonneg; lia. }
  lia.
Qed.

Lemma rms_nonneg (data : list byte) (r : Z) : Level.rms data 2 = Ok r -> 0 <= r.
Proof.
  unfold Level.rms. cbn [Z.eqb Pos.eqb negb].
  destruct (Level.samples16 data) as [[|v l]|]; try discriminate.
  - intros H. injection H as <-. lia.
  - intros H. injection H as <-. apply Z.sqrt_nonneg.
Qed.

Lemma fold_squares_acc (l : list Z) (a : Z) :
  fold_left (fun acc v => acc + v * v) l a = a + Level.sum_squares l.
Proof.
  unfold Level.sum_squares. revert a.
  induction l as [|v l IH]; intros a; cbn [fold_left]; [lia|].
  rewrite (IH (a + v * v)), (IH (0 + v * v)). lia.
Qed.

Lemma sum_squares_cons (v : Z) (l : list Z) :
  Level.sum_squares (v :: l) = v * v + Level.sum_squares l.
Proof. unfold Level.sum_squares at 1. cbn [fold_left]. rewrite fold_squares_acc. lia. Qed.

Lemma sum_squares_between (lo hi : Z) (l : list Z) :
  Forall (fun v => lo <= v * v <= hi) l ->
  Z.of_nat (List.length l) * lo <= Level.sum_squares l <= Z.of_nat (List.length l) * hi.
Proof.
  induction 1 as [|v l Hv Hl IH].
  - cbn. lia.
  - rewrite sum_squares_cons. cbn [List.length]. lia.
Qed.

Lemma samples16_zero (data : list byte) :
  Forall (eq Byte.x00) data ->
  match Level.samples16 data with
  | Some l => Forall (eq 0) l
  | None => True
  end.
Proof.
  enough (H : (Forall (eq Byte.x00) data ->
               match Level.samples16 data with Some l => Forall (eq 0) l | None => True end)
              /\ forall b, Forall (eq Byte.x00) (b :: data) ->
                 match Level.samples16 (b :: data) with
                 | Some l => Forall (eq 0) l | None => True end) by apply H.
  induction data as [|c data [IH1 IH2]].
  - split; intros; cbn; auto.
  - split; [apply IH2|].
    intros b Hb. inversion Hb as [|? ? Eb Hcd]; subst. inversion Hcd as [|? ? Ec Hd]; subst.
    cbn [Level.samples16]. specialize (IH1 Hd).
    destruct (Level.samples16 data) as [l|]; [|exact I].
    constructor; [reflexivity|exact IH1].
Qed.

Lemma sum_squares_zero (l : list Z) : Forall (eq 0) l -> Level.sum_squares l = 0.
Proof.
  induction 1 as [|v l Hv Hl IH]; [reflexivity|].
  rewrite sum_squares_cons, IH. subst v. reflexivity.
Qed.

Lemma level_zero_frame (data : list byte) :
  Forall (eq Byte.x00) data ->
  match (rms <- Level.rms data 2 ;; Level.level_of_rms rms) with
  | Ok v => v = 0
  | Raise _ => True
  end.
Proof.
  intros H. apply samples16_zero in H. unfold Level.rms. cbn [Z.eqb Pos.eqb negb].
  destruct (Level.samples16 data) as [[|v l]|]; cbn [bind raise].
  - reflexivity.
  - rewrite (sum_squares_zero _ H). rewrite Z.div_0_l by (cbn [List.length]; lia).
    reflexivity.
  - exact I.
Qed.

Lemma samples16_encode16 (samples : list Z) :
  Forall (fun v => v = 32767 \/ v = -32768) samples ->
  Level.samples16 (Level.encode16 samples) = Some samples.
Proof.
  induction 1 as [|v l Hv Hl IH]; [reflexivity|].
  cbn [Level.encode16 flat_map app]. cbn [Level.samples16].
  fold (Level.encode16 l). rewrite IH.
  destruct Hv as [-> | ->]; reflexivity.
Qed.

Lemma level_full_scale (samples : list Z) :
  Level.full_scale_square samples ->
  (rms <- Level.rms (Level.encode16 samples) 2 ;; Level.level_of_rms rms) = Ok 100.
Proof.
  intros [Hne Hall]. unfold Level.rms. cbn [Z.eqb Pos.eqb negb].
  rewrite (samples16_encode16 _ Hall).
  destruct samples as [|v l]; [congruence|]. cbn [bind].
  set (n := Z.of_nat (List.length (v :: l))).
  assert (Hn : 0 < n) by (subst n; cbn [List.length]; lia).
  assert (Hs : n * (32767 * 32767) <= Level.sum_squares (v :: l) <= n * (32768 * 32768)).
  { apply sum_squares_between. eapply Forall_impl; [|exact Hall].
    intros a [-> | ->]; lia. }
  set (S := Level.sum_squares (v :: l)) in *.
  assert (Hq : 32767 * 32767 <= S / n <= 32768 * 32768).
  { split; [apply Z.div_le_lower_bound; lia|apply Z.div_le_upper_bound; lia]. }
  assert (Hr : Z.sqrt (S / n) = 32767 \/ Z.sqrt (S / n) = 32768).
  { assert (32767 <= Z.sqrt (S / n)).
    { change 32767 with (Z.sqrt (32767 * 32767)). apply Z.sqrt_le_mono. lia. }
    assert (Z.sqrt (S / n) <= 32768).
    { change 32768 with (Z.sqrt (32768 * 32768)). apply Z.sqrt_le_mono. lia. }
    lia. }
  destruct Hr as [-> | ->]; vm_compute; reflexivity.
Qed.

(** What [update_vu_level] sets when its read returns. *)
Lemma update_vu_level_reading (read : result (list byte)) (self : MainWindow) :
  (exists v, update_vu_level read self = [setValue vu_meter v] /\ 0 <= v <= 100) /\
  (forall data, read = Ok data -> Forall (eq Byte.x00) data ->
     update_vu_level read self = [setValue vu_meter 0]) /\
  (forall samples, vu_stream self <> None -> read = Ok (Level.encode16 samples) ->
     Level.full_scale_square samples ->
     update_vu_level read self = [setValue vu_meter 100]) /\
  (vu_stream self = None -> update_vu_level read self = [setValue vu_meter 0]) /\
  (forall exc, read = Raise exc -> update_vu_level read self = [setValue vu_meter 0]).
Proof.
  unfold update_vu_level.
  split; [|split; [|split; [|split]]].
  - destruct (vu_stream self); [|exists 0; split; [reflexivity|lia]].
    destruct read as [data|exc]; cbn [bind]; [|exists 0; split; [reflexivity|lia]].
    destruct (Level.rms data 2) as [r|exc] eqn:Er; cbn [bind];
      [|exists 0; split; [reflexivity|lia]].
    destruct (Level.level_of_rms r) as [v|exc] eqn:Ev;
      [|exists 0; split; [reflexivity|lia]].
    exists v. split; [reflexivity|].
    apply (level_of_rms_range r v); [apply (rms_nonneg data), Er|exact Ev].
  - intros data -> Hzero. destruct (vu_stream self); [|reflexivity]. cbn [bind].
    pose proof (level_zero_frame data Hzero) as H.
    destruct (rms <- Level.rms data 2;; Level.level_of_rms rms) as [v|exc];
      [subst v|]; reflexivity.
  - intros samples Hs -> Hsq. destruct (vu_stream self); [|congruence]. cbn [bind].
    rewrite (level_full_scale samples Hsq). reflexivity.
  - intros ->. reflexivity.
  - intros exc ->. destruct (vu_stream self); reflexivity.
Qed.

(** C8 (as amended).  Every reading one call of [update_vu_level] sets is
    between 0 and 100; an all-zero frame reads 0; a full-scale 16-bit
    square wave reads 100; with no stream, or when the read raises, the
    reading is 0.  On a stream that is there and stalled the blocking read
    does not return, and the call sets no reading. *)
Theorem vu_level_range_zero_saturation :
  forall (read : read_outcome) (self : MainWindow),
    (forall eff, update_vu_level_blocking read self = Some eff ->
       exists v, eff = [setValue vu_meter v] /\ 0 <= v <= 100) /\
    (forall data, read = Returns (Ok data) -> Forall (eq Byte.x00) data ->
       update_vu_level_blocking read self = Some [setValue vu_meter 0]) /\
    (forall samples, vu_stream self <> None ->
       read = Returns (Ok (Level.encode16 samples)) ->
       Level.full_scale_square samples ->
       update_vu_level_blocking read self = Some [setValue vu_meter 100]) /\
    (vu_stream self = None ->
       update_vu_level_blocking read self = Some [setValue vu_meter 0]) /\
    (forall exc, read = Returns (Raise exc) ->
       update_vu_level_blocking read self = Some [setValue vu_meter 0]) /\
    (vu_stream self <> None -> read = Blocks ->
       update_vu_level_blocking read self = None).
Proof.
  intros read self.
  assert (Hcall : forall r, update_vu_level_blocking (Returns r) self
                            = Some (update_vu_level r self)).
  { intros r. unfold update_vu_level_blocking, update_vu_level.
    destruct (vu_stream self); reflexivity. }
  split; [|split; [|split; [|split; [|split]]]].
  - intros eff. destruct read as [r|].
    + rewrite Hcall. intros [= <-].
      exact (proj1 (update_vu_level_reading r self)).
    + unfold update_vu_level_blocking. destruct (vu_stream self); [discriminate|].
      intros [= <-]. exists 0. split; [reflexivity|lia].
  - intros data -> Hzero. rewrite Hcall. f_equal.
    exact (proj1 (proj2 (update_vu_level_reading (Ok data) self)) data eq_refl Hzero).
  - intros samples Hs -> Hsq. rewrite Hcall. f_equal.
    exact (proj1 (proj2 (proj2 (update_vu_level_reading (Ok (Level.encode16 samples)) self)))
             samples Hs eq_refl Hsq).
  - intros Hnone. unfold update_vu_level_blocking. rewrite Hnone. reflexivity.
  - intros exc ->. rewrite Hcall. f_equal.
    exact (proj2 (proj2 (proj2 (proj2 (update_vu_level_reading (Raise exc) self))))
             exc eq_refl).
  - intros Hs ->. unfold update_vu_level_blocking.
    destruct (vu_stream self); [reflexivity|congruence].
Qed.

Lemma vu_level_range_zero_saturation_witness :
  update_vu_level_blocking
    (Returns (Ok (Level.encode16 [32767; -32768; 32767; -32768]))) Sample.w_metering
  = Some [setValue vu_meter 100] /\
  update_vu_level_blocking
    (Returns (Ok [Byte.x00; Byte.x00; Byte.x00; Byte.x00])) Sample.w_metering
  = Some [setValue vu_meter 0] /\
  update_vu_level_blocking (Returns (raise OSError "Input overflowed")) Sample.w_metering
  = Some [setValue vu_meter 0] /\
  update_vu_level_blocking (Returns (Ok [Byte.x10; Byte.x27])) Sample.w0
  = Some [setValue vu_meter 0] /\
  update_vu_level_blocking Blocks Sample.w0 = Some [setValue vu_meter 0] /\
  update_vu_level_blocking Blocks Sample.w_metering = None.
Proof.
  split; [|split; [|split; [|split; [|split]]]].
  - destruct (vu_level_range_zero_saturation
                (Returns (Ok (Level.encode16 [32767; -32768; 32767; -32768])))
                Sample.w_metering)
      as (_ & _ & Hsat & _ & _ & _).
    apply (Hsat [32767; -32768; 32767; -32768]).
    + discriminate.
    + reflexivity.
    + split; [discriminate|]. repeat (apply Forall_cons; [lia|]). apply Forall_nil.
  - destruct (vu_level_range_zero_saturation
                (Returns (Ok [Byte.x00; Byte.x00; Byte.x00; Byte.x00])) Sample.w_metering)
      as (_ & Hzero & _ & _ & _ & _).
    apply (Hzero [Byte.x00; Byte.x00; Byte.x00; Byte.x00]).
    + reflexivity.
    + repeat constructor.
  - destruct (vu_level_range_zero_saturation
                (Returns (raise OSError "Input overflowed")) Sample.w_metering)
      as (_ & _ & _ & _ & Hexc & _).
    apply (Hexc (mk_exn OSError (lit "Input overflowed"))). reflexivity.
  - destruct (vu_level_range_zero_saturation
                (Returns (Ok [Byte.x10; Byte.x27])) Sample.w0)
      as (_ & _ & _ & Hnone & _ & _).
    apply Hnone. reflexivity.
  - destruct (vu_level_range_zero_saturation Blocks Sample.w0)
      as (_ & _ & _ & Hnone & _ & _).
    apply Hnone. reflexivity.
  - destruct (vu_level_range_zero_saturation Blocks Sample.w_metering)
      as (_ & _ & _ & _ & _ & Hblocks).
    apply Hblocks; [discriminate|reflexivity].
Defined.

(** C8, as stated, fails on a stalled stream: the window is metering, the
    read does not return, and the call reports nothing, not 0. *)
Lemma vu_level_no_reading_on_stalled_stream :
  vu_stream Sample.w_metering <> None /\
  update_vu_level_blocking Blocks Sample.w_metering = None /\
  update_vu_level_blocking Blocks Sample.w_metering <> Some [setValue vu_meter 0].
Proof.
  split; [discriminate|]. split; [reflexivity|discriminate].
Qed.

(** ** Capture streams *)

Lemma streams_on_app (i : Z) (h1 h2 : Host) :
  streams_on i (h1 ++ h2) = streams_on i h1 ++ streams_on i h2.
Proof. apply filter_app. Qed.

(** C9 (as amended).  When [start_recording] starts a session on device [i]
    and the host accepts both opens, two input streams are opened on [i]: the
    meter's own stream first, then the listener's.  The meter reads from its
    own stream. *)
Theorem start_recording_opens_two_streams :
  forall (pa : PortAudio) (self : MainWindow) (host : Host) (i mic_rate vu_rate : Z),
    stt_stop self = None ->
    mic_combo self = Some i ->
    active_mics self <> [] ->
    vu_stream self = None ->
    microphone pa i = Ok mic_rate ->
    pa_init pa = Ok tt ->
    device_rate pa i = Ok vu_rate ->
    let vu := mk_stream VuMeterStream i vu_rate in
    let listener := mk_stream ListenerStream i mic_rate in
    pa_open pa vu host = Ok tt ->
    pa_open pa listener (host ++ [vu]) = Ok tt ->
    let '(self', host', _) := start_recording pa self host in
    stt_stop self' = Some (i, stt_lang self) /\
    vu_stream self' = Some vu /\
    host' = host ++ [vu; listener] /\
    streams_on i host' = streams_on i host ++ [vu; listener].
Proof.
  intros pa self host i mic_rate vu_rate Hstop Hmic Hact Hvu Hm Hinit Hrate vu listener Ho1 Ho2.
  unfold start_recording. rewrite Hstop, Hmic.
  destruct (active_mics self) as [|m ms] eqn:Ea; [congruence|].
  rewrite Hm.
  unfold start_vu_meter, stop_vu_meter. rewrite Hvu.
  rewrite Hinit, Hrate. fold vu. rewrite Ho1.
  unfold listen_in_background. fold listener. rewrite Ho2.
  cbn [stt_stop set_stt_stop vu_stream set_vu_stream set_vu_audio stt_lang].
  repeat split.
  - rewrite <- app_assoc. reflexivity.
  - rewrite <- app_assoc, streams_on_app. f_equal.
    unfold streams_on, vu, listener. cbn [app filter device]. rewrite Z.eqb_refl. reflexivity.
Qed.

Lemma start_recording_opens_two_streams_witness :
  let '(self', host', _) := start_recording Sample.pa_ok Sample.w0 [] in
  stt_stop self' = Some (0, lit "uk-UA") /\
  vu_stream self' = Some (mk_stream VuMeterStream 0 44100) /\
  host' = [mk_stream VuMeterStream 0 44100; mk_stream ListenerStream 0 44100] /\
  streams_on 0 host' = [mk_stream VuMeterStream 0 44100; mk_stream ListenerStream 0 44100].
Proof.
  apply (start_recording_opens_two_streams Sample.pa_ok Sample.w0 [] 0 44100 44100);
    try reflexivity.
  discriminate.
Defined.

(** C9, as stated, fails: on a host that accepts every open, a session
    started on device 0 leaves two input streams open on it, not one. *)
Lemma start_recording_two_streams_on_device :
  let '(self', host', _) := start_recording Sample.pa_ok Sample.w0 [] in
  stt_stop self' <> None /\
  List.length (streams_on 0 host') = 2%nat /\
  List.length (streams_on 0 host') <> 1%nat.
Proof. vm_compute. repeat split; discriminate. Qed.

(** ** History *)

Lemma appendleft_firstn (x : pystr) (d : list pystr) :
  (List.length d <= maxlen)%nat -> appendleft x d = firstn maxlen (x :: d).
Proof.
  intros Hlen. unfold appendleft.
  destruct (maxlen <? List.length (x :: d))%nat eqn:E.
  - apply Nat.ltb_lt in E. cbn [List.length] in E.
    assert (Hd : List.length d = maxlen) by lia.
    rewrite removelast_firstn_len. cbn [List.length]. rewrite Hd. reflexivity.
  - apply Nat.ltb_ge in E. symmetry. apply firstn_all2. exact E.
Qed.

Lemma firstn_app_firstn {A} (n : nat) (l1 l2 : list A) :
  firstn n (l1 ++ firstn n l2) = firstn n (l1 ++ l2).
Proof.
  rewrite !firstn_app, firstn_firstn.
  replace (Nat.min (n - List.length l1) n) with (n - List.length l1)%nat by lia.
  reflexivity.
Qed.

Lemma history_add_history (now entry : pystr) (w : MainWindow) :
  history (fst (add_history now entry w)) = appendleft (line_of (now, entry)) (history w).
Proof. reflexivity. Qed.

Lemma history_add_all (entries : list (pystr * pystr)) :
  forall w : MainWindow,
    (List.length (history w) <= maxlen)%nat ->
    history (add_all entries w)
    = firstn maxlen (rev (map line_of entries) ++ history w).
Proof.
  induction entries as [|e entries IH]; intros w Hw.
  - unfold add_all. cbn [fold_left map rev app]. symmetry. apply firstn_all2. exact Hw.
  - unfold add_all in *. cbn [fold_left map rev].
    rewrite IH.
    + rewrite history_add_history. destruct e as [now entry]. cbn [fst snd].
      rewrite appendleft_firstn by exact Hw.
      rewrite firstn_app_firstn, <- app_assoc. reflexivity.
    + rewrite history_add_history, appendleft_firstn by exact Hw.
      apply firstn_le_length.
Qed.

(** C10.  Starting from the empty deque of [__init__], after any sequence
    of [add_history] calls the history holds at most 10 lines; they are the
    10 most recent ones, newest first; on a full history a new line goes to
    the front and the oldest (last) line leaves. *)
Theorem history_bounded_newest_first :
  forall (w : MainWindow) (entries : list (pystr * pystr)),
    history w = [] ->
    let h := history (add_all entries w) in
    (List.length h <= 10)%nat /\
    h = firstn 10 (rev (map line_of entries)) /\
    forall now entry,
      let h' := history (fst (add_history now entry (add_all entries w))) in
      hd_error h' = Some (line_of (now, entry)) /\
      (List.length h = 10%nat -> h' = line_of (now, entry) :: removelast h) /\
      ((List.length h < 10)%nat -> h' = line_of (now, entry) :: h).
Proof.
  intros w entries Hw h. change 10%nat with maxlen.
  assert (Hh : h = firstn maxlen (rev (map line_of entries))).
  { subst h. rewrite history_add_all by (rewrite Hw; cbn [List.length]; lia).
    rewrite Hw, app_nil_r. reflexivity. }
  assert (Hlen : (List.length h <= maxlen)%nat).
  { rewrite Hh. apply firstn_le_length. }
  split; [exact Hlen|]. split; [exact Hh|].
  intros now entry h'. subst h'. rewrite history_add_history. fold h.
  split; [|split].
  - rewrite appendleft_firstn by exact Hlen. reflexivity.
  - intros H10. unfold appendleft. cbn [List.length]. rewrite H10.
    rewrite (proj2 (Nat.ltb_lt maxlen (S maxlen))) by lia.
    destruct h; [discriminate|]. reflexivity.
  - intros Hlt. unfold appendleft. cbn [List.length].
    destruct (maxlen <? S (List.length h))%nat eqn:E; [|reflexivity].
    apply Nat.ltb_lt in E. lia.
Qed.

Lemma history_bounded_newest_first_witness :
  history (add_all [(lit "10:00:00", lit "a"); (lit "10:00:01", lit "b")] Sample.w0)
  = firstn 10 (rev (map line_of [(lit "10:00:00", lit "a"); (lit "10:00:01", lit "b")])).
Proof.
  pose proof (history_bounded_newest_first
                Sample.w0 [(lit "10:00:00", lit "a"); (lit "10:00:01", lit "b")] eq_refl) as H.
  cbv zeta in H. exact (proj1 (proj2 H)).
Defined.

(** * Further properties of main.py *)

(** ** The window under events *)

Lemma stop_vu_meter_window (pa : PortAudio) (self : MainWindow) (host : Host) :
  fst (fst (stop_vu_meter pa self host)) = set_vu_audio false (set_vu_stream None self).
Proof. reflexivity. Qed.

Lemma start_vu_meter_fields (pa : PortAudio) (d : option Z) (self : MainWindow) (host : Host) :
  let self' := fst (fst (start_vu_meter pa d self host)) in
  history self' = history self /\ stt_stop self' = stt_stop self.
Proof.
  unfold start_vu_meter, stop_vu_meter.
  destruct d as [i|]; [|split; reflexivity].
  destruct (pa_init pa); [|split; reflexivity].
  destruct (device_rate pa i); [|split; reflexivity].
  destruct (pa_open pa _ _); split; reflexivity.
Qed.

Lemma start_recording_fields (pa : PortAudio) (self : MainWindow) (host : Host) :
  let self' := fst (fst (start_recording pa self host)) in
  history self' = history self /\
  (stt_stop self' = None -> self' = self).
Proof.
  unfold start_recording.
  destruct (stt_stop self) eqn:Es; [split; reflexivity|].
  destruct (mic_combo self) as [i|]; [|split; reflexivity].
  destruct (active_mics self); [split; reflexivity|].
  destruct (microphone pa i) as [mic_rate|exc]; [|split; reflexivity].
  pose proof (start_vu_meter_fields pa (Some i) self host) as H. cbv zeta in H.
  destruct (start_vu_meter pa (Some i) self host) as [[self1 host1] eff1].
  cbn [fst] in *. destruct H as [Hh _].
  split; [exact Hh|]. cbn [stt_stop set_stt_stop]. discriminate.
Qed.

Lemma stop_recording_fields (pa : PortAudio) (self : MainWindow) (host : Host) :
  let self' := fst (fst (stop_recording pa self host)) in
  history self' = history self /\ stt_stop self' = None /\
  vu_stream self' = None /\ vu_audio self' = false.
Proof. repeat split. Qed.

Lemma callback_history (now lang_code : pystr) (recognized : result pystr)
    (self self' : MainWindow) (eff : list effect) :
  callback now lang_code recognized self = Ok (self', eff) ->
  exists line,
    self' = set_history (appendleft line (history self)) self.
Proof.
  destruct (callback_outcome now lang_code recognized self) as [eff' H].
  rewrite H. intros E. injection E as <- _. eexists. reflexivity.
Qed.

Lemma play_tts_fields (dialog_target : pystr) (parent : pystr -> pystr) (save_only : bool)
    (self : MainWindow) :
  let self' := fst (play_tts dialog_target parent save_only self) in
  history self' = history self /\ stt_stop self' = stt_stop self /\
  vu_stream self' = vu_stream self.
Proof.
  unfold play_tts.
  destruct (strip (tts_text self)); [repeat split|].
  destruct save_only; [destruct dialog_target|]; repeat split.
Qed.

Lemma copy_stt_text_fields (now stt_plain : pystr) (self : MainWindow) :
  let self' := fst (copy_stt_text now stt_plain self) in
  (self' = self \/ exists line, self' = set_history (appendleft line (history self)) self).
Proof.
  unfold copy_stt_text.
  destruct (strip stt_plain); [left; reflexivity|right; eexists; reflexivity].
Qed.

Lemma export_texts_fields (dialog_target : pystr) (parent : pystr -> pystr)
    (stt_plain : pystr) (written : result unit) (self : MainWindow) :
  let self' := fst (export_texts dialog_target parent stt_plain written self) in
  history self' = history self /\ stt_stop self' = stt_stop self /\
  vu_stream self' = vu_stream self.
Proof.
  unfold export_texts.
  destruct dialog_target; [repeat split|]. destruct written; repeat split.
Qed.

Lemma start_vu_meter_stream (pa : PortAudio) (i : Z) (self : MainWindow) (host : Host) :
  let '(self', host', _) := start_vu_meter pa (Some i) self host in
  forall s, vu_stream self' = Some s -> In s host'.
Proof.
  unfold start_vu_meter, stop_vu_meter.
  destruct (pa_init pa); [|cbn; discriminate].
  destruct (device_rate pa i); [|cbn; discriminate].
  destruct (pa_open pa _ _); [|cbn; discriminate].
  cbn [vu_stream set_vu_stream]. intros s E. injection E as <-.
  apply in_or_app. right. left. reflexivity.
Qed.

Lemma listen_in_background_incl (pa : PortAudio) (i r : Z) (host : Host) (s : Stream) :
  In s host -> In s (listen_in_background pa i r host).
Proof.
  unfold listen_in_background. destruct (pa_open pa _ _); [|auto].
  intros H. apply in_or_app. left. exact H.
Qed.

Lemma handle_keeps_window_ok (ev : event) (st : MainWindow * Host) :
  window_ok st -> window_ok (handle ev st).
Proof.
  destruct st as [self host]. unfold window_ok. cbn [fst snd]. intros [Hh Hs].
  destruct ev as [pa|pa|now lang_code recognized|target parent save_only
                  |now msg|msg|now stt_plain|target parent stt_plain written];
    cbn [handle].
  - (* start_recording *)
    assert (Hsame : (List.length (history self) <= maxlen)%nat /\
                    (forall s, vu_stream self = Some s -> stt_stop self <> None /\ In s host))
      by (split; assumption).
    unfold start_recording.
    destruct (stt_stop self) eqn:Es; [cbn [fst snd]; rewrite Es; exact Hsame|].
    destruct (mic_combo self) as [i|]; [|cbn [fst snd]; rewrite Es; exact Hsame].
    destruct (active_mics self); [cbn [fst snd]; rewrite Es; exact Hsame|].
    destruct (microphone pa i) as [mic_rate|exc]; [|cbn [fst snd]; rewrite Es; exact Hsame].
    clear Hsame.
    pose proof (start_vu_meter_fields pa (Some i) self host) as Hf. cbv zeta in Hf.
    pose proof (start_vu_meter_stream pa i self host) as Hv.
    destruct (start_vu_meter pa (Some i) self host) as [[self1 host1] eff1].
    cbn [fst snd] in *. destruct Hf as [Hf _]. split.
    + cbn [history set_stt_stop]. rewrite Hf. exact Hh.
    + cbn [vu_stream stt_stop set_stt_stop]. intros s E. split; [discriminate|].
      apply listen_in_background_incl, Hv, E.
  - (* stop_recording *)
    cbn [fst snd]. split; [exact Hh|]. cbn. discriminate.
  - (* callback *)
    destruct (callback now lang_code recognized self) as [[self' eff]|exc] eqn:E;
      cbn [fst snd]; [|auto].
    apply callback_history in E. destruct E as [line ->].
    cbn [history set_history vu_stream stt_stop]. split; [|exact Hs].
    rewrite appendleft_firstn by exact Hh. apply firstn_le_length.
  - (* play_tts *)
    destruct (play_tts_fields target parent save_only self) as (E1 & E2 & E3).
    cbn [fst snd]. rewrite E1, E2, E3. auto.
  - (* on_tts_done *)
    unfold on_tts_done, add_history.
    cbn [fst snd history set_history vu_stream stt_stop]. split; [|exact Hs].
    rewrite appendleft_firstn by exact Hh. apply firstn_le_length.
  - (* on_tts_error *)
    cbn [fst snd]. auto.
  - (* copy_stt_text *)
    destruct (copy_stt_text_fields now stt_plain self) as [E|[line E]];
      cbn [fst snd]; rewrite E; [auto|].
    cbn [history set_history vu_stream stt_stop]. split; [|exact Hs].
    rewrite appendleft_firstn by exact Hh. apply firstn_le_length.
  - (* export_texts *)
    destruct (export_texts_fields target parent stt_plain written self) as (E1 & E2 & E3).
    cbn [fst snd]. rewrite E1, E2, E3. auto.
Qed.

(** X1.  From the window as [__init__] leaves it, after any run of button
    presses, worker signals and utterances the history has at most 10 lines,
    and whenever the level meter holds a stream a recording session is
    active and that stream is open on the host. *)
Theorem window_invariants_under_events :
  forall (evs : list event) (self : MainWindow) (host : Host),
    fresh self ->
    let st := run_events evs (self, host) in
    (List.length (history (fst st)) <= 10)%nat /\
    (forall s, vu_stream (fst st) = Some s -> stt_stop (fst st) <> None /\ In s (snd st)).
Proof.
  intros evs self host (Hh & _ & Hv & _).
  assert (H0 : window_ok (self, host)).
  { split; cbn [fst snd]; [rewrite Hh; cbn; lia|rewrite Hv; discriminate]. }
  cbv zeta. unfold run_events.
  generalize dependent (self, host). clear.
  induction evs as [|ev evs IH]; intros st H0; cbn [fold_left].
  - exact H0.
  - apply IH, handle_keeps_window_ok, H0.
Qed.

Lemma window_invariants_under_events_witness :
  (List.length
     (history
        (fst (run_events
                [ClickStart Sample.pa_ok;
                 Utterance (lit "10:00:00") (lit "uk-UA") (Ok (lit "добрий день"));
                 ClickStop Sample.pa_ok;
                 ClickCopy (lit "10:00:05") (lit "добрий день")]
                (Sample.w0, [])))) <= 10)%nat.
Proof.
  assert (Hfresh : fresh Sample.w0) by (repeat split).
  pose proof (window_invariants_under_events
                [ClickStart Sample.pa_ok;
                 Utterance (lit "10:00:00") (lit "uk-UA") (Ok (lit "добрий день"));
                 ClickStop Sample.pa_ok;
                 ClickCopy (lit "10:00:05") (lit "добрий день")]
                Sample.w0 [] Hfresh) as H.
  cbv zeta in H. exact (proj1 H).
Defined.

(** ** play_tts and the worker *)

Lemma lstrip_snoc (l : pystr) (c : N) :
  isspace c = false -> exists l', lstrip (l ++ [c]) = l' ++ [c].
Proof.
  intros Hc. induction l as [|a l [l' IH]]; cbn [app lstrip].
  - rewrite Hc. exists []. reflexivity.
  - destruct (isspace a).
    + exists l'. exact IH.
    + exists (a :: l). reflexivity.
Qed.

Lemma strip_head (s : pystr) (c : N) :
  hd_error (strip s) = Some c -> isspace c = false.
Proof.
  unfold strip, rstrip. destruct (lstrip s) as [|a t] eqn:E; [discriminate|].
  pose proof (lstrip_head s a t E) as Ha.
  cbn [rev]. destruct (lstrip_snoc (rev t) a Ha) as [l' ->].
  rewrite rev_app_distr. cbn. intros H. injection H as <-. exact Ha.
Qed.

Lemma strip_last (s : pystr) (c : N) :
  hd_error (rev (strip s)) = Some c -> isspace c = false.
Proof.
  unfold strip, rstrip. rewrite rev_involutive.
  destruct (lstrip (rev (lstrip s))) as [|a t] eqn:E; [discriminate|].
  cbn. intros H. injection H as <-. exact (lstrip_head _ _ _ E).
Qed.

(** X2.  [play_tts] starts a worker exactly when the stripped text is not
    empty and, for save-only, the file dialog was not cancelled; in every
    other case nothing is started and the window is unchanged. *)
Theorem play_tts_starts_worker_iff :
  forall (dialog_target : pystr) (parent : pystr -> pystr) (save_only : bool)
         (self : MainWindow),
    let out := play_tts dialog_target parent save_only self in
    (existsb is_worker_start (snd out) = true <->
     strip (tts_text self) <> [] /\ (save_only = true -> dialog_target <> [])) /\
    (existsb is_worker_start (snd out) = false -> fst out = self).
Proof.
  intros dialog_target parent save_only self. cbv zeta. unfold play_tts.
  destruct (strip (tts_text self)) as [|c t].
  - cbn. split; [|reflexivity]. split; [discriminate|]. intros [H _]. congruence.
  - destruct save_only; [destruct dialog_target as [|d ds]|]; cbn.
    + split; [|reflexivity]. split; [discriminate|]. intros [_ H]. now specialize (H eq_refl).
    + split; [|discriminate]. split; [|reflexivity]. intros _. split; discriminate.
    + split; [|discriminate]. split; [|reflexivity]. intros _. split; discriminate.
Qed.

Lemma play_tts_starts_worker_iff_witness :
  existsb is_worker_start (snd (play_tts [] (fun p => p) false Sample.w0)) = true.
Proof.
  pose proof (play_tts_starts_worker_iff [] (fun p => p) false Sample.w0) as H.
  cbv zeta in H. apply (proj1 H). split; [vm_compute; discriminate|discriminate].
Defined.

(** X3.  The worker [play_tts] starts is the only one in its effects and is
    the one stored in [tts_worker]; its text is the stripped text, which is
    not empty and neither begins nor ends with white space; its volume
    factor is the slider value divided by 100; it has a save path exactly
    for save-only; and [should_play] is set to [not save_only]. *)
Theorem play_tts_worker_fields :
  forall (dialog_target : pystr) (parent : pystr -> pystr) (save_only : bool)
         (self : MainWindow),
    strip (tts_text self) <> [] ->
    (save_only = true -> dialog_target <> []) ->
    let out := play_tts dialog_target parent save_only self in
    exists wk,
      filter is_worker_start (snd out) = [worker_start wk] /\
      tts_worker (fst out) = Some wk /\
      should_play (fst out) = negb save_only /\
      text wk = strip (tts_text self) /\
      (forall c, hd_error (text wk) = Some c -> isspace c = false) /\
      (forall c, hd_error (rev (text wk)) = Some c -> isspace c = false) /\
      lang_code wk = tts_lang self /\
      speed_factor wk = speed_combo self /\
      volume_factor wk = float_ratio (volume_slider self) 100 /\
      save_path wk = (if save_only then Some dialog_target else None).
Proof.
  intros dialog_target parent save_only self Htext Hdlg. cbv zeta.
  pose proof (strip_head (tts_text self)) as Hhd.
  pose proof (strip_last (tts_text self)) as Hlast.
  unfold play_tts.
  destruct (strip (tts_text self)) as [|c t] eqn:Es; [congruence|].
  destruct save_only; [destruct dialog_target as [|d ds]|].
  - now specialize (Hdlg eq_refl).
  - eexists. cbn. repeat split; assumption.
  - eexists. cbn. repeat split; assumption.
Qed.

Lemma play_tts_worker_fields_witness :
  exists wk,
    tts_worker (fst (play_tts (lit "/home/a.mp3") (fun p => p) true Sample.w0)) = Some wk /\
    save_path wk = Some (lit "/home/a.mp3").
Proof.
  assert (H1 : strip (tts_text Sample.w0) <> []) by (vm_compute; discriminate).
  assert (H2 : true = true -> lit "/home/a.mp3" <> []) by (intros _; vm_compute; discriminate).
  pose proof (play_tts_worker_fields (lit "/home/a.mp3") (fun p => p) true Sample.w0 H1 H2) as H.
  cbv zeta in H. destruct H as (wk & _ & Hw & _ & _ & _ & _ & _ & _ & _ & Hp).
  exists wk. split; [exact Hw|exact Hp].
Defined.

(** ** Playback *)

Lemma playback_volume_table :
  forallb (fun k => in_unit_interval (float_ratio (Z.of_nat k) 100)) (seq 0 101) = true.
Proof. vm_compute. reflexivity. Qed.

Lemma playback_volume_unit (vol : Z) :
  0 <= vol <= 100 -> in_unit_interval (float_ratio vol 100) = true.
Proof.
  intros Hv. pose proof playback_volume_table as T.
  rewrite forallb_forall in T.
  specialize (T (Z.to_nat vol)). rewrite Z2Nat.id in T by lia.
  apply T. apply in_seq. lia.
Qed.

(** X4.  [on_playback_ready] does nothing when [should_play] is off;
    otherwise it stops the player, loads the file, and plays it once at
    volume [max(0, min(100, slider)) / 100], a float between 0 and 1 that is
    exactly 1.0 for every slider value of 100 or more. *)
Theorem on_playback_ready_volume :
  forall (wav_path : pystr) (self : MainWindow),
    (should_play self = false -> on_playback_ready wav_path self = []) /\
    (should_play self = true ->
     exists vol,
       0 <= vol <= 100 /\
       (volume_slider self <= 0 -> vol = 0) /\
       (0 <= volume_slider self <= 100 -> vol = volume_slider self) /\
       (100 <= volume_slider self -> float_ratio vol 100 = float_ratio 1 1) /\
       in_unit_interval (float_ratio vol 100) = true /\
       on_playback_ready wav_path self
       = [sound_stop; sound_setSource wav_path; sound_setLoopCount 1;
          sound_setVolume (float_ratio vol 100); sound_play]).
Proof.
  intros wav_path self. unfold on_playback_ready. split; intros ->; cbn [negb]; [reflexivity|].
  exists (Z.max 0 (Z.min 100 (volume_slider self))).
  assert (Hr : 0 <= Z.max 0 (Z.min 100 (volume_slider self)) <= 100) by lia.
  split; [exact Hr|]. split; [lia|]. split; [lia|]. split.
  - intros H. replace (Z.max 0 (Z.min 100 (volume_slider self))) with 100 by lia.
    vm_compute. reflexivity.
  - split; [apply playback_volume_unit, Hr|reflexivity].
Qed.

Lemma on_playback_ready_volume_witness :
  on_playback_ready (lit "/tmp/out.wav") Sample.w0
  = [sound_stop; sound_setSource (lit "/tmp/out.wav"); sound_setLoopCount 1;
     sound_setVolume (float_ratio 1 1); sound_play].
Proof.
  destruct (proj2 (on_playback_ready_volume (lit "/tmp/out.wav") Sample.w0) eq_refl)
    as (vol & _ & _ & _ & H100 & _ & E).
  rewrite E. rewrite H100; [reflexivity|]. vm_compute. discriminate.
Defined.

(** X5.  A save-only request never reaches the player: after
    [play_tts(save_only=True)] has started its worker, [on_playback_ready]
    makes no call to the sound effect; after a plain [play_tts()] it plays. *)
Theorem save_only_is_silent :
  forall (dialog_target : pystr) (parent : pystr -> pystr) (save_only : bool)
         (self : MainWindow) (wav_path : pystr),
    strip (tts_text self) <> [] ->
    (save_only = true -> dialog_target <> []) ->
    let self' := fst (play_tts dialog_target parent save_only self) in
    existsb is_sound_call (on_playback_ready wav_path self') = negb save_only.
Proof.
  intros dialog_target parent save_only self wav_path Htext Hdlg. cbv zeta.
  unfold play_tts.
  destruct (strip (tts_text self)) as [|c t]; [congruence|].
  destruct save_only; [destruct dialog_target as [|d ds]|].
  - now specialize (Hdlg eq_refl).
  - reflexivity.
  - reflexivity.
Qed.

Lemma save_only_is_silent_witness :
  existsb is_sound_call
    (on_playback_ready (lit "/tmp/out.wav")
       (fst (play_tts (lit "/home/a.mp3") (fun p => p) true Sample.w0))) = false.
Proof.
  assert (H1 : strip (tts_text Sample.w0) <> []) by (vm_compute; discriminate).
  assert (H2 : true = true -> lit "/home/a.mp3" <> []) by (intros _; vm_compute; discriminate).
  exact (save_only_is_silent (lit "/home/a.mp3") (fun p => p) true Sample.w0
                             (lit "/tmp/out.wav") H1 H2).
Defined.

(** ** TTSWorker.run *)

(** X6.  [run] always emits the status "Синтезую..." first and the empty
    status last, asks gTTS once, and in between either announces the wave
    file and then "Готово", or emits one error signal carrying the message
    of the exception; it announces success exactly when the service, the
    decoder, [speed_change] and every export succeed. *)
Theorem run_signal_protocol :
  forall (be : TtsBackend) (self : TTSWorker),
    exists mid,
      run be self
      = [emit status (lit "Синтезую..."); gTTS_save (text self) (lang_code self)]
        ++ mid ++ [emit status []] /\
      (mid = [emit playback_ready (tmp_wav be); emit finished (lit "Готово")] \/
       exists exc, mid = [emit error (lit "TTS помилка: " ++ exn_msg exc)]) /\
      (mid = [emit playback_ready (tmp_wav be); emit finished (lit "Готово")] <->
       exists segment segment' gain,
         gtts be (text self) (lang_code self) = Ok tt /\
         from_file be = Ok segment /\
         speed_change (ratecv_samples be) segment (speed_factor self) = Ok segment' /\
         volume_gain_db (float_real (volume_factor self)) = Ok gain /\
         (save_path self <> None ->
          export be (apply_gain be segment' gain) (lit "mp3") = Ok tt) /\
         export be (apply_gain be segment' gain) (lit "wav") = Ok tt).
Proof.
  intros be self. unfold run.
  set (ok := [emit playback_ready (tmp_wav be); emit finished (lit "Готово")]).
  destruct (gtts be (text self) (lang_code self)) as [[]|e1] eqn:E1; cbn [bind].
  2:{ eexists. split; [reflexivity|]. split; [right; eexists; reflexivity|].
      split; [discriminate|]. intros (? & ? & ? & H & _). discriminate. }
  destruct (from_file be) as [segment|e2] eqn:E2; cbn [bind].
  2:{ eexists. split; [reflexivity|]. split; [right; eexists; reflexivity|].
      split; [discriminate|]. intros (? & ? & ? & _ & H & _). discriminate. }
  destruct (speed_change (ratecv_samples be) segment (speed_factor self))
    as [segment'|e3] eqn:E3; cbn [bind].
  2:{ eexists. split; [reflexivity|]. split; [right; eexists; reflexivity|].
      split; [discriminate|]. intros (s & ? & ? & _ & Hs & H & _).
      injection Hs as <-. rewrite E3 in H. discriminate. }
  rewrite (volume_gain_db_eq (float_real (volume_factor self))). cbn [bind].
  set (gain := (20 * log10 (clamp (float_real (volume_factor self)) (1 / 10) 2))%R).
  destruct (save_path self) as [p|] eqn:Ep.
  - destruct (export be (apply_gain be segment' gain) (lit "mp3")) as [[]|e4] eqn:E4;
      cbn [bind].
    2:{ eexists. split; [reflexivity|]. split; [right; eexists; reflexivity|].
        split; [discriminate|]. intros (s & s' & g & _ & Hs & Hs' & Hg & H & _).
        injection Hs as <-. rewrite E3 in Hs'. injection Hs' as <-.
        injection Hg as <-. rewrite E4 in H. specialize (H ltac:(discriminate)).
        discriminate. }
    destruct (export be (apply_gain be segment' gain) (lit "wav")) as [[]|e5] eqn:E5;
      cbn [bind].
    2:{ eexists. split; [reflexivity|]. split; [right; eexists; reflexivity|].
        split; [discriminate|]. intros (s & s' & g & _ & Hs & Hs' & Hg & _ & H).
        injection Hs as <-. rewrite E3 in Hs'. injection Hs' as <-.
        injection Hg as <-. rewrite E5 in H. discriminate. }
    exists ok. split; [reflexivity|]. split; [left; reflexivity|].
    split; [|reflexivity]. intros _. exists segment, segment', gain.
    repeat split; auto.
  - cbn [bind].
    destruct (export be (apply_gain be segment' gain) (lit "wav")) as [[]|e5] eqn:E5;
      cbn [bind].
    2:{ eexists. split; [reflexivity|]. split; [right; eexists; reflexivity|].
        split; [discriminate|]. intros (s & s' & g & _ & Hs & Hs' & Hg & _ & H).
        injection Hs as <-. rewrite E3 in Hs'. injection Hs' as <-.
        injection Hg as <-. rewrite E5 in H. discriminate. }
    exists ok. split; [reflexivity|]. split; [left; reflexivity|].
    split; [|reflexivity]. intros _. exists segment, segment', gain.
    repeat split; auto. intros H. congruence.
Qed.

Lemma run_signal_protocol_witness :
  exists mid,
    run Sample.backend_ok Sample.worker_slow
    = [emit status (lit "Синтезую...");
       gTTS_save (text Sample.worker_slow) (lang_code Sample.worker_slow)]
      ++ mid ++ [emit status []].
Proof.
  destruct (run_signal_protocol Sample.backend_ok Sample.worker_slow) as (mid & E & _).
  exists mid. exact E.
Defined.

(** ** speed_change on the edges *)

(** X7.  On a segment with no audio data [speed_change] returns the
    segment as it is for every factor whose intermediate rate
    [int(frame_rate * factor)] is defined, a rate of zero or below
    included: the resampler is not called. *)
Theorem speed_change_empty_segment :
  forall (rc : Audioop.Resampler) (seg : AudioSegment) (factor : float) (n : Z),
    raw_data seg = [] ->
    new_sr (frame_rate seg) factor = Ok n ->
    speed_change rc seg factor = Ok seg.
Proof.
  intros rc [data sw fr ch] factor n Hd Hn. cbn [raw_data frame_rate] in *. subst data.
  unfold speed_change. cbn [frame_rate raw_data]. rewrite Hn. cbn [bind].
  unfold set_frame_rate, _spawn. cbn [frame_rate raw_data sample_width channels].
  destruct (fr =? n) eqn:E.
  - apply Z.eqb_eq in E. subst n. reflexivity.
  - reflexivity.
Qed.

Lemma speed_change_empty_segment_witness :
  speed_change Audioop.hold_resampler (mk_segment [] 2 24000 1) (float_ratio 1 100000)
  = Ok (mk_segment [] 2 24000 1).
Proof.
  apply (speed_change_empty_segment Audioop.hold_resampler (mk_segment [] 2 24000 1)
                                    (float_ratio 1 100000) 0).
  - reflexivity.
  - vm_compute. reflexivity.
Defined.

Lemma ratecv_rejects_nonpositive_rate (rc : Audioop.Resampler) (fragment : list byte)
    (width nchannels inrate outrate : Z) :
  inrate <= 0 ->
  exists exc, Audioop.ratecv rc fragment width nchannels inrate outrate = Raise exc.
Proof.
  intros Hin. unfold Audioop.ratecv, raise.
  destruct (negb (forallb _ _)); [eexists; reflexivity|].
  destruct (negb (_ && _)); [eexists; reflexivity|].
  destruct (nchannels <? 1); [eexists; reflexivity|].
  destruct (width >? _); [eexists; reflexivity|].
  cbv zeta.
  destruct (negb (_ =? 0)); [eexists; reflexivity|].
  replace (inrate <=? 0) with true by (symmetry; apply Z.leb_le; exact Hin).
  cbn [orb]. eexists. reflexivity.
Qed.

(** X8.  On a segment that holds audio, at a positive rate, [speed_change]
    raises for every factor whose intermediate rate is zero or negative
    (a zero, negative or very small factor): nothing is returned. *)
Theorem speed_change_rejects_nonpositive_rate :
  forall (rc : Audioop.Resampler) (seg : AudioSegment) (factor : float) (n : Z),
    raw_data seg <> [] ->
    1 <= frame_rate seg ->
    new_sr (frame_rate seg) factor = Ok n ->
    n <= 0 ->
    exists exc, speed_change rc seg factor = Raise exc.
Proof.
  intros rc seg factor n Hd Hr Hn Hn0.
  unfold speed_change. rewrite Hn. cbn [bind].
  unfold set_frame_rate. cbn [frame_rate raw_data sample_width channels _spawn].
  replace (frame_rate seg =? n) with false by (symmetry; apply Z.eqb_neq; lia).
  destruct (raw_data seg) as [|b data]; [congruence|].
  destruct (ratecv_rejects_nonpositive_rate rc (b :: data) (sample_width seg)
              (channels seg) n (frame_rate seg) Hn0) as [exc ->].
  exists exc. reflexivity.
Qed.

Lemma speed_change_rejects_nonpositive_rate_witness :
  exists exc,
    speed_change Audioop.hold_resampler Sample.seg0
                 (float_ratio (-1) 2) = Raise exc.
Proof.
  apply (speed_change_rejects_nonpositive_rate
           Audioop.hold_resampler Sample.seg0 (float_ratio (-1) 2) (-12000)).
  - discriminate.
  - vm_compute. discriminate.
  - vm_compute. reflexivity.
  - lia.
Defined.

(** ** volume_gain_db beyond the clamp *)

Local Open Scope R_scope.

Lemma log10_tenth : log10 (1 / 10) = -1.
Proof.
  unfold log10. replace (1 / 10) with (/ 10) by lra.
  rewrite ln_Rinv by lra. pose proof ln10_pos. field. lra.
Qed.

Lemma log10_1 : log10 1 = 0.
Proof. unfold log10. rewrite ln_1. lra. Qed.

Lemma log10_le (x y : R) : 0 < x -> x <= y -> log10 x <= log10 y.
Proof.
  intros Hx [Hlt | ->]; [left; apply log10_increasing; assumption|right; reflexivity].
Qed.

Lemma log10_2_lt_third : log10 2 < 1 / 3.
Proof.
  assert (H : 3 * ln 2 < ln 10).
  { replace (3 * ln 2) with (ln 2 + (ln 2 + ln 2)) by lra.
    rewrite <- !ln_mult by lra. apply ln_increasing; lra. }
  pose proof ln10_pos as Hp. unfold log10.
  apply (Rmult_lt_reg_r (ln 10)); [exact Hp|].
  unfold Rdiv. rewrite Rmult_assoc, Rinv_l by lra. lra.
Qed.

(** X9.  The gain [volume_gain_db] returns is never below -20 dB nor above
    [20 * log10 2] dB, which is less than 7; it attenuates (is negative)
    exactly for factors below 1 and amplifies (is positive) exactly for
    factors above 1. *)
Theorem volume_gain_db_range_and_sign :
  forall v g : R,
    volume_gain_db v = Ok g ->
    -20 <= g <= 20 * log10 2 /\ 20 * log10 2 < 7 /\
    (v < 1 <-> g < 0) /\ (1 < v <-> 0 < g).
Proof.
  intros v g H. rewrite volume_gain_db_eq in H. injection H as <-.
  pose proof (clamp_bounds v) as Hc.
  pose proof log10_2_lt_third as H2.
  assert (Hlo : -1 <= log10 (clamp v (1 / 10) 2)).
  { rewrite <- log10_tenth. apply log10_le; lra. }
  assert (Hhi : log10 (clamp v (1 / 10) 2) <= log10 2) by (apply log10_le; lra).
  split; [lra|]. split; [lra|].
  assert (Hsign : (clamp v (1 / 10) 2 < 1 -> log10 (clamp v (1 / 10) 2) < 0) /\
                  (1 < clamp v (1 / 10) 2 -> 0 < log10 (clamp v (1 / 10) 2)) /\
                  (clamp v (1 / 10) 2 = 1 -> log10 (clamp v (1 / 10) 2) = 0)).
  { repeat split; intros Hx.
    - rewrite <- log10_1. apply log10_increasing; lra.
    - rewrite <- log10_1. apply log10_increasing; lra.
    - rewrite Hx. apply log10_1. }
  destruct Hsign as (Hneg & Hpos & Hzero).
  assert (Hcl : (v < 1 <-> clamp v (1 / 10) 2 < 1) /\ (1 < v <-> 1 < clamp v (1 / 10) 2)).
  { unfold clamp. destruct (Rlt_dec v (1 / 10)); [split; split; lra|].
    destruct (Rlt_dec 2 v); split; split; lra. }
  destruct Hcl as [Hc1 Hc2].
  split; split; intros Hx.
  - apply Hc1, Hneg in Hx. lra.
  - apply Hc1. destruct (Rlt_dec (clamp v (1 / 10) 2) 1) as [Hl|Hl]; [exact Hl|].
    exfalso. destruct (Rle_lt_or_eq_dec 1 (clamp v (1 / 10) 2)) as [Hgt|Heq]; [lra| |].
    + apply Hpos in Hgt. lra.
    + symmetry in Heq. apply Hzero in Heq. lra.
  - apply Hc2, Hpos in Hx. lra.
  - apply Hc2. destruct (Rlt_dec 1 (clamp v (1 / 10) 2)) as [Hl|Hl]; [exact Hl|].
    exfalso. destruct (Rle_lt_or_eq_dec (clamp v (1 / 10) 2) 1) as [Hgt|Heq]; [lra| |].
    + apply Hneg in Hgt. lra.
    + apply Hzero in Heq. lra.
Qed.

Lemma volume_gain_db_range_and_sign_witness :
  -20 <= 20 * log10 (clamp (1 / 2) (1 / 10) 2) <= 20 * log10 2.
Proof.
  exact (proj1 (volume_gain_db_range_and_sign
                  (1 / 2) (20 * log10 (clamp (1 / 2) (1 / 10) 2))
                  (volume_gain_db_eq (1 / 2)))).
Defined.

Lemma clamp_monotone (x y : R) : x <= y -> clamp x (1 / 10) 2 <= clamp y (1 / 10) 2.
Proof.
  intros H. unfold clamp.
  destruct (Rlt_dec x (1 / 10)); destruct (Rlt_dec y (1 / 10));
    destruct (Rlt_dec 2 x); destruct (Rlt_dec 2 y); lra.
Qed.

(** X10.  [volume_gain_db] is non-decreasing over all reals: a larger
    volume factor never gives a smaller gain. *)
Theorem volume_gain_db_monotone :
  forall x y gx gy : R,
    x <= y ->
    volume_gain_db x = Ok gx ->
    volume_gain_db y = Ok gy ->
    gx <= gy.
Proof.
  intros x y gx gy Hxy Hx Hy.
  rewrite volume_gain_db_eq in Hx, Hy. injection Hx as <-. injection Hy as <-.
  apply Rmult_le_compat_l; [lra|].
  apply log10_le; [pose proof (clamp_bounds x); lra|apply clamp_monotone, Hxy].
Qed.

Lemma volume_gain_db_monotone_witness :
  20 * log10 (clamp 0 (1 / 10) 2) <= 20 * log10 (clamp 5 (1 / 10) 2).
Proof.
  apply (volume_gain_db_monotone 0 5).
  - lra.
  - apply volume_gain_db_eq.
  - apply volume_gain_db_eq.
Defined.

Local Close Scope R_scope.

(** ** Starting and stopping capture *)

(** X11.  [start_recording] refuses without touching the window or the
    host: silently when a session is already active; with the "no active
    microphone" box when no microphone is selected or none was found; with
    the initialisation error box when [sr.Microphone] raises. *)
Theorem start_recording_refusals :
  forall (pa : PortAudio) (self : MainWindow) (host : Host),
    (stt_stop self <> None -> start_recording pa self host = (self, host, [])) /\
    (stt_stop self = None ->
     mic_combo self = None \/ active_mics self = [] ->
     start_recording pa self host
     = (self, host,
        [MessageBox Critical (lit "Помилка") (lit "Не знайдено активного мікрофона.")])) /\
    (forall i exc,
       stt_stop self = None -> mic_combo self = Some i -> active_mics self <> [] ->
       microphone pa i = Raise exc ->
       start_recording pa self host
       = (self, host,
          [MessageBox Critical (lit "Помилка")
                      (lit "Помилка ініціалізації мікрофона: " ++ exn_msg exc)])).
Proof.
  intros pa self host. unfold start_recording. split; [|split].
  - intros H. destruct (stt_stop self); [reflexivity|congruence].
  - intros -> [H|H].
    + rewrite H. reflexivity.
    + rewrite H. destruct (mic_combo self); reflexivity.
  - intros i exc -> -> Ha ->. destruct (active_mics self); [congruence|reflexivity].
Qed.

Lemma start_recording_refusals_witness :
  start_recording Sample.pa_ok (set_stt_stop (Some (0, lit "uk-UA")) Sample.w0) []
  = (set_stt_stop (Some (0, lit "uk-UA")) Sample.w0, [], []).
Proof.
  apply (proj1 (start_recording_refusals
                  Sample.pa_ok (set_stt_stop (Some (0, lit "uk-UA")) Sample.w0) [])).
  discriminate.
Defined.

Lemma start_recording_session (pa : PortAudio) (self : MainWindow) (host : Host)
    (i mic_rate : Z) :
    stt_stop self = None ->
    vu_stream self = None ->
    mic_combo self = Some i ->
    active_mics self <> [] ->
    microphone pa i = Ok mic_rate ->
    let '(self', host', _) := start_recording pa self host in
    stt_stop self' = Some (i, stt_lang self) /\
    exists added,
      host' = host ++ added /\
      (List.length added <= 2)%nat /\
      Forall (fun s => device s = i) added /\
      (vu_stream self' = None -> Forall (fun s => owner s = ListenerStream) added).
Proof.
  intros Hs Hv Hm Ha Hmic.
  unfold start_recording. rewrite Hs, Hm, Hmic.
  destruct (active_mics self); [congruence|].
  unfold start_vu_meter, stop_vu_meter, listen_in_background. rewrite Hv.
  destruct (pa_init pa);
    [destruct (device_rate pa i) as [r|]; [destruct (pa_open pa (mk_stream VuMeterStream i r) host)|]|];
    cbn [stt_stop set_stt_stop vu_stream set_vu_stream set_vu_audio stt_lang];
    (split; [reflexivity|]).
  - destruct (pa_open pa _ (host ++ _)).
    + exists [mk_stream VuMeterStream i r; mk_stream ListenerStream i mic_rate].
      rewrite <- app_assoc. repeat split; auto. discriminate.
    + exists [mk_stream VuMeterStream i r]. repeat split; auto. discriminate.
  - destruct (pa_open pa _ host).
    + exists [mk_stream ListenerStream i mic_rate]. repeat split; auto.
    + exists []. rewrite app_nil_r. repeat split; auto.
  - destruct (pa_open pa _ host).
    + exists [mk_stream ListenerStream i mic_rate]. repeat split; auto.
    + exists []. rewrite app_nil_r. repeat split; auto.
  - destruct (pa_open pa _ host).
    + exists [mk_stream ListenerStream i mic_rate]. repeat split; auto.
    + exists []. rewrite app_nil_r. repeat split; auto.
Qed.

(** X12.  Once a microphone is selected and [sr.Microphone] accepts it, the
    session starts whatever the level meter manages to open: [stt_stop] is
    set with the language chosen at that moment, and the host gains at most
    two streams, all on the selected device, after the streams it had. *)
Theorem start_recording_starts_session :
  forall (pa : PortAudio) (self : MainWindow) (host : Host) (i mic_rate : Z),
    stt_stop self = None ->
    vu_stream self = None ->
    mic_combo self = Some i ->
    active_mics self <> [] ->
    microphone pa i = Ok mic_rate ->
    let '(self', host', _) := start_recording pa self host in
    stt_stop self' = Some (i, stt_lang self) /\
    exists added,
      host' = host ++ added /\
      (List.length added <= 2)%nat /\
      Forall (fun s => device s = i) added /\
      (vu_stream self' = None -> Forall (fun s => owner s = ListenerStream) added).
Proof. exact start_recording_session. Qed.

Lemma start_recording_starts_session_witness :
  let '(self', host', _) := start_recording Scenario.pa_no_meter Sample.w0 [] in
  stt_stop self' = Some (0, lit "uk-UA") /\
  exists added,
    host' = [] ++ added /\
    (List.length added <= 2)%nat /\
    Forall (fun s => device s = 0) added /\
    (vu_stream self' = None -> Forall (fun s => owner s = ListenerStream) added).
Proof.
  apply (start_recording_starts_session Scenario.pa_no_meter Sample.w0 [] 0 16000);
    try reflexivity.
  discriminate.
Defined.

Lemma close_stream_fresh (s : Stream) (host : Host) :
  ~ In s host -> close_stream s (host ++ [s]) = host.
Proof.
  induction host as [|a host IH]; intros Hn; cbn [app close_stream].
  - unfold stream_eqb. destruct s as [o d r]. cbn [owner device rate].
    rewrite !Z.eqb_refl. destruct o; reflexivity.
  - destruct (stream_eqb s a) eqn:E.
    + exfalso. apply Hn. left.
      unfold stream_eqb in E. apply andb_prop in E. destruct E as [E Er].
      apply andb_prop in E. destruct E as [Eo Ed].
      apply Z.eqb_eq in Er, Ed.
      destruct s as [o d r], a as [o' d' r']. cbn [owner device rate] in *.
      subst. destruct o, o'; try discriminate; reflexivity.
    + f_equal. apply IH. intros H. apply Hn. right. exact H.
Qed.

(** X13.  Starting the meter and stopping it again gives the device back:
    when the meter is idle, every PyAudio call succeeds and the host has no
    equal stream already, [start_vu_meter] followed by [stop_vu_meter]
    leaves the host as it was, with no stream and no PyAudio instance held
    by the window. *)
Theorem vu_meter_start_stop_round_trip :
  forall (pa : PortAudio) (self : MainWindow) (host : Host) (i r : Z),
    vu_stream self = None ->
    pa_init pa = Ok tt ->
    device_rate pa i = Ok r ->
    pa_open pa (mk_stream VuMeterStream i r) host = Ok tt ->
    stream_close pa (mk_stream VuMeterStream i r) = Ok tt ->
    ~ In (mk_stream VuMeterStream i r) host ->
    let '(self1, host1, _) := start_vu_meter pa (Some i) self host in
    let '(self2, host2, _) := stop_vu_meter pa self1 host1 in
    vu_stream self1 = Some (mk_stream VuMeterStream i r) /\
    host1 = host ++ [mk_stream VuMeterStream i r] /\
    host2 = host /\ vu_stream self2 = None /\ vu_audio self2 = false.
Proof.
  intros pa self host i r Hv Hi Hr Ho Hc Hn.
  unfold start_vu_meter, stop_vu_meter. rewrite Hv, Hi, Hr, Ho.
  cbn [vu_stream set_vu_stream set_vu_audio vu_audio]. rewrite Hc.
  repeat split. apply close_stream_fresh, Hn.
Qed.

Lemma vu_meter_start_stop_round_trip_witness :
  let '(self1, host1, _) := start_vu_meter Sample.pa_ok (Some 0) Sample.w0 [] in
  let '(self2, host2, _) := stop_vu_meter Sample.pa_ok self1 host1 in
  vu_stream self1 = Some (mk_stream VuMeterStream 0 44100) /\
  host1 = [] ++ [mk_stream VuMeterStream 0 44100] /\
  host2 = [] /\ vu_stream self2 = None /\ vu_audio self2 = false.
Proof.
  apply (vu_meter_start_stop_round_trip Sample.pa_ok Sample.w0 [] 0 44100);
    try reflexivity.
  intros [].
Defined.

(** X14.  When any of the three PyAudio calls of [start_vu_meter] raises,
    the meter is left without a stream, nothing is opened on the host, the
    timer is not started and the last thing done is to set the meter to 0. *)
Theorem start_vu_meter_failure :
  forall (pa : PortAudio) (self : MainWindow) (host : Host) (i : Z),
    vu_stream self = None ->
    (pa_init pa <> Ok tt \/
     (exists exc, device_rate pa i = Raise exc) \/
     (forall r, device_rate pa i = Ok r ->
                exists exc, pa_open pa (mk_stream VuMeterStream i r) host = Raise exc)) ->
    let '(self', host', eff) := start_vu_meter pa (Some i) self host in
    vu_stream self' = None /\ host' = host /\
    existsb (fun e => match e with timer_start => true | _ => false end) eff = false /\
    last eff timer_stop = setValue vu_meter 0.
Proof.
  intros pa self host i Hv Hfail.
  unfold start_vu_meter, stop_vu_meter. rewrite Hv.
  destruct (pa_init pa) as [[]|e1]; [|repeat split].
  destruct (device_rate pa i) as [r|e2]; [|repeat split].
  destruct (pa_open pa (mk_stream VuMeterStream i r) host) as [[]|e3] eqn:Eo; [|repeat split].
  exfalso. destruct Hfail as [H|[[exc H]|H]].
  - congruence.
  - discriminate.
  - destruct (H r eq_refl) as [exc H']. congruence.
Qed.

Lemma start_vu_meter_failure_witness :
  let '(self', host', eff) := start_vu_meter Scenario.pa_no_meter (Some 0) Sample.w0 [] in
  vu_stream self' = None /\ host' = [] /\
  existsb (fun e => match e with timer_start => true | _ => false end) eff = false /\
  last eff timer_stop = setValue vu_meter 0.
Proof.
  apply (start_vu_meter_failure Scenario.pa_no_meter Sample.w0 [] 0).
  - reflexivity.
  - left. discriminate.
Defined.

(** X15.  [stop_recording] ends the session whatever state the window is
    in: afterwards no session and no meter stream are held, the next tick of
    the meter shows 0, and [start_recording] is accepted again (with a
    microphone that initialises, a new session starts).  The stopper of the
    listener is called exactly when a session was active. *)
Theorem stop_recording_ends_session :
  forall (pa : PortAudio) (self : MainWindow) (host : Host),
    let '(self', host', eff) := stop_recording pa self host in
    stt_stop self' = None /\ vu_stream self' = None /\ vu_audio self' = false /\
    (forall read, update_vu_level read self' = [setValue vu_meter 0]) /\
    (existsb (fun e => match e with stop_listening _ => true | _ => false end) eff = true
     <-> stt_stop self <> None) /\
    last eff sound_stop = Ui (setValue vu_meter 0) /\
    (forall pa' i mic_rate,
       mic_combo self = Some i -> active_mics self <> [] ->
       microphone pa' i = Ok mic_rate ->
       stt_stop (fst (fst (start_recording pa' self' host'))) = Some (i, stt_lang self)).
Proof.
  intros pa self host. unfold stop_recording, stop_vu_meter.
  cbn [stt_stop set_stt_stop vu_stream set_vu_stream vu_audio set_vu_audio].
  repeat split.
  - destruct (stt_stop self); [discriminate|]. cbn. discriminate.
  - intros H. destruct (stt_stop self); [reflexivity|congruence].
  - destruct (stt_stop self); reflexivity.
  - intros pa' i mic_rate Hm Ha Hmic.
    match goal with
    | |- context [start_recording pa' ?w ?h] =>
      pose proof (start_recording_session pa' w h i mic_rate) as H;
      destruct (start_recording pa' w h) as [[s1 h1] e1]
    end.
    cbn [fst]. destruct H as [H _]; try reflexivity; assumption.
Qed.

Lemma stop_recording_ends_session_witness :
  let '(self', host', eff) :=
    stop_recording Sample.pa_ok Sample.w_metering [mk_stream VuMeterStream 0 44100] in
  stt_stop self' = None /\ vu_stream self' = None /\ host' = [].
Proof.
  pose proof (stop_recording_ends_session
                Sample.pa_ok Sample.w_metering [mk_stream VuMeterStream 0 44100]) as H.
  destruct (stop_recording Sample.pa_ok Sample.w_metering [mk_stream VuMeterStream 0 44100])
    as [[self' host'] eff] eqn:E.
  destruct H as (H1 & H2 & _).
  split; [exact H1|]. split; [exact H2|].
  vm_compute in E. injection E as _ <- _. reflexivity.
Defined.

(** ** The level scale *)

Lemma sample16_range (lo hi : byte) : -32768 <= Level.sample16 lo hi <= 32767.
Proof.
  unfold Level.sample16, Level.byte_val.
  pose proof (Byte.to_N_bounded lo). pose proof (Byte.to_N_bounded hi).
  destruct (_ <? 32768) eqn:E; [apply Z.ltb_lt in E|apply Z.ltb_ge in E]; lia.
Qed.

Lemma samples16_range (data : list byte) (samples : list Z) :
  Level.samples16 data = Some samples ->
  Forall (fun v => -32768 <= v <= 32767) samples.
Proof.
  enough (H : (forall samples, Level.samples16 data = Some samples ->
                               Forall (fun v => -32768 <= v <= 32767) samples)
              /\ forall b samples, Level.samples16 (b :: data) = Some samples ->
                                   Forall (fun v => -32768 <= v <= 32767) samples)
    by (apply H).
  clear samples. induction data as [|c data [IH1 IH2]].
  - split; intros; cbn in *; [|discriminate]. injection H as <-. constructor.
  - split; [apply IH2|].
    intros b samples. cbn [Level.samples16].
    destruct (Level.samples16 data) as [l|]; [|discriminate].
    intros H. injection H as <-. constructor; [apply sample16_range|apply IH1; reflexivity].
Qed.

Lemma rms_between (samples : list Z) (lo hi : Z) :
  samples <> [] -> 0 <= lo ->
  Forall (fun v => lo <= Z.abs v <= hi) samples ->
  lo <= Z.sqrt (Level.sum_squares samples / Z.of_nat (List.length samples)) <= hi.
Proof.
  intros Hne Hlo Hall.
  set (n := Z.of_nat (List.length samples)).
  assert (Hn : 0 < n) by (subst n; destruct samples; [congruence|cbn [List.length]; lia]).
  assert (Hs : n * (lo * lo) <= Level.sum_squares samples <= n * (hi * hi)).
  { apply sum_squares_between. eapply Forall_impl; [|exact Hall].
    intros a Ha. cbv beta in Ha. rewrite <- (Z.abs_square a). nia. }
  assert (Hhi : 0 <= hi).
  { destruct samples as [|v l]; [congruence|]. inversion Hall; subst. lia. }
  assert (Hq : lo * lo <= Level.sum_squares samples / n <= hi * hi).
  { split; [apply Z.div_le_lower_bound; lia|apply Z.div_le_upper_bound; lia]. }
  split.
  - rewrite <- (Z.sqrt_square lo) at 1 by exact Hlo. apply Z.sqrt_le_mono. lia.
  - rewrite <- (Z.sqrt_square hi) at 1 by exact Hhi. apply Z.sqrt_le_mono. lia.
Qed.

(** X16.  [audioop.rms] of 16-bit data lies between the smallest and the
    largest magnitude of its samples; in particular it is between 0 and
    32768, and on a frame of constant magnitude it is that magnitude. *)
Theorem rms_between_sample_magnitudes :
  forall (data : list byte) (samples : list Z) (r : Z),
    Level.samples16 data = Some samples ->
    Level.rms data 2 = Ok r ->
    0 <= r <= 32768 /\
    forall lo hi,
      samples <> [] -> 0 <= lo ->
      Forall (fun v => lo <= Z.abs v <= hi) samples ->
      lo <= r <= hi.
Proof.
  intros data samples r Hs Hr. unfold Level.rms in Hr. cbn [Z.eqb Pos.eqb negb] in Hr.
  rewrite Hs in Hr. pose proof (samples16_range data samples Hs) as Hrange.
  destruct samples as [|v l].
  - injection Hr as <-. split; [lia|]. intros lo hi Hne. congruence.
  - injection Hr as <-. split.
    + apply (rms_between (v :: l) 0 32768); [discriminate|lia|].
      eapply Forall_impl; [|exact Hrange]. intros a Ha. cbv beta in Ha. lia.
    + intros lo hi Hne Hlo Hall. apply rms_between; assumption.
Qed.

Lemma rms_between_sample_magnitudes_witness :
  Level.rms (Level.encode16 [1000; -1000]) 2 = Ok 1000 /\ 1000 <= 1000 <= 1000.
Proof.
  assert (H1 : Level.samples16 (Level.encode16 [1000; -1000]) = Some [1000; -1000])
    by (vm_compute; reflexivity).
  assert (H2 : Level.rms (Level.encode16 [1000; -1000]) 2 = Ok 1000)
    by (vm_compute; reflexivity).
  split; [exact H2|].
  apply (proj2 (rms_between_sample_magnitudes
                  (Level.encode16 [1000; -1000]) [1000; -1000] 1000 H1 H2) 1000 1000).
  - discriminate.
  - lia.
  - repeat (apply Forall_cons; [lia|]). apply Forall_nil.
Defined.

Lemma level_table : level_agrees_from 0 32769 = true.
Proof. vm_compute. reflexivity. Qed.

Lemma level_agrees_from_spec (count : nat) :
  forall lo r,
    level_agrees_from lo count = true -> lo <= r < lo + Z.of_nat count ->
    Level.level_of_rms r = Ok (Z.min 100 (r / 300)).
Proof.
  induction count as [|count IH]; intros lo r T Hr; [lia|].
  cbn [level_agrees_from] in T.
  destruct (Level.level_of_rms lo) as [l|exc] eqn:E; [|discriminate].
  apply andb_prop in T. destruct T as [Tl T].
  destruct (Z.eq_dec r lo) as [->|Hne].
  - rewrite E. f_equal. apply Z.eqb_eq, Tl.
  - apply (IH (lo + 1)); [exact T|lia].
Qed.

Lemma level_of_rms_exact (r : Z) :
  0 <= r <= 32768 -> Level.level_of_rms r = Ok (Z.min 100 (r / 300)).
Proof.
  intros Hr. apply (level_agrees_from_spec 32769 0 r level_table).
  assert (E : Z.of_nat 32769 = 32769) by (vm_compute; reflexivity).
  rewrite E. lia.
Qed.

Lemma rms_range (data : list byte) (r : Z) : Level.rms data 2 = Ok r -> 0 <= r <= 32768.
Proof.
  intros Hr. assert (Hcopy := Hr).
  unfold Level.rms in Hr. cbn [Z.eqb Pos.eqb negb] in Hr.
  destruct (Level.samples16 data) as [samples|] eqn:Hs; [|discriminate].
  pose proof (samples16_range data samples Hs) as Hrange.
  destruct samples as [|v l]; injection Hr as <-; [lia|].
  apply (rms_between (v :: l) 0 32768); [discriminate|lia|].
  eapply Forall_impl; [|exact Hrange]. intros a Ha. cbv beta in Ha. lia.
Qed.

(** X17.  With a stream open and a frame read, the meter shows exactly
    [min(100, rms // 300)] (the float division and [int] of the source never
    differ from the integer quotient on 16-bit data); so a louder frame
    never shows less, the meter shows 0 exactly below an rms of 300 and 100
    exactly from an rms of 30000. *)
Theorem vu_level_exact :
  forall (data : list byte) (self : MainWindow) (r : Z),
    vu_stream self <> None ->
    Level.rms data 2 = Ok r ->
    update_vu_level (Ok data) self = [setValue vu_meter (Z.min 100 (r / 300))] /\
    (Z.min 100 (r / 300) = 0 <-> r < 300) /\
    (Z.min 100 (r / 300) = 100 <-> 30000 <= r) /\
    (forall data' r',
       Level.rms data' 2 = Ok r' -> r <= r' ->
       exists l',
         update_vu_level (Ok data') self = [setValue vu_meter l'] /\
         Z.min 100 (r / 300) <= l').
Proof.
  intros data self r Hv Hr. pose proof (rms_range data r Hr) as Hb.
  assert (Hexact : forall d x, Level.rms d 2 = Ok x ->
            update_vu_level (Ok d) self = [setValue vu_meter (Z.min 100 (x / 300))]).
  { intros d x Hx. unfold update_vu_level.
    destruct (vu_stream self); [|congruence]. cbn [bind]. rewrite Hx. cbn [bind].
    rewrite (level_of_rms_exact x (rms_range d x Hx)). reflexivity. }
  split; [apply Hexact, Hr|].
  assert (Hq : 0 <= r / 300) by (apply Z.div_pos; lia).
  split; [|split].
  - split; intros H.
    + assert (r / 300 = 0) by lia. apply Z.div_small_iff in H0; lia.
    + rewrite Z.div_small by lia. reflexivity.
  - split; intros H.
    + assert (100 <= r / 300) by lia.
      destruct (Z.lt_ge_cases r 30000) as [Hlt|Hge]; [|exact Hge].
      assert (r / 300 < 100) by (apply Z.div_lt_upper_bound; lia). lia.
    + assert (100 <= r / 300) by (apply Z.div_le_lower_bound; lia). lia.
  - intros data' r' Hr' Hle. eexists. split; [apply Hexact, Hr'|].
    assert (r / 300 <= r' / 300) by (apply Z.div_le_mono; lia). lia.
Qed.

Lemma vu_level_exact_witness :
  update_vu_level (Ok (Level.encode16 [1000; -1000])) Sample.w_metering
  = [setValue vu_meter 3].
Proof.
  assert (H1 : vu_stream Sample.w_metering <> None) by discriminate.
  assert (H2 : Level.rms (Level.encode16 [1000; -1000]) 2 = Ok 1000)
    by (vm_compute; reflexivity).
  exact (proj1 (vu_level_exact (Level.encode16 [1000; -1000]) Sample.w_metering 1000 H1 H2)).
Defined.

(** X18.  A frame with a byte left over (not a whole number of 16-bit
    samples) makes [audioop.rms] raise and the meter show 0; a frame whose
    samples are all below 300 in magnitude shows 0 and one whose samples are
    all at least 30000 in magnitude shows 100. *)
Theorem vu_level_quiet_loud_malformed :
  forall (data : list byte) (self : MainWindow),
    vu_stream self <> None ->
    (forall samples,
       Level.samples16 data = Some samples ->
       Forall (fun v => Z.abs v < 300) samples ->
       update_vu_level (Ok data) self = [setValue vu_meter 0]) /\
    (forall samples,
       Level.samples16 data = Some samples -> samples <> [] ->
       Forall (fun v => 30000 <= Z.abs v) samples ->
       update_vu_level (Ok data) self = [setValue vu_meter 100]) /\
    (Nat.odd (List.length data) = true ->
     update_vu_level (Ok data) self = [setValue vu_meter 0]).
Proof.
  intros data self Hv. unfold update_vu_level.
  destruct (vu_stream self) as [s|]; [clear Hv|congruence]. cbn [bind].
  split; [|split].
  - intros samples Hs Hq.
    destruct (Level.rms data 2) as [r|exc] eqn:Er; cbn [bind]; [|reflexivity].
    assert (Hr : 0 <= r < 300).
    { unfold Level.rms in Er. cbn [Z.eqb Pos.eqb negb] in Er. rewrite Hs in Er.
      destruct samples as [|v l]; injection Er as <-; [lia|].
      pose proof (rms_between (v :: l) 0 299) as Hb.
      destruct Hb as [Hb1 Hb2]; [discriminate|lia| |split; [exact Hb1|]].
      - eapply Forall_impl; [|exact Hq]. intros a Ha. cbv beta in Ha. lia.
      - apply Z.le_lt_trans with (1 := Hb2). reflexivity. }
    rewrite (level_of_rms_exact r) by lia. rewrite Z.div_small by lia. reflexivity.
  - intros samples Hs Hne Hl.
    pose proof (samples16_range data samples Hs) as Hrange.
    unfold Level.rms. cbn [Z.eqb Pos.eqb negb]. rewrite Hs.
    destruct samples as [|v l]; [congruence|]. cbn [bind].
    set (r := Z.sqrt (Level.sum_squares (v :: l) / Z.of_nat (List.length (v :: l)))).
    assert (Hr : 30000 <= r <= 32768).
    { apply rms_between; [discriminate|lia|].
      rewrite Forall_forall in *. intros a Ha.
      specialize (Hl a Ha). specialize (Hrange a Ha). cbv beta in *. lia. }
    rewrite (level_of_rms_exact r) by lia.
    assert (100 <= r / 300) by (apply Z.div_le_lower_bound; lia).
    replace (Z.min 100 (r / 300)) with 100 by lia. reflexivity.
  - intros Hodd.
    assert (Hnone : Level.samples16 data = None).
    { clear -Hodd.
      enough (H : (Nat.odd (List.length data) = true -> Level.samples16 data = None)
                  /\ forall b, Nat.odd (List.length (b :: data)) = true ->
                               Level.samples16 (b :: data) = None) by (apply H; exact Hodd).
      clear Hodd. induction data as [|c data [IH1 IH2]].
      - split; [cbn; discriminate|]. intros b _. reflexivity.
      - split; [apply IH2|]. intros b Hb. cbn [Level.samples16].
        rewrite IH1; [reflexivity|].
        cbn [List.length] in Hb. rewrite Nat.odd_succ, Nat.even_succ in Hb. exact Hb. }
    unfold Level.rms. cbn [Z.eqb Pos.eqb negb]. rewrite Hnone. reflexivity.
Qed.

Lemma vu_level_quiet_loud_malformed_witness :
  update_vu_level (Ok [Byte.x00; Byte.x01; Byte.x02]) Sample.w_metering
  = [setValue vu_meter 0].
Proof.
  assert (H1 : vu_stream Sample.w_metering <> None) by discriminate.
  apply (proj2 (proj2 (vu_level_quiet_loud_malformed
                         [Byte.x00; Byte.x01; Byte.x02] Sample.w_metering H1))).
  reflexivity.
Defined.

(** ** Settings *)

Lemma pystr_eqb_eq (a b : pystr) : Settings.pystr_eqb a b = true <-> a = b.
Proof.
  revert b. induction a as [|x a IH]; destruct b as [|y b]; cbn [Settings.pystr_eqb];
    try (split; [discriminate|congruence]); [split; reflexivity|].
  rewrite andb_true_iff, N.eqb_eq, IH. split; [intros [-> ->]; reflexivity|].
  intros H. injection H as -> ->. split; reflexivity.
Qed.

Lemma pystr_eqb_refl (a : pystr) : Settings.pystr_eqb a a = true.
Proof. apply pystr_eqb_eq. reflexivity. Qed.

Lemma get_setitem_same (k : pystr) (v : Settings.json) (d : Settings.dict) :
  Settings.get (Settings.setitem k v d) k = Some v.
Proof.
  induction d as [|[k0 v0] d IH]; cbn [Settings.setitem Settings.get].
  - rewrite pystr_eqb_refl. reflexivity.
  - destruct (Settings.pystr_eqb k0 k) eqn:E; cbn [Settings.get]; rewrite E; [reflexivity|exact IH].
Qed.

Lemma get_setitem_other (k k' : pystr) (v : Settings.json) (d : Settings.dict) :
  Settings.pystr_eqb k k' = false ->
  Settings.get (Settings.setitem k v d) k' = Settings.get d k'.
Proof.
  intros Hk. induction d as [|[k0 v0] d IH]; cbn [Settings.setitem Settings.get].
  - rewrite Hk. reflexivity.
  - destruct (Settings.pystr_eqb k0 k) eqn:E; cbn [Settings.get].
    + apply pystr_eqb_eq in E. subst k0. rewrite Hk. reflexivity.
    + destruct (Settings.pystr_eqb k0 k'); [reflexivity|exact IH].
Qed.

(** X19.  [_read_int_config] gives the default for a missing key and for a
    value [int] rejects with [TypeError] or [ValueError] (null, a list, an
    object, NaN, a string that is not a number); it gives the stored number
    for an integer, a boolean or a finite float; and it raises only for an
    infinite float, with [OverflowError]. *)
Theorem read_int_config_cases :
  forall (int_of_str : pystr -> option Z) (config : Settings.dict) (key : pystr)
         (default : Z),
    let read := Settings._read_int_config int_of_str config key default in
    (Settings.get config key = None -> read = Settings.Return default) /\
    (forall z, Settings.get config key = Some (Settings.JInt z) ->
               read = Settings.Return z) /\
    (forall b, Settings.get config key = Some (Settings.JBool b) ->
               read = Settings.Return (if b then 1 else 0)) /\
    (forall f z, Settings.get config key = Some (Settings.JFloat f) ->
                 int_of_float f = Ok z -> read = Settings.Return z) /\
    (forall v, Settings.get config key = Some v ->
               (v = Settings.JNull \/ (exists l, v = Settings.JList l) \/
                (exists l, v = Settings.JDict l) \/ v = Settings.JFloat S754_nan \/
                (exists s, v = Settings.JStr s /\ int_of_str s = None)) ->
               read = Settings.Return default) /\
    (forall e, read = Settings.Raised e ->
               e = Settings.OverflowError /\
               exists s, Settings.get config key = Some (Settings.JFloat (S754_infinity s))).
Proof.
  intros int_of_str config key default. cbv zeta. unfold Settings._read_int_config.
  split; [|split; [|split; [|split; [|split]]]].
  - intros ->. reflexivity.
  - intros z ->. reflexivity.
  - intros b ->. reflexivity.
  - intros f z -> Hf. destruct f as [s|s| |s m e']; cbn in Hf |- *; try discriminate;
      injection Hf as <-; reflexivity.
  - intros v -> [->|[[l ->]|[[l ->]|[->|[s [-> Hs]]]]]]; cbn; try reflexivity.
    rewrite Hs. reflexivity.
  - intros e. destruct (Settings.get config key) as [v|]; [|discriminate].
    destruct v as [|b|z|f|s|l|l]; cbn; try discriminate.
    + destruct f as [s|s| |s m e']; cbn; try discriminate.
      intros H. injection H as <-. split; [reflexivity|]. exists s. reflexivity.
    + destruct (int_of_str s); discriminate.
Qed.

Lemma read_int_config_cases_witness :
  Settings._read_int_config (fun _ => None)
    [(Settings.key_volume, Settings.JStr (lit "loud"))] Settings.key_volume 100
  = Settings.Return 100.
Proof.
  pose proof (read_int_config_cases (fun _ => None)
                [(Settings.key_volume, Settings.JStr (lit "loud"))]
                Settings.key_volume 100) as H.
  cbv zeta in H. destruct H as (_ & _ & _ & _ & H & _).
  apply (H (Settings.JStr (lit "loud"))).
  - vm_compute. reflexivity.
  - right. right. right. right. exists (lit "loud"). split; reflexivity.
Defined.

Lemma read_after_set (int_of_str : pystr -> option Z) (k : pystr) (z d : Z)
    (c : Settings.dict) :
  Settings._read_int_config int_of_str (Settings.setitem k (Settings.JInt z) c) k d
  = Settings.Return z.
Proof. unfold Settings._read_int_config. rewrite get_setitem_same. reflexivity. Qed.

Ltac get_simpl :=
  repeat (rewrite get_setitem_same
          || rewrite get_setitem_other by (vm_compute; reflexivity)).

Lemma not_in_settings_keys (k : pystr) :
  ~ In k settings_keys ->
  Settings.key_stt <> k /\ Settings.key_tts <> k /\ Settings.key_speed <> k /\
  Settings.key_volume <> k /\ Settings.key_dir <> k /\ Settings.key_mic <> k.
Proof.
  unfold settings_keys. generalize Settings.key_stt Settings.key_tts Settings.key_speed
    Settings.key_volume Settings.key_dir Settings.key_mic.
  intros k1 k2 k3 k4 k5 k6 Hk. cbn [In] in Hk. repeat split; intros E; apply Hk; tauto.
Qed.

Lemma saved_config (app : Settings.App) :
  Settings.loading_config app = false ->
  let c := Settings.config (fst (Settings.save_settings app)) in
  let w := Settings.widgets app in
  Settings.get c Settings.key_stt = Some (Settings.JInt (Settings.stt_lang_index w)) /\
  Settings.get c Settings.key_tts = Some (Settings.JInt (Settings.tts_lang_index w)) /\
  Settings.get c Settings.key_speed = Some (Settings.JInt (Settings.speed_index w)) /\
  Settings.get c Settings.key_volume = Some (Settings.JInt (Settings.volume w)) /\
  Settings.get c Settings.key_dir = Some (Settings.JStr (Settings.save_dir app)) /\
  (forall m, Settings.currentData w = Some m ->
             Settings.get c Settings.key_mic = Some (Settings.JInt m)) /\
  (Settings.currentData w = None ->
   Settings.get c Settings.key_mic = Settings.get (Settings.config app) Settings.key_mic) /\
  (forall k, ~ In k settings_keys ->
             Settings.get c k = Settings.get (Settings.config app) k).
Proof.
  intros Hl. cbv zeta. unfold Settings.save_settings. rewrite Hl. cbn [fst Settings.config].
  assert (Hother : forall k k' v d, k <> k' ->
            Settings.get (Settings.setitem k v d) k' = Settings.get d k').
  { intros k k' v d Hne. apply get_setitem_other.
    destruct (Settings.pystr_eqb k k') eqn:E; [|reflexivity].
    apply pystr_eqb_eq in E. congruence. }
  destruct (Settings.currentData (Settings.widgets app)) as [m|];
    repeat split; get_simpl; try reflexivity; try discriminate.
  - intros m' H. injection H as <-. get_simpl. reflexivity.
  - intros k Hk. destruct (not_in_settings_keys k Hk) as (N1 & N2 & N3 & N4 & N5 & N6).
    rewrite !Hother by assumption. reflexivity.
  - intros k Hk. destruct (not_in_settings_keys k Hk) as (N1 & N2 & N3 & N4 & N5 & N6).
    rewrite !Hother by assumption. reflexivity.
Qed.

(** X20.  While [loading_config] is set [save_settings] changes nothing and
    writes nothing.  Otherwise it writes the configuration once, and in it
    [_read_int_config] finds the four widget values again whatever the keys
    held before, the directory is stored as a string, the selected
    microphone is stored when there is one and the old entry is kept when
    there is none, and every other key of the file is kept. *)
Theorem save_settings_stores_widgets :
  forall (int_of_str : pystr -> option Z) (app : Settings.App),
    (Settings.loading_config app = true -> Settings.save_settings app = (app, [])) /\
    (Settings.loading_config app = false ->
     let '(app', writes) := Settings.save_settings app in
     let c := Settings.config app' in
     let w := Settings.widgets app in
     writes = [c] /\ Settings.widgets app' = w /\
     Settings._read_int_config int_of_str c Settings.key_stt 0
     = Settings.Return (Settings.stt_lang_index w) /\
     Settings._read_int_config int_of_str c Settings.key_tts 0
     = Settings.Return (Settings.tts_lang_index w) /\
     Settings._read_int_config int_of_str c Settings.key_speed 1
     = Settings.Return (Settings.speed_index w) /\
     Settings._read_int_config int_of_str c Settings.key_volume 100
     = Settings.Return (Settings.volume w) /\
     Settings.get c Settings.key_dir = Some (Settings.JStr (Settings.save_dir app)) /\
     (forall m, Settings.currentData w = Some m ->
                Settings.get c Settings.key_mic = Some (Settings.JInt m)) /\
     (Settings.currentData w = None ->
      Settings.get c Settings.key_mic = Settings.get (Settings.config app) Settings.key_mic) /\
     (forall k, ~ In k settings_keys ->
                Settings.get c k = Settings.get (Settings.config app) k)).
Proof.
  intros int_of_str app. split.
  - intros Hl. unfold Settings.save_settings. rewrite Hl. reflexivity.
  - intros Hl. pose proof (saved_config app Hl) as H. cbv zeta in H.
    destruct (Settings.save_settings app) as [app' writes] eqn:E. cbn [fst] in H.
    destruct H as (H1 & H2 & H3 & H4 & H5 & H6 & H7 & H8).
    assert (Hw : writes = [Settings.config app'] /\ Settings.widgets app' = Settings.widgets app).
    { unfold Settings.save_settings in E. rewrite Hl in E. injection E as <- <-.
      split; reflexivity. }
    destruct Hw as [Hw1 Hw2].
    unfold Settings._read_int_config. rewrite H1, H2, H3, H4.
    repeat split; assumption.
Qed.

Lemma save_settings_stores_widgets_witness :
  let '(app', writes) := Settings.save_settings Scenario2.app_exit in
  Settings._read_int_config (fun _ => None) (Settings.config app') Settings.key_volume 100
  = Settings.Return 80 /\
  Settings.get (Settings.config app') (lit "theme") = Some (Settings.JStr (lit "dark")).
Proof.
  pose proof (proj2 (save_settings_stores_widgets (fun _ => None) Scenario2.app_exit)
                    eq_refl) as H.
  destruct (Settings.save_settings Scenario2.app_exit) as [app' writes].
  cbv zeta in H. destruct H as (_ & _ & _ & _ & _ & Hv & _ & _ & _ & Hk).
  split; [exact Hv|]. rewrite Hk; [reflexivity|].
  vm_compute. intros [H|[H|[H|[H|[H|[H|[]]]]]]]; discriminate.
Defined.

Lemma findData_from_found (items : list (option Z)) (m : Z) :
  forall i, 0 <= i ->
    let r := Settings.findData_from i items m in
    r = -1 \/
    (i <= r /\ nth_error items (Z.to_nat (r - i)) = Some (Some m)).
Proof.
  induction items as [|[x|] items IH]; intros i Hi; cbn [Settings.findData_from].
  - left. reflexivity.
  - destruct (x =? m) eqn:E.
    + right. apply Z.eqb_eq in E. subst x. split; [lia|].
      rewrite Z.sub_diag. reflexivity.
    + destruct (IH (i + 1) ltac:(lia)) as [H|[H1 H2]]; [left; exact H|right].
      split; [lia|].
      replace (Z.to_nat (Settings.findData_from (i + 1) items m - i))
        with (S (Z.to_nat (Settings.findData_from (i + 1) items m - (i + 1)))) by lia.
      exact H2.
  - destruct (IH (i + 1) ltac:(lia)) as [H|[H1 H2]]; [left; exact H|right].
    split; [lia|].
    replace (Z.to_nat (Settings.findData_from (i + 1) items m - i))
      with (S (Z.to_nat (Settings.findData_from (i + 1) items m - (i + 1)))) by lia.
    exact H2.
Qed.

Lemma findData_from_exists (items : list (option Z)) (m : Z) :
  forall i n, 0 <= i -> nth_error items n = Some (Some m) ->
    i <= Settings.findData_from i items m.
Proof.
  induction items as [|[x|] items IH]; intros i n Hi Hn; cbn [Settings.findData_from].
  - destruct n; discriminate.
  - destruct (x =? m) eqn:E; [lia|].
    destruct n as [|n]; cbn [nth_error] in Hn.
    + injection Hn as ->. rewrite Z.eqb_refl in E. discriminate.
    + specialize (IH (i + 1) n ltac:(lia) Hn). lia.
  - destruct n as [|n]; cbn [nth_error] in Hn; [discriminate|].
    specialize (IH (i + 1) n ltac:(lia) Hn). lia.
Qed.

Lemma currentData_found (w : Settings.Widgets) (m : Z) :
  0 <= Settings.findData w m ->
  Settings.currentData
    (Settings.mk_widgets (Settings.stt_lang_index w) (Settings.tts_lang_index w)
                         (Settings.speed_index w) (Settings.volume w)
                         (Settings.mic_data w) (Settings.findData w m))
  = Some m.
Proof.
  intros H. unfold Settings.currentData, Settings.findData in *.
  cbn [Settings.mic_index Settings.mic_data].
  destruct (findData_from_found (Settings.mic_data w) m 0 ltac:(lia)) as [E|[_ E]];
    cbv zeta in E; [lia|].
  replace (Settings.findData_from 0 (Settings.mic_data w) m <? 0) with false
    by (symmetry; apply Z.ltb_ge; exact H).
  rewrite Z.sub_0_r in E. rewrite E. reflexivity.
Qed.

Lemma in_range_spec (i count : Z) :
  Settings.in_range i count = true <-> 0 <= i < count.
Proof. unfold Settings.in_range. rewrite andb_true_iff, Z.leb_le, Z.ltb_lt. tauto. Qed.

(** X21.  Whatever the configuration holds, when [restore_settings]
    returns, the three fixed combo boxes still hold an index that exists (a
    stored index that is negative or too large is ignored), the microphone
    box either keeps its selection or selects an item holding a device
    index, the configuration is untouched and [loading_config] is cleared. *)
Theorem restore_settings_keeps_indices_valid :
  forall (int_of_str : pystr -> option Z) (Path : pystr -> pystr) (home : pystr)
         (setValue : Z -> Settings.outcome Z) (app app' : Settings.App),
    Settings.valid (Settings.widgets app) ->
    Settings.restore_settings int_of_str Path home setValue app = Settings.Return app' ->
    Settings.valid (Settings.widgets app') /\
    Settings.mic_data (Settings.widgets app') = Settings.mic_data (Settings.widgets app) /\
    (Settings.mic_index (Settings.widgets app') = Settings.mic_index (Settings.widgets app) \/
     exists m, Settings.currentData (Settings.widgets app') = Some m) /\
    Settings.config app' = Settings.config app /\
    Settings.loading_config app' = false.
Proof.
  intros int_of_str Path home setValue app app' (Hs & Ht & Hp) H.
  unfold Settings.restore_settings in H.
  destruct (Settings._read_int_config int_of_str _ Settings.key_stt 0) as [stt|]; [|discriminate].
  destruct (Settings._read_int_config int_of_str _ Settings.key_tts 0) as [tts|]; [|discriminate].
  destruct (Settings._read_int_config int_of_str _ Settings.key_speed 1) as [sp|]; [|discriminate].
  destruct (Settings._read_int_config int_of_str _ Settings.key_volume 100) as [vol|];
    [|discriminate].
  destruct (Settings.saved_dir Path home _) as [dir|]; [|discriminate].
  cbn [Settings.then_] in H.
  destruct (setValue vol) as [vol'|]; [|discriminate]. cbn [Settings.then_] in H.
  match type of H with
  | Settings.then_ ?m _ = _ => destruct m as [mic|] eqn:Em; [|discriminate]
  end.
  cbn [Settings.then_] in H. injection H as <-.
  cbn [Settings.widgets Settings.config Settings.loading_config Settings.mic_data
       Settings.mic_index].
  split; [|split; [reflexivity|split; [|split; reflexivity]]].
  - unfold Settings.valid.
    cbn [Settings.stt_lang_index Settings.tts_lang_index Settings.speed_index].
    repeat split;
      match goal with
      | |- context [Settings.in_range ?i ?c] =>
        destruct (Settings.in_range i c) eqn:E; [apply in_range_spec in E|]; lia
      end.
  - destruct (Settings.get (Settings.config app) Settings.key_mic) as [v|];
      [|injection Em as <-; left; reflexivity].
    assert (Hcase : v = Settings.JNull \/ v <> Settings.JNull)
      by (destruct v; [left; reflexivity|right; discriminate..]).
    destruct Hcase as [->|Hv]; [injection Em as <-; left; reflexivity|].
    assert (Em' : Settings.except_type_value
                    (Settings.then_ (Settings.int int_of_str v)
                       (fun saved_idx =>
                          Settings.Return
                            (if 0 <=? Settings.findData (Settings.widgets app) saved_idx
                             then Settings.findData (Settings.widgets app) saved_idx
                             else Settings.mic_index (Settings.widgets app))))
                    (Settings.mic_index (Settings.widgets app)) = Settings.Return mic).
    { destruct v; try exact Em. }
    clear Em. destruct (Settings.int int_of_str v) as [saved|[| |]];
      cbn [Settings.then_ Settings.except_type_value] in Em';
      try (injection Em' as <-; left; reflexivity); [|discriminate].
    injection Em' as <-.
    destruct (0 <=? Settings.findData (Settings.widgets app) saved) eqn:E;
      [|left; reflexivity].
    right. exists saved. apply Z.leb_le in E.
    unfold Settings.currentData. cbn [Settings.mic_index Settings.mic_data].
    pose proof (currentData_found (Settings.widgets app) saved E) as Hc.
    unfold Settings.currentData in Hc. cbn [Settings.mic_index Settings.mic_data] in Hc.
    exact Hc.
Qed.

Lemma restore_settings_keeps_indices_valid_witness :
  exists app',
    Settings.restore_settings (fun _ => None) (fun p => p) (lit "/home/user") Scenario2.slider
      (Settings.mk_app [(Settings.key_stt, Settings.JInt 99);
                        (Settings.key_speed, Settings.JInt (-3))]
                       true (lit "/home/user") Scenario2.widgets_init)
    = Settings.Return app' /\
    Settings.valid (Settings.widgets app').
Proof.
  eexists. split; [vm_compute; reflexivity|].
  eapply (restore_settings_keeps_indices_valid
            (fun _ => None) (fun p => p) (lit "/home/user") Scenario2.slider
            (Settings.mk_app [(Settings.key_stt, Settings.JInt 99);
                              (Settings.key_speed, Settings.JInt (-3))]
                             true (lit "/home/user") Scenario2.widgets_init)).
  - unfold Settings.valid, Settings.LANG_COUNT, Settings.SPEED_COUNT. cbn. lia.
  - vm_compute. reflexivity.
Defined.

(** X22.  Settings survive a restart: if the window saved its settings with
    valid indices and a microphone selected, then [restore_settings] on that
    configuration, from whatever the fresh widgets hold (with the same
    microphones listed), puts back the three indices, the volume, the
    directory and the microphone.  (The slider is assumed to accept the
    saved volume and the saved directory to be a path in normal form.) *)
Theorem settings_round_trip :
  forall (int_of_str : pystr -> option Z) (Path : pystr -> pystr) (home : pystr)
         (setValue : Z -> Settings.outcome Z)
         (saved : Settings.App) (dir0 : pystr) (w0 : Settings.Widgets) (m : Z),
    Settings.loading_config saved = false ->
    Settings.valid (Settings.widgets saved) ->
    Settings.currentData (Settings.widgets saved) = Some m ->
    Settings.mic_data w0 = Settings.mic_data (Settings.widgets saved) ->
    setValue (Settings.volume (Settings.widgets saved))
    = Settings.Return (Settings.volume (Settings.widgets saved)) ->
    Path (Settings.save_dir saved) = Settings.save_dir saved ->
    let c := Settings.config (fst (Settings.save_settings saved)) in
    exists app',
      Settings.restore_settings int_of_str Path home setValue
                                (Settings.mk_app c true dir0 w0)
      = Settings.Return app' /\
      let w := Settings.widgets saved in
      let w' := Settings.widgets app' in
      Settings.stt_lang_index w' = Settings.stt_lang_index w /\
      Settings.tts_lang_index w' = Settings.tts_lang_index w /\
      Settings.speed_index w' = Settings.speed_index w /\
      Settings.volume w' = Settings.volume w /\
      Settings.currentData w' = Some m /\
      Settings.save_dir app' = Settings.save_dir saved /\
      Settings.loading_config app' = false.
Proof.
  intros int_of_str Path home setValue saved dir0 w0 m Hl (Hs & Ht & Hp) Hm Hd Hv HP.
  pose proof (saved_config saved Hl) as H. cbv zeta in H |- *.
  destruct H as (H1 & H2 & H3 & H4 & H5 & H6 & _ & _).
  specialize (H6 m Hm).
  set (c := Settings.config (fst (Settings.save_settings saved))) in *.
  unfold Settings.restore_settings, Settings._read_int_config, Settings.saved_dir.
  cbn [Settings.config Settings.widgets].
  rewrite H1, H2, H3, H4, H5, H6.
  cbn [Settings.int Settings.except_type_value Settings.then_].
  rewrite Hv, HP. cbn [Settings.then_ Settings.except_type_value].
  rewrite (proj2 (in_range_spec _ _) Hs), (proj2 (in_range_spec _ _) Ht),
          (proj2 (in_range_spec _ _) Hp).
  assert (Hfound : 0 <= Settings.findData w0 m).
  { unfold Settings.findData. rewrite Hd.
    unfold Settings.currentData in Hm.
    destruct (Settings.mic_index (Settings.widgets saved) <? 0); [discriminate|].
    destruct (nth_error (Settings.mic_data (Settings.widgets saved))
                        (Z.to_nat (Settings.mic_index (Settings.widgets saved))))
      as [[x|]|] eqn:En; try discriminate.
    injection Hm as ->.
    apply (findData_from_exists _ m 0 _ ltac:(lia) En). }
  rewrite (proj2 (Z.leb_le _ _) Hfound).
  eexists. split; [reflexivity|].
  cbn [Settings.widgets Settings.stt_lang_index Settings.tts_lang_index
       Settings.speed_index Settings.volume Settings.save_dir Settings.loading_config].
  repeat split.
  pose proof (currentData_found w0 m Hfound) as Hc.
  unfold Settings.currentData in *. cbn [Settings.mic_index Settings.mic_data] in *.
  exact Hc.
Qed.

Lemma settings_round_trip_witness :
  exists app',
    Settings.restore_settings (fun _ => None) (fun p => p) (lit "/home/user") Scenario2.slider
      (Settings.mk_app (Settings.config (fst (Settings.save_settings Scenario2.app_exit)))
                       true (lit "/home/user") Scenario2.widgets_init)
    = Settings.Return app' /\
    Settings.speed_index (Settings.widgets app') = 2 /\
    Settings.volume (Settings.widgets app') = 80 /\
    Settings.currentData (Settings.widgets app') = Some 4.
Proof.
  destruct (settings_round_trip
              (fun _ => None) (fun p => p) (lit "/home/user") Scenario2.slider
              Scenario2.app_exit (lit "/home/user") Scenario2.widgets_init 4)
    as (app' & E & _ & _ & H3 & H4 & H5 & _).
  - reflexivity.
  - unfold Settings.valid, Settings.LANG_COUNT, Settings.SPEED_COUNT. cbn. lia.
  - reflexivity.
  - reflexivity.
  - reflexivity.
  - reflexivity.
  - exists app'. split; [exact E|]. split; [exact H3|]. split; [exact H4|exact H5].
Defined.

(** X23.  [load_config] falls back to an empty configuration and the home
    directory when the file is missing or unreadable, keeps the current
    configuration when the document is not an object, and raises (a
    [TypeError], uncaught) exactly when the configuration it ends with binds
    [paths_last_save_dir] to something that is not a string. *)
Theorem load_config_cases :
  forall (Path : pystr -> pystr) (home : pystr) (parsed : option Settings.json)
         (app : Settings.App),
    (parsed = None ->
     Settings.load_config Path home parsed app
     = Settings.Return (Settings.mk_app [] (Settings.loading_config app) (Path home)
                                        (Settings.widgets app))) /\
    (forall app', Settings.load_config Path home parsed app = Settings.Return app' ->
       (forall data, parsed = Some (Settings.JDict data) -> Settings.config app' = data) /\
       ((forall data, parsed <> Some (Settings.JDict data)) -> parsed <> None ->
        Settings.config app' = Settings.config app) /\
       Settings.widgets app' = Settings.widgets app /\
       (Settings.get (Settings.config app') Settings.key_dir = None ->
        Settings.save_dir app' = Path home) /\
       (forall s, Settings.get (Settings.config app') Settings.key_dir
                  = Some (Settings.JStr s) ->
                  Settings.save_dir app' = Path s)) /\
    (forall e, Settings.load_config Path home parsed app = Settings.Raised e ->
       e = Settings.TypeError /\
       exists c v,
         (c = Settings.config app \/ parsed = Some (Settings.JDict c)) /\
         Settings.get c Settings.key_dir = Some v /\
         forall s, v <> Settings.JStr s).
Proof.
  intros Path home parsed app. unfold Settings.load_config.
  set (c := match parsed with
            | Some (Settings.JDict data) => data
            | Some _ => Settings.config app
            | None => []
            end).
  split; [|split].
  - intros ->. reflexivity.
  - intros app'. unfold Settings.saved_dir.
    destruct (Settings.get c Settings.key_dir) as [v|] eqn:Eg.
    + destruct v; cbn [Settings.then_]; try discriminate.
      intros H. injection H as <-. cbn [Settings.config Settings.widgets Settings.save_dir].
      rewrite Eg. repeat split; try discriminate.
      * intros data ->. reflexivity.
      * intros Hnd Hnn. subst c. destruct parsed as [[]|]; try reflexivity;
          [exfalso; eapply Hnd; reflexivity|congruence].
      * intros s' H. injection H as ->. reflexivity.
    + cbn [Settings.then_]. intros H. injection H as <-.
      cbn [Settings.config Settings.widgets Settings.save_dir]. rewrite Eg.
      repeat split; try discriminate.
      * intros data ->. reflexivity.
      * intros Hnd Hnn. subst c. destruct parsed as [[]|]; try reflexivity;
          [exfalso; eapply Hnd; reflexivity|congruence].
  - intros e. unfold Settings.saved_dir.
    destruct (Settings.get c Settings.key_dir) as [v|] eqn:Eg; [|discriminate].
    destruct v; cbn [Settings.then_]; try discriminate;
      intros H; injection H as <-; (split; [reflexivity|]);
      exists c; eexists; (split; [|split; [exact Eg|discriminate]]);
      subst c; destruct parsed as [[]|]; auto; cbn in Eg; discriminate.
Qed.

Lemma load_config_cases_witness :
  Settings.load_config (fun p => p) (lit "/home/user") None Scenario2.app_exit
  = Settings.Return (Settings.mk_app [] false (lit "/home/user")
                                     (Settings.widgets Scenario2.app_exit)).
Proof.
  exact (proj1 (load_config_cases (fun p => p) (lit "/home/user") None Scenario2.app_exit)
               eq_refl).
Defined.

(** ** Microphone enumeration *)

Lemma increasing_weaken (l : list Z) :
  forall lo lo', lo' <= lo -> Devices.increasing lo l -> Devices.increasing lo' l.
Proof.
  destruct l as [|x l]; intros lo lo' Hle H; [exact I|].
  cbn [Devices.increasing] in *. destruct H as [H1 H2]. split; [lia|exact H2].
Qed.

Lemma increasing_lower (l : list Z) :
  forall lo x, Devices.increasing lo l -> In x l -> lo <= x.
Proof.
  induction l as [|y l IH]; intros lo x H Hin; [destruct Hin|].
  cbn [Devices.increasing] in H. destruct H as [H1 H2].
  destruct Hin as [->|Hin]; [exact H1|]. specialize (IH (y + 1) x H2 Hin). lia.
Qed.

Lemma increasing_NoDup (l : list Z) : forall lo, Devices.increasing lo l -> NoDup l.
Proof.
  induction l as [|y l IH]; intros lo H; [constructor|].
  cbn [Devices.increasing] in H. destruct H as [H1 H2].
  constructor; [|exact (IH _ H2)].
  intros Hin. pose proof (increasing_lower l (y + 1) y H2 Hin). lia.
Qed.

(** What [scan] adds to the list it is given, when no query raises. *)
Lemma scan_adds (supported : Z -> Z -> bool) (devices : list (result Devices.DeviceInfo)) :
  forall idx acc res,
    Devices.scan supported idx devices acc = Ok res ->
    exists added,
      res = acc ++ added /\
      Devices.increasing idx (map fst added) /\
      (forall i n, In (i, n) added <->
         exists info,
           idx <= i /\ nth_error devices (Z.to_nat (i - idx)) = Some (Ok info) /\
           Devices.listed_as supported i info n).
Proof.
  induction devices as [|d devices IH]; intros idx acc res H; cbn [Devices.scan] in H.
  - injection H as <-. exists []. rewrite app_nil_r. split; [reflexivity|].
    split; [exact I|]. intros i n. split; [intros []|].
    intros (info & _ & Hn & _). destruct (Z.to_nat (i - idx)); discriminate.
  - destruct d as [info|exc]; cbn [bind] in H; [|discriminate].
    assert (Hskip : forall added,
              ~ (exists n, Devices.listed_as supported idx info n) ->
              Devices.increasing (idx + 1) (map fst added) ->
              (forall i n, In (i, n) added <->
                 exists info',
                   idx + 1 <= i /\
                   nth_error devices (Z.to_nat (i - (idx + 1))) = Some (Ok info') /\
                   Devices.listed_as supported i info' n) ->
              Devices.increasing idx (map fst added) /\
              (forall i n, In (i, n) added <->
                 exists info',
                   idx <= i /\
                   nth_error (Ok info :: devices) (Z.to_nat (i - idx)) = Some (Ok info') /\
                   Devices.listed_as supported i info' n)).
    { intros added Hno Hinc Hiff. split; [apply (increasing_weaken _ (idx + 1)); [lia|exact Hinc]|].
      intros i n. rewrite Hiff. split.
      - intros (info' & Hi & Hn & Hl). exists info'. split; [lia|]. split; [|exact Hl].
        replace (Z.to_nat (i - idx)) with (S (Z.to_nat (i - (idx + 1)))) by lia. exact Hn.
      - intros (info' & Hi & Hn & Hl).
        destruct (Z.eq_dec i idx) as [->|Hne].
        + rewrite Z.sub_diag in Hn. cbn in Hn. injection Hn as <-.
          exfalso. apply Hno. exists n. exact Hl.
        + exists info'. split; [lia|]. split; [|exact Hl].
          replace (Z.to_nat (i - idx)) with (S (Z.to_nat (i - (idx + 1)))) in Hn by lia.
          exact Hn. }
    destruct (match Devices.maxInputChannels info with Some n => n | None => 0 end <=? 0) eqn:Ec.
    { destruct (IH _ _ _ H) as (added & -> & Hinc & Hiff). exists added.
      split; [reflexivity|]. apply Hskip; try assumption.
      intros (n & (ch & Hch & Hpos) & _). rewrite Hch in Ec. apply Z.leb_le in Ec. lia. }
    destruct (Devices.rate_of info) as [rate|exc] eqn:Er.
    2:{ destruct (IH _ _ _ H) as (added & -> & Hinc & Hiff). exists added.
        split; [reflexivity|]. apply Hskip; try assumption.
        intros (n & _ & (r & Hr & _) & _). congruence. }
    destruct (supported idx rate) eqn:Es.
    2:{ destruct (IH _ _ _ H) as (added & -> & Hinc & Hiff). exists added.
        split; [reflexivity|]. apply Hskip; try assumption.
        intros (n & _ & (r & Hr & Hs) & _). rewrite Er in Hr. injection Hr as <-. congruence. }
    destruct (IH _ _ _ H) as (added & -> & Hinc & Hiff).
    set (nm := match Devices.name info with
               | Some s => s | None => lit "Device " ++ Devices.str_of_int idx end) in *.
    exists ((idx, nm) :: added). rewrite <- app_assoc. split; [reflexivity|].
    assert (Hl : Devices.listed_as supported idx info nm).
    { split; [|split; [exists rate; split; assumption|reflexivity]].
      apply Z.leb_gt in Ec. destruct (Devices.maxInputChannels info) as [ch|]; [|lia].
      exists ch. split; [reflexivity|lia]. }
    split; [cbn [map fst Devices.increasing]; split; [lia|exact Hinc]|].
    intros i n. cbn [In]. rewrite Hiff. split.
    + intros [E|(info' & Hi & Hn & Hl')].
      * injection E as <- <-. exists info. split; [lia|].
        rewrite Z.sub_diag. split; [reflexivity|exact Hl].
      * exists info'. split; [lia|]. split; [|exact Hl'].
        replace (Z.to_nat (i - idx)) with (S (Z.to_nat (i - (idx + 1)))) by lia. exact Hn.
    + intros (info' & Hi & Hn & Hl').
      destruct (Z.eq_dec i idx) as [->|Hne].
      * left. rewrite Z.sub_diag in Hn. cbn in Hn. injection Hn as <-.
        f_equal. destruct Hl' as (_ & _ & ->). reflexivity.
      * right. exists info'. split; [lia|]. split; [|exact Hl'].
        replace (Z.to_nat (i - idx)) with (S (Z.to_nat (i - (idx + 1)))) in Hn by lia.
        exact Hn.
Qed.

Lemma scan_raises (supported : Z -> Z -> bool) (devices : list (result Devices.DeviceInfo)) :
  forall idx acc,
    (exists exc, In (Raise exc) devices) ->
    exists exc, Devices.scan supported idx devices acc = Raise exc.
Proof.
  induction devices as [|d devices IH]; intros idx acc [exc Hin]; [destruct Hin|].
  cbn [Devices.scan].
  destruct d as [info|exc']; cbn [bind]; [|exists exc'; reflexivity].
  destruct Hin as [Hin|Hin]; [discriminate|].
  assert (Hex : exists exc, In (Raise exc) devices) by (exists exc; exact Hin).
  destruct (_ <=? 0); [apply IH, Hex|].
  destruct (Devices.rate_of info); [|apply IH, Hex].
  destruct (supported idx _); apply IH, Hex.
Qed.

Lemma scan_returns (supported : Z -> Z -> bool) (devices : list (result Devices.DeviceInfo)) :
  forall idx acc,
    (forall exc, ~ In (Raise exc) devices) ->
    exists res, Devices.scan supported idx devices acc = Ok res.
Proof.
  induction devices as [|d devices IH]; intros idx acc Hno; cbn [Devices.scan].
  - eexists. reflexivity.
  - destruct d as [info|exc]; [|exfalso; apply (Hno exc); left; reflexivity].
    cbn [bind].
    assert (Hno' : forall exc, ~ In (Raise exc) devices)
      by (intros exc H; apply (Hno exc); right; exact H).
    destruct (_ <=? 0); [apply IH, Hno'|].
    destruct (Devices.rate_of info); [|apply IH, Hno'].
    destruct (supported idx _); apply IH, Hno'.
Qed.

(** X24.  When PyAudio answers every query, [populate_microphones] lists
    exactly the devices that report at least one input channel and pass the
    format probe at their default rate, each once, in increasing device
    index, under its name (or "Device <index>"); every item of the combo
    box then carries the index of its device. *)
Theorem populate_microphones_lists_usable_inputs :
  forall (supported : Z -> Z -> bool) (devices : list (result Devices.DeviceInfo)),
    (forall exc, ~ In (Raise exc) devices) ->
    let '(active_mics, items) := Devices.populate_microphones supported (Ok devices) in
    (forall i n, In (i, n) active_mics <->
       exists info,
         0 <= i /\ nth_error devices (Z.to_nat i) = Some (Ok info) /\
         Devices.listed_as supported i info n) /\
    Devices.increasing 0 (map fst active_mics) /\
    NoDup (map fst active_mics) /\
    (active_mics <> [] -> map snd items = map (fun m => Some (fst m)) active_mics).
Proof.
  intros supported devices Hno. unfold Devices.populate_microphones. cbn [bind].
  destruct (scan_returns supported devices 0 [] Hno) as [res Hres]. rewrite Hres.
  destruct (scan_adds supported devices 0 [] res Hres) as (added & -> & Hinc & Hiff).
  cbn [app] in *.
  assert (Hmain : (forall i n, In (i, n) added <->
                     exists info,
                       0 <= i /\ nth_error devices (Z.to_nat i) = Some (Ok info) /\
                       Devices.listed_as supported i info n)).
  { intros i n. rewrite Hiff. split; intros (info & Hi & Hn & Hl); exists info;
      (split; [exact Hi|split; [|exact Hl]]).
    - rewrite Z.sub_0_r in Hn. exact Hn.
    - rewrite Z.sub_0_r. exact Hn. }
  destruct added as [|a added].
  - split; [exact Hmain|]. split; [exact I|]. split; [constructor|]. congruence.
  - split; [exact Hmain|]. split; [exact Hinc|].
    split; [exact (increasing_NoDup _ 0 Hinc)|]. intros _.
    rewrite map_map. reflexivity.
Qed.

Lemma populate_microphones_lists_usable_inputs_witness :
  let '(active_mics, items) :=
    Devices.populate_microphones Scenario3.supported (Ok Scenario3.devices) in
  NoDup (map fst active_mics).
Proof.
  assert (Hno : forall exc, ~ In (Raise exc) Scenario3.devices).
  { intros exc [H|[H|[H|[]]]]; discriminate. }
  pose proof (populate_microphones_lists_usable_inputs
                Scenario3.supported Scenario3.devices Hno) as H.
  destruct (Devices.populate_microphones Scenario3.supported (Ok Scenario3.devices))
    as [active_mics items].
  exact (proj1 (proj2 (proj2 H))).
Defined.

(** X25.  When PyAudio cannot be created, cannot count its devices, or
    raises on any single device query, [populate_microphones] ends with no
    microphone at all (devices found before the failure are dropped) and the
    combo box holds only the "no devices" item with no data; a window in
    that state refuses [start_recording] with the "no active microphone"
    box. *)
Theorem populate_microphones_failure_lists_nothing :
  forall (supported : Z -> Z -> bool) (pa : result (list (result Devices.DeviceInfo)))
         (port : PortAudio) (self : MainWindow) (host : Host),
    ((exists exc, pa = Raise exc) \/
     (exists devices exc, pa = Ok devices /\ In (Raise exc) devices)) ->
    Devices.populate_microphones supported pa = ([], [(lit "Немає пристроїв", None)]) /\
    (stt_stop self = None ->
     active_mics self = fst (Devices.populate_microphones supported pa) ->
     start_recording port self host
     = (self, host,
        [MessageBox Critical (lit "Помилка") (lit "Не знайдено активного мікрофона.")])).
Proof.
  intros supported pa port self host Hfail.
  assert (E : Devices.populate_microphones supported pa
              = ([], [(lit "Немає пристроїв", None)])).
  { unfold Devices.populate_microphones.
    destruct Hfail as [[exc ->]|(devices & exc & -> & Hin)]; [reflexivity|].
    cbn [bind].
    destruct (scan_raises supported devices 0 [] (ex_intro _ exc Hin)) as [exc' ->].
    reflexivity. }
  split; [exact E|]. rewrite E. cbn [fst]. intros Hs Ha.
  unfold start_recording. rewrite Hs, Ha. destruct (mic_combo self); reflexivity.
Qed.

Lemma populate_microphones_failure_lists_nothing_witness :
  Devices.populate_microphones Scenario3.supported
    (Ok (Scenario3.devices ++ [raise OSError "Invalid device"]))
  = ([], [(lit "Немає пристроїв", None)]).
Proof.
  apply (populate_microphones_failure_lists_nothing
           Scenario3.supported
           (Ok (Scenario3.devices ++ [raise OSError "Invalid device"]))
           Sample.pa_ok Sample.w0 []).
  right. exists (Scenario3.devices ++ [raise OSError "Invalid device"]).
  eexists. split; [reflexivity|]. apply in_or_app. right. left. reflexivity.
Defined.

(** ** Clipboard *)

(** X26.  [copy_stt_text] touches the clipboard exactly when the
    recognised text is not blank; it then copies the stripped text (which
    neither begins nor ends with white space) and adds one line to the
    history; on blank text it only shows the information box and the window
    is unchanged. *)
Theorem copy_stt_text_cases :
  forall (now stt_plain : pystr) (self : MainWindow),
    let '(self', eff) := copy_stt_text now stt_plain self in
    (strip stt_plain = [] ->
     self' = self /\
     eff = [Ui (MessageBox Information (lit "Копіювання")
                           (lit "Немає тексту для копіювання."))]) /\
    (strip stt_plain <> [] ->
     hd_error eff = Some (clipboard_setText (strip stt_plain)) /\
     (forall c, hd_error (strip stt_plain) = Some c -> isspace c = false) /\
     (forall c, hd_error (rev (strip stt_plain)) = Some c -> isspace c = false) /\
     history self'
     = appendleft (line_of (now, lit "STT текст скопійовано у буфер обміну."))
                  (history self)) /\
    (existsb (fun e => match e with clipboard_setText _ => true | _ => false end) eff = true
     <-> strip stt_plain <> []).
Proof.
  intros now stt_plain self.
  pose proof (strip_head stt_plain) as Hh. pose proof (strip_last stt_plain) as Hl.
  unfold copy_stt_text.
  destruct (strip stt_plain) as [|c t] eqn:E.
  - split; [intros _; split; reflexivity|]. split; [congruence|].
    cbn. split; [discriminate|congruence].
  - unfold add_history, line_of. cbn [fst snd history set_history hd_error existsb map].
    split; [discriminate|]. split.
    + intros _. split; [reflexivity|]. split; [exact Hh|]. split; [exact Hl|reflexivity].
    + split; [discriminate|reflexivity].
Qed.

Lemma copy_stt_text_cases_witness :
  hd_error (snd (copy_stt_text (lit "10:00:00") (lit " привіт ") Sample.w0))
  = Some (clipboard_setText (lit "привіт")).
Proof.
  pose proof (copy_stt_text_cases (lit "10:00:00") (lit " привіт ") Sample.w0) as H.
  destruct (copy_stt_text (lit "10:00:00") (lit " привіт ") Sample.w0) as [self' eff].
  destruct H as (_ & H & _). cbn [snd].
  destruct H as [H _]; [vm_compute; discriminate|].
  rewrite H. vm_compute. reflexivity.
Defined.
